(** * Cisco SMB device-type generator: a shallow embedding of [crop.py]
      and [generate.py], with the properties of their specification.

    The development has three parts:
    - [Py]: the fragment of the Python runtime the two scripts rely on
      (Unicode strings, [int()], [str.replace], binary64 arithmetic);
    - [Generate]: [slugify], [create_interfaces], [create_console_ports]
      and the per-row body of [main] from [generate.py];
    - [Crop]: [crop_transparent_png] and [enforce_10_to_1_aspect] from
      [crop.py], over a small model of Pillow images. *)

From Stdlib Require Import ZArith NArith List Bool Lia String Ascii.
From Stdlib Require Import Floats.SpecFloat Numbers.DecimalString.
From Stdlib Require Import Numbers.DecimalZ.
From stdpp Require Import base option list gmap.

Local Open Scope N_scope.

(** ** Python strings

    A [str] is a sequence of Unicode code points.  Literals of the source
    are written [lit "..."]. *)

Definition str := list N.

Definition lit (s : string) : str :=
  List.map N_of_ascii (list_ascii_of_string s).

(** ** Exceptions and results *)

Inductive exn :=
  | KeyError | ValueError | TypeError | AttributeError | OverflowError.

Inductive result (A : Type) :=
  | Ok (a : A)
  | Raise (e : exn).
Arguments Ok {A} a.
Arguments Raise {A} e.

Definition bind {A B} (r : result A) (k : A -> result B) : result B :=
  match r with
  | Ok a => k a
  | Raise e => Raise e
  end.

Notation "'let!' x ':=' r 'in' k" := (bind r (fun x => k))
  (at level 10, x pattern, r at level 100, k at level 200).

Definition of_option {A} (e : exn) (o : option A) : result A :=
  match o with
  | Some a => Ok a
  | None => Raise e
  end.

Definition raises {A} (r : result A) : Prop := exists e, r = Raise e.

Module Py.

(** *** Character classes *)

Definition is_ascii (c : N) : bool := c <? 128.

Definition ascii_lower (c : N) : N :=
  if (65 <=? c) && (c <=? 90) then c + 32 else c.

Definition ascii_upper (c : N) : N :=
  if (97 <=? c) && (c <=? 122) then c - 32 else c.

Definition is_ascii_digit (c : N) : bool := (48 <=? c) && (c <=? 57).

(** [Py_UNICODE_ISSPACE]: the code points [str.strip()] removes. *)
Definition is_space (c : N) : bool :=
  (9 <=? c) && (c <=? 13) || (28 <=? c) && (c <=? 32)
  || (c =? 133) || (c =? 160) || (c =? 5760)
  || (8192 <=? c) && (c <=? 8202)
  || (c =? 8232) || (c =? 8233) || (c =? 8239) || (c =? 8287) || (c =? 12288).

(** [Py_ISSPACE]: the C-locale white space [PyLong_FromString] skips. *)
Definition Py_ISSPACE (c : N) : bool :=
  (9 <=? c) && (c <=? 13) || (c =? 32).

(** *** The runtime's tables

    The case mappings and the digit tables of the Unicode database, the
    limit on the length of decimal literals and the decimal-to-binary64
    conversion are those of the interpreter that runs the scripts.  They
    are kept abstract, with what every CPython 3 guarantees of them. *)

Class Runtime := {
  (** [str.lower] and [str.upper] *)
  str_lower : str -> str;
  str_upper : str -> str;
  (** [Py_UNICODE_ISDIGIT] and [Py_UNICODE_TODECIMAL] *)
  unicode_isdigit : N -> bool;
  unicode_todecimal : N -> option N;
  (** [sys.get_int_max_str_digits()]; 0 turns the limit off *)
  int_max_str_digits : N;
  (** [float(s)] for a string [s]; [None] is [ValueError] *)
  float_of_str : str -> option spec_float;
  str_lower_ascii :
    forall s, forallb is_ascii s = true -> str_lower s = List.map ascii_lower s;
  str_upper_ascii :
    forall s, forallb is_ascii s = true -> str_upper s = List.map ascii_upper s;
  unicode_isdigit_ascii :
    forall c, is_ascii c = true -> unicode_isdigit c = is_ascii_digit c;
  int_max_str_digits_min :
    int_max_str_digits = 0 \/ 640 <= int_max_str_digits
}.

(** *** String methods *)

Fixpoint lstrip (p : N -> bool) (s : str) : str :=
  match s with
  | c :: s' => if p c then lstrip p s' else s
  | [] => []
  end.

Definition rstrip (p : N -> bool) (s : str) : str :=
  rev (lstrip p (rev s)).

(** [s.strip()] and [s.strip(chars)] *)
Definition strip_ws (s : str) : str := rstrip is_space (lstrip is_space s).

Definition strip_chars (chars s : str) : str :=
  let p c := existsb (N.eqb c) chars in
  rstrip p (lstrip p s).

Fixpoint startswith (pre s : str) : bool :=
  match pre, s with
  | [], _ => true
  | a :: pre', b :: s' => (a =? b) && startswith pre' s'
  | _ :: _, [] => false
  end.

(** [sub in s] *)
Fixpoint contains (sub s : str) : bool :=
  startswith sub s ||
  match s with
  | [] => false
  | _ :: s' => contains sub s'
  end.

(** [s.replace(old, new)]: every non-overlapping occurrence, left to
    right.  [skip] counts the characters of a matched occurrence that are
    still to be consumed. *)
Fixpoint replace_from (old new : str) (skip : nat) (s : str) : str :=
  match s with
  | [] => []
  | c :: s' =>
      match skip with
      | S k => replace_from old new k s'
      | O =>
          if startswith old s
          then new ++ replace_from old new (Nat.pred (List.length old)) s'
          else c :: replace_from old new O s'
      end
  end.

Definition replace (old new s : str) : str :=
  match old with
  | [] => new ++ flat_map (fun c => c :: new) s
  | _ :: _ => replace_from old new O s
  end.

(** [str.isdigit] *)
Definition isdigit `{Runtime} (s : str) : bool :=
  match s with
  | [] => false
  | _ :: _ => forallb unicode_isdigit s
  end.

(** [str(n)] for an integer *)
Fixpoint uint_str (d : Decimal.uint) : str :=
  match d with
  | Decimal.Nil => []
  | Decimal.D0 d => 48 :: uint_str d
  | Decimal.D1 d => 49 :: uint_str d
  | Decimal.D2 d => 50 :: uint_str d
  | Decimal.D3 d => 51 :: uint_str d
  | Decimal.D4 d => 52 :: uint_str d
  | Decimal.D5 d => 53 :: uint_str d
  | Decimal.D6 d => 54 :: uint_str d
  | Decimal.D7 d => 55 :: uint_str d
  | Decimal.D8 d => 56 :: uint_str d
  | Decimal.D9 d => 57 :: uint_str d
  end.

Definition str_of_int (z : Z) : str :=
  match Z.to_int z with
  | Decimal.Pos d => uint_str d
  | Decimal.Neg d => 45 :: uint_str d
  end.

(** *** Regular expressions

    [re.sub(r'C+', repl, s)] for a character class [C]: every maximal run
    of characters of the class is replaced by [repl].  [in_run] tells that
    the previous character belonged to the run being replaced. *)
Fixpoint re_sub_runs (cls : N -> bool) (repl : str) (in_run : bool) (s : str)
  : str :=
  match s with
  | [] => []
  | c :: s' =>
      if cls c
      then (if in_run then [] else repl) ++ re_sub_runs cls repl true s'
      else c :: re_sub_runs cls repl false s'
  end.

Definition re_sub_plus (cls : N -> bool) (repl s : str) : str :=
  re_sub_runs cls repl false s.

(** *** [int(s)] for a string

    [PyLong_FromUnicodeObject]: the string is first brought to ASCII
    ([_PyUnicode_TransformDecimalAndSpaceToASCII]), then read in base 10
    by [PyLong_FromString]. *)

Fixpoint transform_decimal_and_space `{Runtime} (s : str) : str :=
  match s with
  | [] => []
  | c :: s' =>
      if c <? 127 then c :: transform_decimal_and_space s'
      else if is_space c then 32 :: transform_decimal_and_space s'
      else match unicode_todecimal c with
           | Some d => (48 + d) :: transform_decimal_and_space s'
           | None => [63]
           end
  end.

Definition to_ascii_decimal `{Runtime} (s : str) : str :=
  if forallb is_ascii s then s else transform_decimal_and_space s.

(** The digits of the literal, with single underscores between them.
    Returns the value read so far, the number of digits and the rest. *)
Fixpoint scan_digits (acc : Z) (n : N) (prev_underscore : bool) (s : str)
  : option (Z * N * str) :=
  match s with
  | [] => if prev_underscore then None else Some (acc, n, [])
  | c :: s' =>
      if is_ascii_digit c
      then scan_digits (10 * acc + Z.of_N (c - 48)) (n + 1) false s'
      else if c =? 95
      then (if prev_underscore then None else scan_digits acc n true s')
      else (if prev_underscore then None else Some (acc, n, s))
  end.

(** The digits after the sign, then trailing white space up to the end. *)
Definition long_digits `{Runtime} (negative : bool) (s : str) : option Z :=
  match s with
  | c :: _ =>
      if is_ascii_digit c then
        match scan_digits 0 0 false s with
        | Some (v, digits, rest) =>
            if negb (int_max_str_digits =? 0) && (int_max_str_digits <? digits)
            then None
            else match lstrip Py_ISSPACE rest with
                 | [] => Some (if negative then (- v)%Z else v)
                 | _ :: _ => None
                 end
        | None => None
        end
      else None
  | [] => None
  end.

Definition long_from_string `{Runtime} (buf : str) : option Z :=
  match lstrip Py_ISSPACE buf with
  | c :: s' =>
      if c =? 43 then long_digits false s'
      else if c =? 45 then long_digits true s'
      else long_digits false (c :: s')
  | [] => None
  end.

Definition int_of_str `{Runtime} (s : str) : option Z :=
  long_from_string (to_ascii_decimal s).

(** *** binary64 floats

    A Python [float] is an IEEE 754 binary64 number, here a [spec_float]
    of the Standard Library with precision 53 and [emax] 1024. *)

Definition prec : Z := 53.
Definition emax : Z := 1024.

(** [float(n)] for an integer: the nearest double, ties to even;
    [OverflowError] when it is out of range. *)
Definition float_of_int (n : Z) : result spec_float :=
  match binary_normalize prec emax n 0 false with
  | S754_infinity _ | S754_nan => Raise OverflowError
  | f => Ok f
  end.

Definition float_mul : spec_float -> spec_float -> spec_float :=
  SFmul prec emax.

(** [int(x)] for a float: truncation towards zero. *)
Definition int_of_float (x : spec_float) : result Z :=
  match x with
  | S754_zero _ => Ok 0%Z
  | S754_infinity _ => Raise OverflowError
  | S754_nan => Raise ValueError
  | S754_finite s m e =>
      let a := match e with
               | Zneg k => (Zpos m / 2 ^ Zpos k)%Z
               | _ => (Zpos m * 2 ^ e)%Z
               end in
      Ok (if s then (- a)%Z else a)
  end.

(** [round(x)] for a float: the nearest integer, ties to even. *)
Definition round_float (x : spec_float) : result Z :=
  match x with
  | S754_zero _ => Ok 0%Z
  | S754_infinity _ => Raise OverflowError
  | S754_nan => Raise ValueError
  | S754_finite s m e =>
      let a := match e with
               | Zneg k =>
                   let q := (Zpos m / 2 ^ Zpos k)%Z in
                   let r := (Zpos m mod 2 ^ Zpos k)%Z in
                   let half := (2 ^ (Zpos k - 1))%Z in
                   if (r <? half)%Z then q
                   else if (half <? r)%Z then (q + 1)%Z
                   else if Z.even q then q else (q + 1)%Z
               | _ => (Zpos m * 2 ^ e)%Z
               end in
      Ok (if s then (- a)%Z else a)
  end.

End Py.

(** ** A reference runtime

    The runtime restricted to ASCII: the case mappings and digit tables of
    the ASCII range (other code points are left alone and are no digits),
    the default limit of 4300 digits, and [float()] on plain decimal
    literals [ddd] and [ddd.ddd] short enough for one correctly rounded
    division.  It shows that the assumptions of [Py.Runtime] can be met
    and lets the definitions below be evaluated. *)

Module AsciiRuntime.

Fixpoint digits_value (acc : Z) (s : str) : option Z :=
  match s with
  | [] => Some acc
  | c :: s' =>
      if Py.is_ascii_digit c
      then digits_value (10 * acc + Z.of_N (c - 48)) s'
      else None
  end.

Fixpoint split_point (s : str) : str * option str :=
  match s with
  | [] => ([], None)
  | c :: s' =>
      if c =? 46 then ([], Some s')
      else let '(a, b) := split_point s' in (c :: a, b)
  end.

Definition float_of_decimal (s : str) : option spec_float :=
  let '(ip, fp) := split_point (Py.strip_ws s) in
  let fp := default [] fp in
  match ip with
  | [] => None
  | _ :: _ =>
      match digits_value 0 (ip ++ fp) with
      | Some n =>
          let k := Z.of_nat (List.length fp) in
          if (n <? 2 ^ 53)%Z && (k <=? 22)%Z then
            Some (SFdiv Py.prec Py.emax
                    (binary_normalize Py.prec Py.emax n 0 false)
                    (binary_normalize Py.prec Py.emax (10 ^ k) 0 false))
          else None
      | None => None
      end
  end.

#[export] Instance runtime : Py.Runtime := {|
  Py.str_lower := List.map Py.ascii_lower;
  Py.str_upper := List.map Py.ascii_upper;
  Py.unicode_isdigit := Py.is_ascii_digit;
  Py.unicode_todecimal c :=
    if Py.is_ascii_digit c then Some (c - 48) else None;
  Py.int_max_str_digits := 4300;
  Py.float_of_str := float_of_decimal;
  Py.str_lower_ascii := fun s _ => eq_refl;
  Py.str_upper_ascii := fun s _ => eq_refl;
  Py.unicode_isdigit_ascii := fun c _ => eq_refl;
  Py.int_max_str_digits_min := ltac:(right; discriminate)
|}.

End AsciiRuntime.

(** ** Batch runs

    What stops a batch half-way: an exception of the script's own code, or
    the operating system refusing a file. *)
Inductive Failure :=
  | PyError (e : exn)
  | OSError (path : str).

(** ** [generate.py] *)

Module Generate.
Import Py.

(** A CSV row as [csv.DictReader] yields it: a dict from column names to
    cells; the cell of a row shorter than the header is [None]. *)
Abbreviation Row := (gmap str (option str)).

(** [row[key]] *)
Definition getitem (row : Row) (key : str) : result (option str) :=
  of_option KeyError (row !! key).

(** [row.get(key, dflt)] *)
Definition get (row : Row) (key dflt : str) : option str :=
  match row !! key with
  | Some cell => cell
  | None => Some dflt
  end.

(** The receiver of a string method: [None] has no such attribute. *)
Definition receiver (cell : option str) : result str :=
  of_option AttributeError cell.

(** [int(cell)] *)
Definition int `{Runtime} (cell : option str) : result Z :=
  match cell with
  | Some s => of_option ValueError (int_of_str s)
  | None => Raise TypeError
  end.

(** [float(cell)] *)
Definition float `{Runtime} (cell : option str) : result spec_float :=
  match cell with
  | Some s => of_option ValueError (float_of_str s)
  | None => Raise TypeError
  end.

(** [for _ in range(n): body] on the local variables [S] *)
Definition for_range {S} (n : Z) (body : S -> S) (s : S) : S :=
  Nat.iter (Z.to_nat n) body s.

Section WithRuntime.
Context `{RT : Runtime}.

Definition is_slug_alnum (c : N) : bool :=
  (97 <=? c) && (c <=? 122) || (48 <=? c) && (c <=? 57).

Definition slugify (s : str) : str :=
  let s := str_lower s in
  let s := re_sub_plus (fun c => negb (is_slug_alnum c)) (lit "-") s in
  let s := re_sub_plus (N.eqb 45) (lit "-") s in
  strip_chars (lit "-") s.

(** An interface definition: the dict [iface], an absent key being
    [None]. *)
Record Interface := {
  name : str;
  type : str;
  enabled : bool;
  poe_mode : option str;
  poe_type : option str;
  description : option str;
  mgmt_only : option bool
}.

(** The local variables the loops of [create_interfaces] update. *)
Record Locals := {
  interfaces : list Interface;
  int_index_1g : Z;
  int_index_10g : Z
}.

(** [interfaces.append(iface); int_index_1g += 1] *)
Definition append_1g (mk : str -> Interface) (base_name_1g : str)
  (st : Locals) : Locals :=
  {| interfaces :=
       interfaces st ++ [mk (base_name_1g ++ str_of_int (int_index_1g st))];
     int_index_1g := int_index_1g st + 1;
     int_index_10g := int_index_10g st |}.

(** [interfaces.append(iface); int_index_10g += 1] *)
Definition append_10g (mk : str -> Interface) (base_name_10g : str)
  (st : Locals) : Locals :=
  {| interfaces :=
       interfaces st ++ [mk (base_name_10g ++ str_of_int (int_index_10g st))];
     int_index_1g := int_index_1g st;
     int_index_10g := int_index_10g st + 1 |}.

Definition iface_gi_copper (is_poe : bool) (nm : str) : Interface :=
  {| name := nm; type := lit "1000base-t"; enabled := true;
     poe_mode := if is_poe then Some (lit "pse") else None;
     poe_type := if is_poe then Some (lit "type2-ieee802.3at") else None;
     description := None; mgmt_only := None |}.

Definition iface_plain (ty : str) (nm : str) : Interface :=
  {| name := nm; type := ty; enabled := true;
     poe_mode := None; poe_type := None;
     description := None; mgmt_only := None |}.

Definition iface_combo (ty descr : str) (nm : str) : Interface :=
  {| name := nm; type := ty; enabled := true;
     poe_mode := None; poe_type := None;
     description := Some descr; mgmt_only := None |}.

Definition iface_oob : Interface :=
  {| name := lit "OOB"; type := lit "1000base-t"; enabled := true;
     poe_mode := None; poe_type := None;
     description := None; mgmt_only := Some true |}.

Definition iface_vlan1 : Interface :=
  {| name := lit "Vlan1"; type := lit "virtual"; enabled := true;
     poe_mode := None; poe_type := None;
     description := None; mgmt_only := Some false |}.

(** [row.get('Stacking', '').strip().lower() == 'true'] *)
Definition stacking (row : Row) : result bool :=
  let! s := receiver (get row (lit "Stacking") (lit "")) in
  let stacking_str := str_lower (strip_ws s) in
  Ok (bool_decide (stacking_str = lit "true")).

(** [row['Model'].upper()] *)
Definition model_upper (row : Row) : result str :=
  let! cell := getitem row (lit "Model") in
  let! s := receiver cell in
  Ok (str_upper s).

(** ['P-' in model_name or 'FP-' in model_name] *)
Definition poe_detect (model_name : str) : bool :=
  contains (lit "P-") model_name || contains (lit "FP-") model_name.

(** [int(row[key])] *)
Definition int_field (row : Row) (key : str) : result Z :=
  let! cell := getitem row key in int cell.

(** [row['OOB'] and row['OOB'].isdigit() and int(row['OOB']) > 0] *)
Definition oob_test (row : Row) : result bool :=
  let! cell := getitem row (lit "OOB") in
  match cell with
  | None => Ok false
  | Some [] => Ok false
  | Some s =>
      if isdigit s
      then let! n := int (Some s) in Ok (0 <? n)%Z
      else Ok false
  end.

Definition create_interfaces (row : Row) : result (list Interface) :=
  let! is_stacking := stacking row in
  let base_name_1g :=
    if is_stacking then lit "GigabitEthernet1/0/" else lit "GigabitEthernet" in
  let base_name_10g :=
    if is_stacking then lit "TenGigabitEthernet1/0/"
    else lit "TenGigabitEthernet" in
  let st := {| interfaces := []; int_index_1g := 1; int_index_10g := 1 |} in
  let! model_name := model_upper row in
  let is_poe := poe_detect model_name in
  (* 1) GigabitEthernet Copper *)
  let! num_gi_copper := int_field row (lit "GigabitEthernet Copper") in
  let st := for_range num_gi_copper
              (append_1g (iface_gi_copper is_poe) base_name_1g) st in
  (* 2) GigabitEthernet SFP *)
  let! num_gi_sfp := int_field row (lit "GigabitEthernet SFP") in
  let st := for_range num_gi_sfp
              (append_1g (iface_plain (lit "1000base-x-sfp")) base_name_1g)
              st in
  (* 3) GigabitEthernet Combo *)
  let! num_gi_combo := int_field row (lit "GigabitEthernet Combo") in
  let st := for_range num_gi_combo
              (append_1g
                 (iface_combo (lit "1000base-x-sfp") (lit "SFP/RJ45 Combo"))
                 base_name_1g) st in
  (* 4) TwoGigabitEthernet *)
  let! num_two_gi := int_field row (lit "TwoGigabitEthernet") in
  let st := for_range num_two_gi
              (append_1g (iface_plain (lit "2.5gbase-t")) base_name_1g) st in
  (* 5) TenGigabitEthernet Copper *)
  let! num_ten_gi_copper := int_field row (lit "TenGigabitEthernet Copper") in
  let st := for_range num_ten_gi_copper
              (append_10g (iface_plain (lit "10gbase-t")) base_name_10g) st in
  (* 6) TenGigabitEthernet SFP+ *)
  let! num_ten_gi_sfp := int_field row (lit "TenGigabitEthernet SFP+") in
  let st := for_range num_ten_gi_sfp
              (append_10g (iface_plain (lit "10gbase-x-sfpp")) base_name_10g)
              st in
  (* 7) TenGigabitEthernet Combo *)
  let! num_ten_gi_combo := int_field row (lit "TenGigabitEthernet Combo") in
  let st := for_range num_ten_gi_combo
              (append_10g
                 (iface_combo (lit "10gbase-x-sfpp") (lit "SFP+/RJ45 Combo"))
                 base_name_10g) st in
  (* 8) OOB interface (if any) *)
  let! has_oob := oob_test row in
  let interfaces :=
    if has_oob then interfaces st ++ [iface_oob] else interfaces st in
  (* 9) the default VLAN interface *)
  Ok (interfaces ++ [iface_vlan1]).

(** A console port and a power port of the device dict. *)
Record ConsolePort := { console_name : str; console_type : str }.

Record PowerPort := {
  power_name : str;
  power_type : option str;
  maximum_draw : Z
}.

(** The loop of [create_console_ports] over the column names. *)
Fixpoint console_loop (row : Row) (keys : list str)
  (console_ports : list ConsolePort) : result (list ConsolePort) :=
  match keys with
  | [] => Ok console_ports
  | c :: keys' =>
      let! s := receiver (get row c (lit "")) in
      let ctype := strip_ws s in
      console_loop row keys'
        match ctype with
        | [] => console_ports
        | _ :: _ =>
            console_ports ++ [{| console_name := c; console_type := ctype |}]
        end
  end.

Definition create_console_ports (row : Row) : result (list ConsolePort) :=
  console_loop row [lit "con0"; lit "con1"; lit "con2"] [].

(** The dict [device_dict], after the two image flags are set. *)
Record Device := {
  manufacturer : str;
  model : str;
  slug : str;
  part_number : str;
  u_height : spec_float;
  is_full_depth : bool;
  front_image : bool;
  rear_image : bool;
  comments : str;
  weight : spec_float;
  weight_unit : str;
  device_interfaces : list Interface;
  console_ports : list ConsolePort;
  power_ports : list PowerPort
}.

Definition datasheet : str :=
  lit "[Catalyst 1300 Datasheet](https://www.cisco.com/c/en/us/products/collateral/switches/catalyst-1300-series-switches/nb-06-cat1300-ser-data-sheet-cte-en.html)".

(** The body of the loop of [main] for one row, up to the YAML dump: the
    name of the output file and the device dict.  [isfile] is
    [os.path.isfile] on the file system the script runs on (paths joined
    with a slash). *)
Definition device_of_row (isfile : str -> bool) (row : Row)
  : result (str * Device) :=
  let! cell := getitem row (lit "Model") in
  (* slugify(model) calls model.lower() *)
  let! model := receiver cell in
  let part_number := model in
  let device_slug := lit "cisco-" ++ slugify model in
  let filename := str_upper model in
  let model := replace (lit "C1300") (lit "Catalyst 1300") model in
  let! weight_cell := getitem row (lit "Weight (pounds)") in
  let! weight_lbs := float weight_cell in
  let! draw_cell := getitem row (lit "Draw") in
  let! draw := float draw_cell in
  let! max_draw := round_float draw in
  let! ifaces := create_interfaces row in
  let! consoles := create_console_ports row in
  let! psu0 := getitem row (lit "psu0") in
  let front_path :=
    lit "elevation-images/" ++ str_lower device_slug ++ lit ".front.png" in
  let rear_path :=
    lit "elevation-images/" ++ str_lower device_slug ++ lit ".rear.png" in
  Ok (lit "Cisco/" ++ filename ++ lit ".yaml",
      {| manufacturer := lit "Cisco";
         model := model;
         slug := device_slug;
         part_number := part_number;
         u_height := S754_finite false 4503599627370496 (-52);
         is_full_depth := false;
         front_image := isfile front_path;
         rear_image := isfile rear_path;
         comments := datasheet;
         weight := weight_lbs;
         weight_unit := lit "lb";
         device_interfaces := ifaces;
         console_ports := consoles;
         power_ports :=
           [{| power_name := lit "PSU0"; power_type := psu0;
               maximum_draw := max_draw |}] |}).

(** The loop of [main] over the rows [csv.DictReader] yields.
    [realpath path] is the file the path names: two paths name the same
    file exactly when it agrees on them ([Cisco/A.yaml] and
    [Cisco/./A.yaml] do).  [files] maps every document on disk, a file, to
    the dict dumped into it, and [writable path] tells whether
    [open(path, 'w')] succeeds.  Returns the documents on disk when the
    loop ends and what stopped it, if anything did. *)
Fixpoint main (isfile writable : str -> bool) (realpath : str -> str)
  (rows : list Row) (files : gmap str Device)
  : gmap str Device * option Failure :=
  match rows with
  | [] => (files, None)
  | row :: rows' =>
      match device_of_row isfile row with
      | Raise e => (files, Some (PyError e))
      | Ok (out_filename, device_dict) =>
          if writable out_filename
          then main isfile writable realpath rows'
                 (<[realpath out_filename := device_dict]> files)
          else (files, Some (OSError out_filename))
      end
  end.

End WithRuntime.
End Generate.

(** ** Auxiliary notions for the properties of [generate.py] *)

Module GenerateSpec.
Import Py Generate.

(** The characters of a slug. *)
Definition is_dash (c : N) : bool := c =? 45.
Definition slug_char (c : N) : bool := is_slug_alnum c || is_dash c.

Fixpoint no_run (prev_dash : bool) (s : str) : bool :=
  match s with
  | [] => true
  | c :: s' =>
      if is_dash c then negb prev_dash && no_run true s'
      else is_slug_alnum c && no_run false s'
  end.


(** The predicate [s.strip('-')] strips by. *)
Definition is_dash_strip (c : N) : bool := existsb (N.eqb c) (lit "-").

(** The columns [create_interfaces] reads a port count from, in the order
    it reads them. *)
Definition count_columns : list str :=
  [lit "GigabitEthernet Copper"; lit "GigabitEthernet SFP";
   lit "GigabitEthernet Combo"; lit "TwoGigabitEthernet";
   lit "TenGigabitEthernet Copper"; lit "TenGigabitEthernet SFP+";
   lit "TenGigabitEthernet Combo"].

Record Counts := {
  num_gi_copper : Z;
  num_gi_sfp : Z;
  num_gi_combo : Z;
  num_two_gi : Z;
  num_ten_gi_copper : Z;
  num_ten_gi_sfp : Z;
  num_ten_gi_combo : Z
}.

(** [count] interfaces numbered from [first] on. *)
Definition segment (mk : str -> Interface) (base : str) (first count : Z)
  : list Interface :=
  (fun i => mk (base ++ str_of_int i)) <$> seqZ first count.

(** The constructors of interface dicts store the name they are given. *)
Definition keeps_name (mk : str -> Interface) : Prop :=
  forall nm, name (mk nm) = nm.

(** An interface without PoE attributes. *)
Definition no_poe (i : Interface) : Prop :=
  poe_mode i = None /\ poe_type i = None.

(** The interfaces of the Gigabit-copper category: what the first loop of
    [create_interfaces] appends. *)
Definition copper_segment (is_stacking is_poe : bool) (n : Z)
  : list Interface :=
  segment (iface_gi_copper is_poe)
    (if is_stacking then lit "GigabitEthernet1/0/" else lit "GigabitEthernet")
    1 n.

(** The interfaces of the other six categories, the OOB interface and
    Vlan1, for the counts [c]. *)
Definition other_segments (is_stacking : bool) (c : Counts) (has_oob : bool)
  : list Interface :=
  let base_name_1g :=
    if is_stacking then lit "GigabitEthernet1/0/" else lit "GigabitEthernet" in
  let base_name_10g :=
    if is_stacking then lit "TenGigabitEthernet1/0/"
    else lit "TenGigabitEthernet" in
  let i1 := (1 + Z.max 0 (num_gi_copper c))%Z in
  let i2 := (i1 + Z.max 0 (num_gi_sfp c))%Z in
  let i3 := (i2 + Z.max 0 (num_gi_combo c))%Z in
  let j1 := (1 + Z.max 0 (num_ten_gi_copper c))%Z in
  let j2 := (j1 + Z.max 0 (num_ten_gi_sfp c))%Z in
  segment (iface_plain (lit "1000base-x-sfp")) base_name_1g i1 (num_gi_sfp c)
  ++ segment (iface_combo (lit "1000base-x-sfp") (lit "SFP/RJ45 Combo"))
       base_name_1g i2 (num_gi_combo c)
  ++ segment (iface_plain (lit "2.5gbase-t")) base_name_1g i3 (num_two_gi c)
  ++ segment (iface_plain (lit "10gbase-t")) base_name_10g 1
       (num_ten_gi_copper c)
  ++ segment (iface_plain (lit "10gbase-x-sfpp")) base_name_10g j1
       (num_ten_gi_sfp c)
  ++ segment (iface_combo (lit "10gbase-x-sfpp") (lit "SFP+/RJ45 Combo"))
       base_name_10g j2 (num_ten_gi_combo c)
  ++ (if has_oob then [iface_oob] else [])
  ++ [iface_vlan1].

Definition layout (is_stacking is_poe : bool) (c : Counts) (has_oob : bool)
  : list Interface :=
  copper_segment is_stacking is_poe (num_gi_copper c)
  ++ other_segments is_stacking c has_oob.

(** The seven port counts, read in the order of [create_interfaces]. *)
Definition read_counts `{Runtime} (row : Row) : result Counts :=
  let! n1 := int_field row (lit "GigabitEthernet Copper") in
  let! n2 := int_field row (lit "GigabitEthernet SFP") in
  let! n3 := int_field row (lit "GigabitEthernet Combo") in
  let! n4 := int_field row (lit "TwoGigabitEthernet") in
  let! n5 := int_field row (lit "TenGigabitEthernet Copper") in
  let! n6 := int_field row (lit "TenGigabitEthernet SFP+") in
  let! n7 := int_field row (lit "TenGigabitEthernet Combo") in
  Ok {| num_gi_copper := n1; num_gi_sfp := n2; num_gi_combo := n3;
        num_two_gi := n4; num_ten_gi_copper := n5; num_ten_gi_sfp := n6;
        num_ten_gi_combo := n7 |}.

(** The characters a string that [int()] reads can be made of. *)
Definition literal_char (c : N) : bool :=
  is_ascii_digit c || (c =? 43) || (c =? 45) || (c =? 95) || Py_ISSPACE c.

Definition numeric_char `{Runtime} (c : N) : bool :=
  literal_char c
  || (127 <=? c) && (is_space c || bool_decide (is_Some (unicode_todecimal c))).

(** Spec-side reading of the substitution in the model name: only the
    first occurrence of [old] is replaced. *)
Fixpoint replace_first (old new s : str) : str :=
  match s with
  | [] => []
  | c :: s' =>
      if startswith old s then new ++ drop (List.length old) s
      else c :: replace_first old new s'
  end.

(** The number of substitutions [s.replace(old, new)] makes. *)
Fixpoint occurrences_from (old : str) (skip : nat) (s : str) : nat :=
  match s with
  | [] => O
  | _ :: s' =>
      match skip with
      | S k => occurrences_from old k s'
      | O =>
          if startswith old s
          then S (occurrences_from old (Nat.pred (List.length old)) s')
          else occurrences_from old O s'
      end
  end.

Definition occurrences (old s : str) : nat := occurrences_from old O s.

End GenerateSpec.

(** ** Further notions for [generate.py] *)

Module GenerateSpec2.
Import Py Generate GenerateSpec.

(** The number of times a loop over [range(n)] runs. *)
Definition runs (n : Z) : Z := Z.max 0 n.

(** The 1G-class and the 10G-class port totals of a row. *)
Definition total_1g (c : Counts) : Z :=
  (runs (num_gi_copper c) + runs (num_gi_sfp c) + runs (num_gi_combo c)
   + runs (num_two_gi c))%Z.

Definition total_10g (c : Counts) : Z :=
  (runs (num_ten_gi_copper c) + runs (num_ten_gi_sfp c)
   + runs (num_ten_gi_combo c))%Z.

Definition base_name_1g (is_stacking : bool) : str :=
  if is_stacking then lit "GigabitEthernet1/0/" else lit "GigabitEthernet".

Definition base_name_10g (is_stacking : bool) : str :=
  if is_stacking then lit "TenGigabitEthernet1/0/"
  else lit "TenGigabitEthernet".

(** The names [base1], [base2], ... up to [n]. *)
Definition numbered (base : str) (n : Z) : list str :=
  (fun i => base ++ str_of_int i) <$> seqZ 1 n.

(** A result that is no exception. *)
Definition succeeds {A} (r : result A) : Prop := exists a, r = Ok a.

(** The text of a cell, empty when the column or the cell is missing. *)
Definition cell_text (row : Row) (key : str) : str :=
  match row !! key with
  | Some (Some s) => s
  | _ => []
  end.

(** The console port a column gives, if any. *)
Definition console_port_of (row : Row) (key : str) : list ConsolePort :=
  match strip_ws (cell_text row key) with
  | [] => []
  | ctype => [{| console_name := key; console_type := ctype |}]
  end.

Definition console_columns : list str := [lit "con0"; lit "con1"; lit "con2"].

End GenerateSpec2.

(** ** [crop.py] *)

Module Crop.
Import Py.
Local Open Scope Z_scope.

(** *** Pillow images

    An image has a mode, a size [(width, height)] and a pixel at every
    coordinate; a pixel is the list of its band values.  Outside
    [0 <= x < width], [0 <= y < height] the pixel function is not looked
    at.  Pillow's limits on the memory an image may take are outside the
    model. *)

Inductive Mode := L | RGB | RGBA | OtherMode (name : str).

Definition mode_eqb (a b : Mode) : bool :=
  match a, b with
  | L, L | RGB, RGB | RGBA, RGBA => true
  | OtherMode n, OtherMode n' => bool_decide (n = n')
  | _, _ => false
  end.

Definition Pixel := list Z.
Definition Box := (Z * Z * Z * Z)%type.

Record Image := {
  mode : Mode;
  size : Z * Z;
  getpixel : Z * Z -> Pixel
}.

Definition inside (img : Image) (xy : Z * Z) : bool :=
  (0 <=? xy.1) && (xy.1 <? (size img).1) &&
  (0 <=? xy.2) && (xy.2 <? (size img).2).

(** What the scripts take from Pillow without fixing it: the conversion
    between modes, which keeps the size, and the rounding of the alpha
    blend [blend mask dst src] of one band. *)
Class Pillow := {
  convert : Image -> Mode -> Image;
  blend : Z -> Z -> Z -> Z;
  convert_mode : forall img m, mode (convert img m) = m;
  convert_size : forall img m, size (convert img m) = size img
}.

(** [Image.new(mode, size, color)] *)
Definition new (m : Mode) (sz : Z * Z) (color : Pixel) : Image :=
  {| mode := m; size := sz; getpixel := fun _ => color |}.

(** [img.getchannel("A")] of an RGBA image *)
Definition getchannel_A (img : Image) : Image :=
  {| mode := L; size := size img;
     getpixel := fun xy => [nth 3 (getpixel img xy) 0] |}.

Definition nonzero (px : Pixel) : bool := existsb (fun v => negb (v =? 0)) px.

(** [img.getbbox()]: the bounding box [(left, upper, right, lower)] of the
    non-zero pixels, [None] when there is none. *)
Definition getbbox (img : Image) : option Box :=
  let xs := seqZ 0 (size img).1 in
  let ys := seqZ 0 (size img).2 in
  let cols :=
    List.filter (fun x => existsb (fun y => nonzero (getpixel img (x, y))) ys)
      xs in
  let rows :=
    List.filter (fun y => existsb (fun x => nonzero (getpixel img (x, y))) xs)
      ys in
  match head cols, head rows, last cols, last rows with
  | Some x0, Some y0, Some x1, Some y1 => Some (x0, y0, x1 + 1, y1 + 1)
  | _, _, _, _ => None
  end.

(** [img.crop(box)]; what lies outside the image is zero. *)
Definition crop (img : Image) (box : Box) : Image :=
  let '(x0, y0, x1, y1) := box in
  {| mode := mode img;
     size := (Z.max 0 (x1 - x0), Z.max 0 (y1 - y0));
     getpixel := fun xy =>
       let src := (xy.1 + x0, xy.2 + y0) in
       if inside img src then getpixel img src
       else List.map (fun _ => 0) (getpixel img src) |}.

(** [dst.paste(src, (0, 0), mask=src)] for an RGBA [src] *)
Definition paste `{Pillow} (dst src : Image) : Image :=
  {| mode := mode dst;
     size := size dst;
     getpixel := fun xy =>
       if inside src xy
       then let px := getpixel src xy in
            zip_with (blend (nth 3 px 0)) (getpixel dst xy) px
       else getpixel dst xy |}.

Definition white : Pixel := [255; 255; 255].

(** The double nearest to the literal [9.8]. *)
Definition float_9_8 : spec_float :=
  S754_finite false 5516909543528858 (-49).

(** [int(9.8 * height)] *)
Definition target_width_of (height : Z) : result Z :=
  let! h := float_of_int height in
  int_of_float (float_mul float_9_8 h).

Section WithPillow.
Context `{PIL : Pillow}.

(** [Image_open] is [Image.open] on the files the script can read. *)
Definition crop_transparent_png (Image_open : str -> result Image)
  (input_path : str) : result Image :=
  let! img := Image_open input_path in
  let img := if mode_eqb (mode img) RGBA then img else convert img RGBA in
  let alpha := getchannel_A img in
  let bbox := getbbox alpha in
  match bbox with
  | Some box => Ok (crop img box)
  | None => Ok img
  end.

Definition enforce_10_to_1_aspect (img : Image) : result Image :=
  let img := if mode_eqb (mode img) RGBA then img else convert img RGBA in
  let '(width, height) := size img in
  let! target_width := target_width_of height in
  if width =? target_width then
    let final_img := new RGB (width, height) white in
    Ok (paste final_img img)
  else if width <? target_width then
    let final_img := new RGB (target_width, height) white in
    Ok (paste final_img img)
  else
    let cropped_img := crop img (0, 0, target_width, height) in
    let final_img := new RGB (target_width, height) white in
    Ok (paste final_img cropped_img).

(** The image [process_image] saves to [output_path]. *)
Definition process_image (Image_open : str -> result Image)
  (input_path : str) : result Image :=
  let! cropped_img := crop_transparent_png Image_open input_path in
  enforce_10_to_1_aspect cropped_img.

End WithPillow.

(** A Pillow for evaluation: conversion to RGBA gives an image without
    alpha full opacity, and bands are blended with Pillow's rounding of
    the division by 255. *)
Module ReferencePillow.

Definition to_rgba (px : Pixel) : Pixel :=
  match px with
  | [v] => [v; v; v; 255]
  | [r; g; b] => [r; g; b; 255]
  | _ => px
  end.

Definition convert_ref (img : Image) (m : Mode) : Image :=
  {| mode := m; size := size img;
     getpixel := fun xy => to_rgba (getpixel img xy) |}.

Definition blend_ref (mask dst src : Z) : Z :=
  let tmp := dst * (255 - mask) + src * mask + 128 in
  Z.shiftr (Z.shiftr tmp 8 + tmp) 8.

#[export] Instance pillow : Pillow := {|
  convert := convert_ref;
  blend := blend_ref;
  convert_mode := fun _ _ => eq_refl;
  convert_size := fun _ _ => eq_refl
|}.

End ReferencePillow.

(** What Pillow does with full opacity on 8-bit bands: the conversion of
    an RGB pixel to RGBA gives it alpha 255, and a band pasted through a
    mask of 255 replaces the band below. *)
Class OpaquePillow `{Pillow} := {
  convert_rgb : forall img xy r g b,
    mode img = RGB -> getpixel img xy = [r; g; b] ->
    getpixel (convert img RGBA) xy = [r; g; b; 255];
  blend_opaque : forall dst src, 0 <= src <= 255 -> blend 255 dst src = src
}.

Module ReferenceOpaque.
Import ReferencePillow.

Lemma blend_ref_opaque (dst src : Z) :
  0 <= src <= 255 -> blend_ref 255 dst src = src.
Proof.
  intros Hsrc. unfold blend_ref.
  replace (dst * (255 - 255) + src * 255 + 128) with (src * 255 + 128)
    by lia.
  assert (forallb (fun v => Z.shiftr (Z.shiftr (v * 255 + 128) 8
                                      + (v * 255 + 128)) 8 =? v)
            (seqZ 0 256) = true) as Hall by (vm_compute; reflexivity).
  rewrite forallb_forall in Hall. apply Z.eqb_eq, Hall.
  apply list_elem_of_In, elem_of_seqZ. lia.
Qed.

Lemma convert_ref_rgb (img : Image) (xy : Z * Z) (r g b : Z) :
  mode img = RGB -> getpixel img xy = [r; g; b] ->
  getpixel (convert_ref img RGBA) xy = [r; g; b; 255].
Proof. intros _ H. simpl. by rewrite H. Qed.

#[export] Instance opaque_pillow : OpaquePillow := {|
  convert_rgb := convert_ref_rgb;
  blend_opaque := blend_ref_opaque
|}.

End ReferenceOpaque.

(** *** The walk over a directory

    [os.path] is the platform's: the scripts only rely on [splitext]
    splitting a name into two parts that give the name back. *)
Class OsPath := {
  abspath : str -> str;
  join : str -> str -> str;
  splitext : str -> str * str;
  splitext_concat : forall p, (splitext p).1 ++ (splitext p).2 = p
}.

(** [s.endswith(suffix)] *)
Definition endswith (suffix s : str) : bool :=
  bool_decide (drop (length s - length suffix) s = suffix).

(** The files Pillow can open as an image, by path. *)
Abbreviation Files := (gmap str Image).

Section Directory.
Context `{RT : Runtime} `{PIL : Pillow} `{OS : OsPath}.

(** [can_save path img] tells whether [img.save(path)] succeeds;
    [listdir] is [os.listdir], [None] where it raises. *)
Variable can_save : str -> Image -> bool.
Variable listdir : str -> option (list str).

(** [process_image(input_path, output_path)] on the file system *)
Definition process_image_at (files : Files) (input_path output_path : str)
  : Files * option Failure :=
  match files !! input_path with
  | None => (files, Some (OSError input_path))
  | Some img =>
      match process_image (fun _ => Ok img) input_path with
      | Raise e => (files, Some (PyError e))
      | Ok final_img =>
          if can_save output_path final_img
          then (<[output_path := final_img]> files, None)
          else (files, Some (OSError output_path))
      end
  end.

(** [filename.lower().endswith(".png")] *)
Definition is_png (filename : str) : bool :=
  endswith (lit ".png") (str_lower filename).

Definition output_file_of (overwrite : bool) (directory_path filename : str)
  : str :=
  let input_file := join directory_path filename in
  if overwrite then input_file
  else
    let '(name_part, ext) := splitext filename in
    let new_name := lit "final_" ++ name_part ++ ext in
    join directory_path new_name.

(** The loop of [process_directory] over the names [os.listdir] gave. *)
Fixpoint process_listing (overwrite : bool) (directory_path : str)
  (listing : list str) (files : Files) : Files * option Failure :=
  match listing with
  | [] => (files, None)
  | filename :: listing' =>
      if is_png filename then
        let input_file := join directory_path filename in
        let output_file := output_file_of overwrite directory_path filename in
        match process_image_at files input_file output_file with
        | (files', None) =>
            process_listing overwrite directory_path listing' files'
        | (files', Some f) => (files', Some f)
        end
      else process_listing overwrite directory_path listing' files
  end.

Definition process_directory (directory_path : str) (overwrite : bool)
  (files : Files) : Files * option Failure :=
  let directory_path := abspath directory_path in
  match listdir directory_path with
  | None => (files, Some (OSError directory_path))
  | Some listing => process_listing overwrite directory_path listing files
  end.

End Directory.

(** [posixpath], for a process with working directory [cwd]. *)
Module PosixPath.

Definition sep : N := 47.
Definition extsep : N := 46.

(** [s.rfind(c)] for a one-character [c] *)
Fixpoint rfind_from (c : N) (s : str) (i : Z) : Z :=
  match s with
  | [] => -1
  | x :: s' =>
      let r := rfind_from c s' (i + 1) in
      if r =? -1 then (if (x =? c)%N then i else -1) else r
  end.

Definition rfind (c : N) (s : str) : Z := rfind_from c s 0.

Definition splitext_posix (p : str) : str * str :=
  let sepIndex := rfind sep p in
  let dotIndex := rfind extsep p in
  if sepIndex <? dotIndex then
    let before :=
      take (Z.to_nat (dotIndex - (sepIndex + 1)))
        (drop (Z.to_nat (sepIndex + 1)) p) in
    if forallb (fun c => (c =? extsep)%N) before then (p, [])
    else (take (Z.to_nat dotIndex) p, drop (Z.to_nat dotIndex) p)
  else (p, []).

Definition join_posix (a b : str) : str :=
  if startswith [sep] b then b
  else if bool_decide (a = []) || endswith [sep] a then a ++ b
  else a ++ [sep] ++ b.

(** [s.split("/")] *)
Fixpoint split_sep (s : str) : list str :=
  match s with
  | [] => [[]]
  | c :: s' =>
      match split_sep s' with
      | comp :: comps =>
          if (c =? sep)%N then [] :: comp :: comps else (c :: comp) :: comps
      | [] => [[c]]
      end
  end.

(** [sep.join(comps)] *)
Fixpoint sep_join (comps : list str) : str :=
  match comps with
  | [] => []
  | [comp] => comp
  | comp :: comps' => comp ++ [sep] ++ sep_join comps'
  end.

Definition normpath (path : str) : str :=
  if bool_decide (path = []) then lit "." else
  let initial_slashes : nat :=
    if startswith [sep] path then
      if startswith [sep; sep] path && negb (startswith [sep; sep; sep] path)
      then 2%nat else 1%nat
    else 0%nat in
  let new_comps :=
    foldl (fun new_comps comp =>
      if bool_decide (comp = []) || bool_decide (comp = lit ".")
      then new_comps
      else if negb (bool_decide (comp = lit ".."))
              || (bool_decide (initial_slashes = 0%nat)
                  && bool_decide (new_comps = []))
              || bool_decide (last new_comps = Some (lit ".."))
      then new_comps ++ [comp]
      else removelast new_comps)
      [] (split_sep path) in
  let path := List.repeat sep initial_slashes ++ sep_join new_comps in
  if bool_decide (path = []) then lit "." else path.

Definition abspath_posix (cwd path : str) : str :=
  if startswith [sep] path then normpath path
  else normpath (join_posix cwd path).

Lemma splitext_posix_concat (p : str) :
  (splitext_posix p).1 ++ (splitext_posix p).2 = p.
Proof.
  unfold splitext_posix.
  destruct (rfind sep p <? rfind extsep p); [|apply app_nil_r].
  destruct (forallb _ _); [apply app_nil_r|apply take_drop].
Qed.

Definition os_path (cwd : str) : OsPath := {|
  abspath := abspath_posix cwd;
  join := join_posix;
  splitext := splitext_posix;
  splitext_concat := splitext_posix_concat
|}.

End PosixPath.

(** *** Auxiliary notions for the properties of [crop.py] *)

(** A pixel of the image with a non-zero band. *)
Definition lit_pixel (img : Image) (xy : Z * Z) : Prop :=
  inside img xy = true /\ nonzero (getpixel img xy) = true.

(** A pixel of the image with non-zero alpha. *)
Definition opaque (img : Image) (xy : Z * Z) : Prop :=
  inside img xy = true /\ nth 3 (getpixel img xy) 0 <> 0.

Definition encloses (box : Box) (xy : Z * Z) : Prop :=
  let '(x0, y0, x1, y1) := box in
  x0 <= xy.1 < x1 /\ y0 <= xy.2 < y1.

(** [box] is the least rectangle with all pixels of non-zero alpha. *)
Definition minimal_bounding_box (img : Image) (box : Box) : Prop :=
  (forall xy, opaque img xy -> encloses box xy) /\
  (forall box', (forall xy, opaque img xy -> encloses box' xy) ->
     let '(x0, y0, x1, y1) := box in
     let '(x0', y0', x1', y1') := box' in
     x0' <= x0 /\ y0' <= y0 /\ x1 <= x1' /\ y1 <= y1').

(** Pillow keeps the two dimensions of an image in C [int]s. *)
Definition valid_size (img : Image) : Prop :=
  0 <= (size img).1 < 2 ^ 31 /\ 0 <= (size img).2 < 2 ^ 31.

(** Two images that show the same: same mode, same size and the same
    pixel at every coordinate inside. *)
Definition same_image (a b : Image) : Prop :=
  mode a = mode b /\ size a = size b /\
  forall xy, inside a xy = true -> getpixel a xy = getpixel b xy.

(** An 8-bit RGB image. *)
Definition rgb8 (img : Image) : Prop :=
  mode img = RGB /\
  forall xy, inside img xy = true ->
    exists r g b, getpixel img xy = [r; g; b] /\
      0 <= r <= 255 /\ 0 <= g <= 255 /\ 0 <= b <= 255.

(** An RGBA pixel laid over white through its own alpha. *)
Definition over_white `{Pillow} (px : Pixel) : Pixel :=
  zip_with (blend (nth 3 px 0)) white px.

(** The names of a listing the walk takes for PNG files, and the paths
    it saves to. *)
Definition png_names `{Runtime} (listing : list str) : list str :=
  List.filter is_png listing.

Definition outputs `{Runtime} `{OsPath} (overwrite : bool)
  (directory_path : str) (listing : list str) : list str :=
  output_file_of overwrite directory_path <$> png_names listing.

(** [img.convert("RGBA")] unless the image is RGBA already *)
Definition as_rgba `{Pillow} (img : Image) : Image :=
  if mode_eqb (mode img) RGBA then img else convert img RGBA.

End Crop.

(** ** Example rows *)

Module Examples.
Import Generate.

Definition mk_row (model stacking gi_sfp oob : string) : Row :=
  list_to_map
    [(lit "Model", Some (lit model));
     (lit "Stacking", Some (lit stacking));
     (lit "GigabitEthernet Copper", Some (lit "2"));
     (lit "GigabitEthernet SFP", Some (lit gi_sfp));
     (lit "GigabitEthernet Combo", Some (lit "0"));
     (lit "TwoGigabitEthernet", Some (lit "0"));
     (lit "TenGigabitEthernet Copper", Some (lit "1"));
     (lit "TenGigabitEthernet SFP+", Some (lit "0"));
     (lit "TenGigabitEthernet Combo", Some (lit "0"));
     (lit "OOB", Some (lit oob));
     (lit "con0", Some (lit "rj-45"));
     (lit "con1", Some (lit "usb-c"));
     (lit "con2", Some (lit ""));
     (lit "psu0", Some (lit "iec-60320-c14"));
     (lit "Draw", Some (lit "12.5"));
     (lit "Weight (pounds)", Some (lit "2.91"))].

Definition row_stacking : Row := mk_row "C1300-8FP-2G" "TRUE" "1" "".
Definition row_flat : Row := mk_row "C1300-8T-E-2G" "false" "1" "0".
Definition row_oob : Row := mk_row "C1300-8T-E-2G" "false" "1" "2".
Definition row_negative_count : Row :=
  mk_row "C1300-8T-E-2G" "false" "-1" "".
Definition row_bad_count : Row := mk_row "C1300-8T-E-2G" "false" "n/a" "".
Definition row_two_models : Row :=
  mk_row "C1300-24T-4G/C1300-24P-4G" "false" "1" "".

Definition no_images (path : str) : bool := false.


(** What the scripts compute on these rows with the reference runtime. *)
Definition ok_or {A} (dflt : A) (r : result A) : A :=
  match r with
  | Ok a => a
  | Raise _ => dflt
  end.

Definition ifaces_stacking : list Interface :=
  Eval vm_compute in
    ok_or [] (create_interfaces (RT := AsciiRuntime.runtime) row_stacking).

Definition ifaces_flat : list Interface :=
  Eval vm_compute in
    ok_or [] (create_interfaces (RT := AsciiRuntime.runtime) row_flat).

Definition ifaces_oob : list Interface :=
  Eval vm_compute in
    ok_or [] (create_interfaces (RT := AsciiRuntime.runtime) row_oob).

Definition device_flat : result (str * Device) :=
  Eval vm_compute in
    device_of_row (RT := AsciiRuntime.runtime) no_images row_flat.

Definition device_two_models : result (str * Device) :=
  Eval vm_compute in
    device_of_row (RT := AsciiRuntime.runtime) no_images row_two_models.


(** Example images: 6 by 4 with two opaque pixels in the second row,
    fully transparent, and of the widths 39 and 50 at height 4. *)
Definition two_dots (width : Z) : Crop.Image :=
  {| Crop.mode := Crop.RGBA; Crop.size := (width, 4%Z);
     Crop.getpixel := fun xy =>
       if ((xy.1 =? 2) || (xy.1 =? 4))%Z && (xy.2 =? 1)%Z
       then [10; 20; 30; 200]%Z else [1; 2; 3; 0]%Z |}.

Definition transparent : Crop.Image :=
  {| Crop.mode := Crop.RGBA; Crop.size := (6%Z, 4%Z);
     Crop.getpixel := fun _ => [0; 0; 0; 0]%Z |}.

End Examples.

(** ** Further example inputs *)

Module MoreExamples.
Import Py Generate Examples.
Local Open Scope Z_scope.

(** Rows of a sheet without the [Stacking] column, and without the [OOB]
    column. *)
Definition row_no_stacking : Row := delete (lit "Stacking") row_flat.
Definition row_no_oob : Row := delete (lit "OOB") row_flat.

Definition ifaces_no_stacking : list Interface :=
  Eval vm_compute in
    ok_or []
      (create_interfaces (RT := AsciiRuntime.runtime) row_no_stacking).

(** A PoE model written in lower case. *)
Definition row_lower_poe : Row := mk_row "c1300-8fp-2g" "false" "1" "".

Definition ifaces_lower_poe : list Interface :=
  Eval vm_compute in
    ok_or [] (create_interfaces (RT := AsciiRuntime.runtime) row_lower_poe).

(** A file system with the front image of the flat model only. *)
Definition front_only (path : str) : bool :=
  bool_decide (path = lit "elevation-images/cisco-c1300-8t-e-2g.front.png").

Definition device_flat_front : result (str * Device) :=
  Eval vm_compute in
    device_of_row (RT := AsciiRuntime.runtime) front_only row_flat.

Definition always (path : str) : bool := true.

(** Two rows whose Model cells give two paths of one document. *)
Definition row_a : Row := mk_row "a" "false" "1" "".
Definition row_dot_a : Row := mk_row "./a" "false" "1" "".

(** A processed image: 9 by 1, RGB, one colour. *)
Definition strip : Crop.Image :=
  {| Crop.mode := Crop.RGB; Crop.size := (9, 1);
     Crop.getpixel := fun _ => [10; 20; 30] |}.

(** The directory [/w/front-rear] of a process working in [/w]: two
    images, a text file, and a name ending in [.PNG] that Pillow cannot
    open. *)
Definition os_w : Crop.OsPath := Crop.PosixPath.os_path (lit "/w").

Definition listdir_w (path : str) : option (list str) :=
  if bool_decide (path = lit "/w/front-rear")
  then Some [lit "a.png"; lit "notes.txt"; lit "b.PNG"; lit "c.png"]
  else None.

Definition listdir_ok (path : str) : option (list str) :=
  if bool_decide (path = lit "/w/front-rear")
  then Some [lit "a.png"; lit "notes.txt"; lit "c.PNG"]
  else None.

Definition files_w : Crop.Files :=
  list_to_map
    [(lit "/w/front-rear/a.png", two_dots 6);
     (lit "/w/front-rear/c.png", transparent);
     (lit "/w/front-rear/c.PNG", two_dots 50)].

Definition can_save_all (path : str) (img : Crop.Image) : bool := true.

(** The file a path names, for a process working in [/w] on a file
    system without links. *)
Definition realpath_w (path : str) : str :=
  Crop.PosixPath.abspath_posix (lit "/w") path.

End MoreExamples.

(** * Properties of the runtime: binary64 rounding *)

Module PyFacts.
Import Py.
Local Open Scope Z_scope.

Lemma digits2_pos_size p : digits2_pos p = Pos.size p.
Proof. induction p; simpl; congruence. Qed.

Lemma digits2_pos_bounds p :
  2 ^ (Zpos (digits2_pos p) - 1) <= Zpos p < 2 ^ Zpos (digits2_pos p).
Proof.
  rewrite digits2_pos_size. split.
  - pose proof (Pos.size_le p) as H.
    assert (Zpos (2 ^ Pos.size p) <= Zpos p~0) as H' by exact H.
    rewrite Pos2Z.inj_pow in H'.
    replace (Zpos (Pos.size p)) with (Zpos (Pos.size p) - 1 + 1) in H' by lia.
    rewrite Z.pow_add_r in H' by lia. lia.
  - pose proof (Pos.size_gt p) as H.
    assert (Zpos p < Zpos (2 ^ Pos.size p)) as H' by exact H.
    by rewrite Pos2Z.inj_pow in H'.
Qed.

Lemma digits2_pos_unique p k :
  2 ^ (k - 1) <= Zpos p < 2 ^ k -> Zpos (digits2_pos p) = k.
Proof.
  intros [Hlo Hhi]. pose proof (digits2_pos_bounds p) as [Hlo' Hhi'].
  assert (0 < k) as Hk.
  { destruct (Z.le_gt_cases k 0) as [Hle|]; [|done].
    assert (2 ^ k <= 2 ^ 0) by (apply Z.pow_le_mono_r; lia). simpl in *. lia. }
  destruct (Z.lt_trichotomy (Zpos (digits2_pos p)) k) as [Hlt|[Heq|Hgt]];
    [|done|].
  - assert (2 ^ Zpos (digits2_pos p) <= 2 ^ (k - 1))
      by (apply Z.pow_le_mono_r; lia). lia.
  - assert (2 ^ k <= 2 ^ (Zpos (digits2_pos p) - 1))
      by (apply Z.pow_le_mono_r; lia). lia.
Qed.

Lemma iter_pos_nat {A} (f : A -> A) p x :
  SpecFloat.iter_pos f p x = Nat.iter (Pos.to_nat p) f x.
Proof.
  revert x. induction p as [p IH|p IH|]; intros x; cbn [SpecFloat.iter_pos].
  - rewrite !IH. rewrite Pos2Nat.inj_xI.
    replace (S (2 * Pos.to_nat p))%nat
      with (Pos.to_nat p + (Pos.to_nat p + 1))%nat by lia.
    rewrite !Nat.iter_add. done.
  - rewrite !IH. rewrite Pos2Nat.inj_xO.
    replace (2 * Pos.to_nat p)%nat with (Pos.to_nat p + Pos.to_nat p)%nat by lia.
    by rewrite Nat.iter_add.
  - done.
Qed.

Lemma shr_1_m mrs :
  0 <= shr_m mrs -> shr_m (shr_1 mrs) = shr_m mrs / 2.
Proof.
  destruct mrs as [m r s]. cbn [shr_m shr_1].
  destruct m as [|[p|p|]|p]; cbn [shr_m]; intros H.
  - reflexivity.
  - apply (Z.div_unique _ 2 _ 1); lia.
  - apply (Z.div_unique _ 2 _ 0); lia.
  - reflexivity.
  - lia.
Qed.

Lemma shr_m_iter (k : nat) mrs :
  0 <= shr_m mrs ->
  shr_m (Nat.iter k shr_1 mrs) = shr_m mrs / 2 ^ Z.of_nat k.
Proof.
  intros Hm. induction k as [|k IH].
  - simpl. by rewrite Z.div_1_r.
  - rewrite Nat.iter_succ, shr_1_m; rewrite IH.
    + rewrite Z.div_div by lia. f_equal.
      rewrite Nat2Z.inj_succ, Z.pow_succ_r by lia. lia.
    + apply Z.div_pos; lia.
Qed.

Lemma shr_value m e n :
  0 <= m -> 0 < n ->
  exists mrs, shr (Build_shr_record m false false) e n = (mrs, e + n)
              /\ shr_m mrs = m / 2 ^ n.
Proof.
  intros Hm Hn. destruct n as [|p|p]; try lia. cbn [shr].
  eexists; split; [reflexivity|].
  rewrite iter_pos_nat, shr_m_iter by done. by rewrite positive_nat_Z.
Qed.

Lemma round_nearest_even_bounds q l :
  q <= round_nearest_even q l <= q + 1.
Proof.
  unfold round_nearest_even. destruct l as [|[]]; try destruct (Z.even q); lia.
Qed.


Lemma shr_nonpos mrs e n : n <= 0 -> shr mrs e n = (mrs, e).
Proof. destruct n; [done| lia |done]. Qed.

Lemma fexp_normal e : -1074 <= e - 53 -> fexp prec emax e = e - 53.
Proof. unfold fexp, SpecFloat.emin, prec, emax. lia. Qed.

Lemma shr_fexp_exact (m : positive) e :
  fexp prec emax (Zpos (digits2_pos m) + e) <= e ->
  shr_fexp prec emax (Zpos m) e loc_Exact =
  (Build_shr_record (Zpos m) false false, e).
Proof.
  intros H. unfold shr_fexp. cbn [Zdigits2 shr_record_of_loc].
  apply shr_nonpos. lia.
Qed.

(** A mantissa that fits the precision is not rounded. *)
Lemma binary_round_aux_exact (m : positive) e :
  fexp prec emax (Zpos (digits2_pos m) + e) <= e -> e <= emax - prec ->
  binary_round_aux prec emax false (Zpos m) e loc_Exact = S754_finite false m e.
Proof.
  intros Hf He. unfold binary_round_aux.
  rewrite (shr_fexp_exact m e Hf).
  cbn [shr_m loc_of_shr_record round_nearest_even].
  rewrite (shr_fexp_exact m e Hf). cbn [shr_m].
  by rewrite (proj2 (Z.leb_le _ _) He).
Qed.

(** A longer mantissa is cut to 53 bits: the result is the quotient by the
    power of two cut off, or the next integer. *)
Lemma binary_round_aux_round (m : positive) e :
  let n := Zpos (digits2_pos m) - prec in
  0 < n -> -1074 <= e + n -> e + n + 1 <= emax - prec ->
  exists m' e' q',
    binary_round_aux prec emax false (Zpos m) e loc_Exact
      = S754_finite false m' e' /\
    e + n <= e' <= e + n + 1 /\
    Zpos m / 2 ^ n <= q' <= Zpos m / 2 ^ n + 1 /\
    Zpos m' * 2 ^ (e' - (e + n)) = q'.
Proof.
  intros n Hn Hlo Hhi. unfold binary_round_aux.
  assert (shr_fexp prec emax (Zpos m) e loc_Exact =
          shr (Build_shr_record (Zpos m) false false) e n) as ->.
  { unfold shr_fexp. cbn [Zdigits2 shr_record_of_loc]. f_equal.
    rewrite fexp_normal; unfold n, prec in *; lia. }
  destruct (shr_value (Zpos m) e n) as (mrs & -> & Hq); [lia|done|].
  pose proof (round_nearest_even_bounds (shr_m mrs) (loc_of_shr_record mrs))
    as Hq'.
  set (q' := round_nearest_even _ _) in *. rewrite Hq in Hq'.
  pose proof (digits2_pos_bounds m) as [Hmlo Hmhi].
  assert (2 ^ 52 <= Zpos m / 2 ^ n < 2 ^ 53) as [Hqlo Hqhi].
  { assert (0 < 2 ^ n) by (apply Z.pow_pos_nonneg; lia).
    replace (Zpos (digits2_pos m) - 1) with (52 + n) in Hmlo
      by (unfold n, prec; lia).
    replace (Zpos (digits2_pos m)) with (53 + n) in Hmhi
      by (unfold n, prec; lia).
    rewrite Z.pow_add_r in Hmlo, Hmhi by lia. split.
    - apply Z.div_le_lower_bound; lia.
    - apply Z.div_lt_upper_bound; lia. }
  destruct (Z.eq_dec q' (2 ^ 53)) as [Heq|Hne].
  - rewrite Heq. exists (2 ^ 52)%positive, (e + n + 1), q'.
    split; [|split; [lia|split; [lia|]]].
    + assert (shr_fexp prec emax (2 ^ 53) (e + n) loc_Exact =
              (Build_shr_record (2 ^ 52) false false, e + n + 1)) as ->.
      { unfold shr_fexp. change (Zdigits2 (2 ^ 53)) with 54.
        rewrite fexp_normal by (unfold prec in *; lia).
        replace (54 + (e + n) - 53 - (e + n)) with 1 by lia. reflexivity. }
      cbn [shr_m]. change (2 ^ 52) with (Zpos (2 ^ 52)).
      by rewrite (proj2 (Z.leb_le _ _) Hhi).
    + rewrite Heq. replace (e + n + 1 - (e + n)) with 1 by lia. reflexivity.
  - assert (0 < q') as Hpos by lia.
    destruct q' as [|p'|] eqn:Hp'; try lia.
    exists p', (e + n), (Zpos p').
    split; [|split; [lia|split; [lia|]]].
    + rewrite shr_fexp_exact.
      * cbn [shr_m]. rewrite (proj2 (Z.leb_le _ _)); [done|lia].
      * rewrite (digits2_pos_unique p' 53) by (simpl; lia).
        rewrite fexp_normal; lia.
    + replace (e + n - (e + n)) with 0 by lia. simpl. lia.
Qed.


Lemma iter_xO_pow2 (p k : positive) :
  Zpos (Pos.iter xO p k) = Zpos p * 2 ^ Zpos k.
Proof.
  rewrite (Pos.iter_swap_gen _ _ Zpos xO (Z.mul 2)) by done.
  change (Pos.iter (Z.mul 2) (Zpos p) k) with (Z.shiftl (Zpos p) (Zpos k)).
  apply Z.shiftl_mul_pow2. lia.
Qed.

Lemma shl_align_value (p : positive) e e' :
  e' <= e ->
  exists mz, shl_align p e e' = (mz, e') /\ Zpos mz = Zpos p * 2 ^ (e - e').
Proof.
  intros He. unfold shl_align. destruct (e' - e) as [|d|d] eqn:Hd; try lia.
  - exists p. replace e' with e by lia. split; [done|].
    rewrite Z.sub_diag. simpl. lia.
  - exists (Pos.iter xO p d). split; [done|].
    rewrite iter_xO_pow2. f_equal. f_equal. lia.
Qed.

(** [float(h)] is exact for a positive integer below [2^31]: a mantissa
    of 53 bits, the integer shifted left by [s] places. *)
Lemma float_of_int_small (p : positive) :
  Zpos p < 2 ^ 31 ->
  exists mz s,
    float_of_int (Zpos p) = Ok (S754_finite false mz (- s)) /\
    22 <= s <= 52 /\ Zpos mz = Zpos p * 2 ^ s /\
    2 ^ 52 <= Zpos mz < 2 ^ 53.
Proof.
  intros Hp. pose proof (digits2_pos_bounds p) as [Hlo Hhi].
  set (d := Zpos (digits2_pos p)) in *.
  assert (1 <= d <= 31) as Hd.
  { split; [unfold d; lia|].
    destruct (Z.le_gt_cases d 31) as [|Hgt]; [done|].
    assert (2 ^ 31 <= 2 ^ (d - 1)) by (apply Z.pow_le_mono_r; lia). lia. }
  unfold float_of_int, binary_normalize, binary_round.
  fold d. rewrite fexp_normal by lia.
  destruct (shl_align_value p 0 (d + 0 - 53)) as (mz & -> & Hmz); [lia|].
  replace (0 - (d + 0 - 53)) with (53 - d) in Hmz by lia.
  assert (2 ^ 52 <= Zpos mz < 2 ^ 53) as Hb.
  { rewrite Hmz.
    assert (2 ^ 52 = 2 ^ (d - 1) * 2 ^ (53 - d)) as ->
      by (rewrite <- Z.pow_add_r by lia; f_equal; lia).
    assert (2 ^ 53 = 2 ^ d * 2 ^ (53 - d)) as ->
      by (rewrite <- Z.pow_add_r by lia; f_equal; lia).
    assert (0 < 2 ^ (53 - d)) by (apply Z.pow_pos_nonneg; lia).
    split; [apply Z.mul_le_mono_nonneg_r | apply Z.mul_lt_mono_pos_r]; lia. }
  rewrite binary_round_aux_exact.
  - exists mz, (53 - d). replace (- (53 - d)) with (d + 0 - 53) by lia.
    split; [done|]. split; [lia|]. done.
  - rewrite (digits2_pos_unique mz 53) by (simpl; lia).
    rewrite fexp_normal; lia.
  - unfold emax, prec. lia.
Qed.


(** The arithmetic behind [int(9.8 * h)]: with [M] the mantissa of the
    double 9.8, [5 * M = 49 * 2^49 + 2], so that cutting [M * h] to 53
    bits, even rounding up, stays within the same integer part. *)
Lemma width_arith (h s n q' m' j : Z) :
  0 < h < 2 ^ 31 -> 22 <= s -> 0 < n <= 53 -> 0 <= j <= 1 ->
  j < 49 + s - n ->
  let P := 5516909543528858 * (h * 2 ^ s) in
  P / 2 ^ n <= q' <= P / 2 ^ n + 1 ->
  m' * 2 ^ j = q' ->
  m' / 2 ^ (49 + s - n - j) = 49 * h / 5.
Proof.
  intros Hh Hs Hn Hj HK P Hq' Hm'.
  set (K := 49 + s - n) in *. set (N := 49 * h / 5).
  assert (5 * N <= 49 * h <= 5 * N + 4) as HN.
  { pose proof (Z.div_mod (49 * h) 5 ltac:(lia)) as H1.
    pose proof (Z.mod_pos_bound (49 * h) 5 ltac:(lia)) as H2.
    fold N in H1. lia. }
  set (S := 2 ^ s) in *. set (T := 2 ^ n) in *. set (U := 2 ^ K).
  assert (0 < S) as HS by (apply Z.pow_pos_nonneg; lia).
  assert (0 < T) as HT by (apply Z.pow_pos_nonneg; lia).
  assert (0 < U) as HU by (apply Z.pow_pos_nonneg; lia).
  assert (T * U = 562949953421312 * S) as HTU.
  { unfold T, U, S, K. rewrite <- Z.pow_add_r by lia.
    replace (n + (49 + s - n)) with (49 + s) by lia.
    rewrite Z.pow_add_r by lia. reflexivity. }
  assert (T <= 2147483648 * S) as HTS.
  { unfold T, S. transitivity (2 ^ 53).
    - apply Z.pow_le_mono_r; lia.
    - transitivity (2147483648 * 2 ^ 22); [done|].
      apply Z.mul_le_mono_nonneg_l; [lia|]. apply Z.pow_le_mono_r; lia. }
  assert (m' / 2 ^ (K - j) = q' / U) as ->.
  { rewrite <- Hm'. unfold U.
    replace K with ((K - j) + j) at 2 by lia.
    rewrite Z.pow_add_r by lia. rewrite Z.div_mul_cancel_r; [done| |].
    - apply Z.pow_nonzero; lia.
    - apply Z.pow_nonzero; lia. }
  assert (U * N <= P / T) as Hlow.
  { apply Z.div_le_lower_bound; [done|].
    rewrite Z.mul_assoc, HTU. unfold P. nia. }
  assert (P / T + 1 < U * (N + 1)) as Hup.
  { assert (P / T < U * (N + 1) - 1); [|lia].
    apply Z.div_lt_upper_bound; [done|].
    rewrite Z.mul_sub_distr_l, Z.mul_assoc, HTU. unfold P. nia. }
  symmetry. apply Z.le_antisymm.
  - apply Z.div_le_lower_bound; lia.
  - assert (q' / U < N + 1); [|lia].
    apply Z.div_lt_upper_bound; lia.
Qed.

End PyFacts.

(** * Properties of [generate.py] *)

Module GenerateFacts.
Import Py Generate GenerateSpec.


Ltac char_cases :=
  repeat match goal with
  | H : context [N.leb ?a ?b] |- _ => destruct (N.leb_spec a b)
  | H : context [N.ltb ?a ?b] |- _ => destruct (N.ltb_spec a b)
  | H : context [N.eqb ?a ?b] |- _ => destruct (N.eqb_spec a b)
  | |- context [N.leb ?a ?b] => destruct (N.leb_spec a b)
  | |- context [N.ltb ?a ?b] => destruct (N.ltb_spec a b)
  | |- context [N.eqb ?a ?b] => destruct (N.eqb_spec a b)
  end; simpl in *; try congruence; try lia.

Lemma alnum_not_dash c : is_slug_alnum c = true -> is_dash c = false.
Proof. unfold is_slug_alnum, is_dash. intros H. char_cases. Qed.

Lemma no_run_weaken b s : no_run b s = true -> no_run false s = true.
Proof.
  destruct s as [|c s]; simpl; [done|].
  destruct (is_dash c); [|done]. destruct b; simpl; [discriminate|done].
Qed.

Lemma no_run_sub_nonalnum b s :
  no_run b (re_sub_runs (fun c => negb (is_slug_alnum c)) (lit "-") b s) = true.
Proof.
  revert b; induction s as [|c s IH]; intros b; simpl; [done|].
  destruct (is_slug_alnum c) eqn:Hc; simpl.
  - rewrite (alnum_not_dash _ Hc), Hc. apply IH.
  - destruct b; simpl; [apply IH|]. apply IH.
Qed.

Lemma sub_nonalnum_fixed b s :
  no_run b s = true ->
  re_sub_runs (fun c => negb (is_slug_alnum c)) (lit "-") b s = s.
Proof.
  revert b; induction s as [|c s IH]; intros b; simpl; [done|].
  destruct (is_dash c) eqn:Hd.
  - intros [Hb Hs]%andb_true_iff. destruct b; [discriminate|].
    assert (is_slug_alnum c = false) as ->.
    { destruct (is_slug_alnum c) eqn:Hc; [|done].
      apply alnum_not_dash in Hc. congruence. }
    simpl. rewrite (IH _ Hs). unfold is_dash in Hd.
    apply N.eqb_eq in Hd. by subst.
  - intros [Hc Hs]%andb_true_iff. rewrite Hc. simpl. by rewrite (IH _ Hs).
Qed.

Lemma sub_dash_fixed b s :
  no_run b s = true -> re_sub_runs (N.eqb 45) (lit "-") b s = s.
Proof.
  revert b; induction s as [|c s IH]; intros b; cbn [re_sub_runs no_run];
    [done|].
  rewrite (N.eqb_sym 45 c). fold (is_dash c).
  destruct (is_dash c) eqn:Hd.
  - intros [Hb Hs]%andb_true_iff. destruct b; [discriminate|].
    simpl. rewrite (IH _ Hs). apply N.eqb_eq in Hd. by subst.
  - intros [Hc Hs]%andb_true_iff. by rewrite (IH _ Hs).
Qed.

Lemma no_run_app_l b s t : no_run b (s ++ t) = true -> no_run b s = true.
Proof.
  revert b; induction s as [|c s IH]; intros b; simpl; [done|].
  destruct (is_dash c).
  - intros [-> Hs]%andb_true_iff. simpl. eauto.
  - intros [-> Hs]%andb_true_iff. simpl. eauto.
Qed.

Lemma lstrip_suffix p s : exists t, s = t ++ lstrip p s /\ forallb p t = true.
Proof.
  induction s as [|c s [t [IH Ht]]]; simpl; [by exists []|].
  destruct (p c) eqn:Hp.
  - exists (c :: t). simpl. rewrite Hp, Ht. split; [congruence|done].
  - by exists [].
Qed.

Lemma rstrip_prefix p s : exists t, s = rstrip p s ++ t /\ forallb p t = true.
Proof.
  unfold rstrip. destruct (lstrip_suffix p (rev s)) as [t [Ht Hp]].
  exists (rev t). split.
  - rewrite <- (rev_involutive s), Ht at 1. by rewrite rev_app_distr.
  - rewrite forallb_forall in *. intros x Hx. apply Hp. by apply in_rev.
Qed.

Lemma no_run_app_r b s t :
  no_run b (s ++ t) = true -> no_run false t = true.
Proof.
  revert b; induction s as [|c s IH]; intros b; simpl; [apply no_run_weaken|].
  destruct (is_dash c); intros [_ Hs]%andb_true_iff; eauto.
Qed.

Lemma lstrip_head p s c : head (lstrip p s) = Some c -> p c = false.
Proof.
  induction s as [|a s IH]; simpl; [done|].
  destruct (p a) eqn:Hp; [done|]. simpl. congruence.
Qed.

Lemma lstrip_id p s : (forall c, head s = Some c -> p c = false) -> lstrip p s = s.
Proof. destruct s as [|c s]; simpl; [done|]. intros H. by rewrite H. Qed.


Lemma head_rev (s : str) : head (rev s) = last s.
Proof.
  induction s as [|c s IH] using rev_ind; [done|].
  by rewrite rev_app_distr, last_snoc.
Qed.

Lemma rstrip_last p s c : last (rstrip p s) = Some c -> p c = false.
Proof.
  unfold rstrip. rewrite <- head_rev, rev_involutive. apply lstrip_head.
Qed.

Lemma rstrip_id p s :
  (forall c, last s = Some c -> p c = false) -> rstrip p s = s.
Proof.
  intros H. unfold rstrip. rewrite lstrip_id, rev_involutive; [done|].
  intros c. rewrite head_rev. apply H.
Qed.

Lemma rstrip_head p s c :
  head (rstrip p s) = Some c -> head s = Some c.
Proof.
  destruct (rstrip_prefix p s) as [t [Ht _]].
  rewrite Ht at 2. by destruct (rstrip p s).
Qed.

Lemma no_run_slug_char b s :
  no_run b s = true -> forallb slug_char s = true.
Proof.
  revert b; induction s as [|c s IH]; intros b; simpl; [done|].
  unfold slug_char at 1. destruct (is_dash c).
  - intros [_ Hs]%andb_true_iff. rewrite orb_true_r. eauto.
  - intros [-> Hs]%andb_true_iff. simpl. eauto.
Qed.

Lemma slug_char_ascii_lower s :
  forallb slug_char s = true ->
  forallb is_ascii s = true /\ List.map ascii_lower s = s.
Proof.
  induction s as [|c s IH]; simpl; [done|].
  intros [Hc Hs]%andb_true_iff. destruct (IH Hs) as [-> ->].
  revert Hc. unfold slug_char, is_slug_alnum, is_dash, is_ascii, ascii_lower.
  intros Hc. split; [|f_equal]; char_cases.
Qed.

Lemma is_dash_strip_eq c : is_dash_strip c = is_dash c.
Proof. unfold is_dash_strip, is_dash. simpl. apply orb_false_r. Qed.

Section Slugify.
Context `{RT : Runtime}.

(** What [slugify] returns has no two dashes in a row. *)
Lemma slugify_no_run (x : str) : no_run false (slugify x) = true.
Proof.
  unfold slugify, strip_chars, re_sub_plus.
  set (s2 := re_sub_runs _ _ false (str_lower x)).
  assert (no_run false s2 = true) as H2 by apply no_run_sub_nonalnum.
  rewrite (sub_dash_fixed _ _ H2).
  set (p := fun c => existsb (N.eqb c) (lit "-")).
  destruct (lstrip_suffix p s2) as [t1 [H3 _]].
  destruct (rstrip_prefix p (lstrip p s2)) as [t2 [H4 _]].
  rewrite H3 in H2. apply no_run_app_r in H2.
  rewrite H4 in H2. by apply no_run_app_l in H2.
Qed.

Lemma slugify_head (x : str) : head (slugify x) <> Some 45.
Proof.
  unfold slugify, strip_chars. intros H%rstrip_head%lstrip_head. done.
Qed.

Lemma slugify_last (x : str) : last (slugify x) <> Some 45.
Proof.
  unfold slugify, strip_chars. intros H%rstrip_last. done.
Qed.

(** C3: [slugify] is idempotent, and a slug is made of the characters
    [a-z], [0-9] and [-] only and neither starts nor ends with [-]. *)
Theorem slugify_idempotent_charset (x : str) :
  slugify (slugify x) = slugify x
  /\ Forall (fun c => 97 <= c <= 122 \/ 48 <= c <= 57 \/ c = 45) (slugify x)
  /\ head (slugify x) <> Some 45
  /\ last (slugify x) <> Some 45.
Proof.
  pose proof (slugify_no_run x) as Hrun.
  pose proof (slugify_head x) as Hhd.
  pose proof (slugify_last x) as Hlast.
  pose proof (no_run_slug_char _ _ Hrun) as Hch.
  destruct (slug_char_ascii_lower _ Hch) as [Hascii Hlow].
  split; [|split; [|done]].
  - set (y := slugify x) in *. unfold slugify, strip_chars, re_sub_plus.
    rewrite (str_lower_ascii y Hascii), Hlow.
    rewrite (sub_nonalnum_fixed _ _ Hrun), (sub_dash_fixed _ _ Hrun).
    fold is_dash_strip.
    rewrite (lstrip_id is_dash_strip y).
    + apply rstrip_id. intros c Hc. rewrite is_dash_strip_eq.
      unfold is_dash. apply N.eqb_neq. congruence.
    + intros c Hc. rewrite is_dash_strip_eq.
      unfold is_dash. apply N.eqb_neq. congruence.
  - apply Forall_forall. intros c Hc.
    rewrite forallb_forall in Hch. specialize (Hch c).
    rewrite <- list_elem_of_In in Hch. specialize (Hch Hc).
    revert Hch. unfold slug_char, is_slug_alnum, is_dash. intros Hch.
    char_cases.
Qed.

End Slugify.

Lemma replace_from_none old new k s :
  occurrences_from old k s = O -> replace_from old new k s = drop k s.
Proof.
  revert k. induction s as [|c s IH]; intros k; cbn [replace_from occurrences_from].
  - by destruct k.
  - destruct k as [|k]; [|apply IH].
    destruct (startswith old (c :: s)); [done|].
    intros H. rewrite (IH _ H). done.
Qed.

Lemma replace_at_most_once old new s :
  old <> [] -> (occurrences old s <= 1)%nat ->
  replace old new s = replace_first old new s.
Proof.
  intros Hold. unfold replace, occurrences. destruct old as [|o old]; [done|].
  clear Hold. induction s as [|c s IH]; [done|].
  cbn [replace_from occurrences_from replace_first].
  destruct (startswith (o :: old) (c :: s)).
  - intros H. rewrite replace_from_none by (simpl in *; lia). done.
  - intros H. by rewrite IH.
Qed.

(** ** [create_interfaces] *)

Section Interfaces.
Context `{RT : Runtime}.

Lemma iter_append_1g mk base (k : nat) st :
  Nat.iter k (append_1g mk base) st =
  {| interfaces := interfaces st ++ segment mk base (int_index_1g st) (Z.of_nat k);
     int_index_1g := int_index_1g st + Z.of_nat k;
     int_index_10g := int_index_10g st |}.
Proof.
  induction k as [|k IH].
  - simpl. destruct st; simpl. f_equal; [by rewrite app_nil_r | lia].
  - rewrite Nat.iter_succ, IH. unfold append_1g; simpl. f_equal; [|lia].
    rewrite <- app_assoc. f_equal. unfold segment.
    replace (Z.of_nat (S k)) with (Z.of_nat k + 1)%Z by lia.
    rewrite seqZ_app by lia. rewrite fmap_app. done.
Qed.

Lemma iter_append_10g mk base (k : nat) st :
  Nat.iter k (append_10g mk base) st =
  {| interfaces := interfaces st ++ segment mk base (int_index_10g st) (Z.of_nat k);
     int_index_1g := int_index_1g st;
     int_index_10g := int_index_10g st + Z.of_nat k |}.
Proof.
  induction k as [|k IH].
  - simpl. destruct st; simpl. f_equal; [by rewrite app_nil_r | lia].
  - rewrite Nat.iter_succ, IH. unfold append_10g; simpl. f_equal; [|lia].
    rewrite <- app_assoc. f_equal. unfold segment.
    replace (Z.of_nat (S k)) with (Z.of_nat k + 1)%Z by lia.
    rewrite seqZ_app by lia. rewrite fmap_app. done.
Qed.

Lemma segment_to_nat mk base first n :
  segment mk base first (Z.of_nat (Z.to_nat n)) = segment mk base first n.
Proof.
  unfold segment. destruct (Z.le_gt_cases 0 n).
  - by rewrite Z2Nat.id.
  - rewrite (seqZ_nil _ n) by lia. by replace (Z.to_nat n) with O by lia.
Qed.

Lemma for_range_append_1g mk base n st :
  for_range n (append_1g mk base) st =
  {| interfaces := interfaces st ++ segment mk base (int_index_1g st) n;
     int_index_1g := int_index_1g st + Z.max 0 n;
     int_index_10g := int_index_10g st |}.
Proof.
  unfold for_range. rewrite iter_append_1g, segment_to_nat. f_equal. lia.
Qed.

Lemma for_range_append_10g mk base n st :
  for_range n (append_10g mk base) st =
  {| interfaces := interfaces st ++ segment mk base (int_index_10g st) n;
     int_index_1g := int_index_1g st;
     int_index_10g := int_index_10g st + Z.max 0 n |}.
Proof.
  unfold for_range. rewrite iter_append_10g, segment_to_nat. f_equal. lia.
Qed.

Lemma create_interfaces_eq (row : Row) :
  create_interfaces row =
  let! is_stacking := stacking row in
  let! model_name := model_upper row in
  let! c := read_counts row in
  let! has_oob := oob_test row in
  Ok (layout is_stacking (poe_detect model_name) c has_oob).
Proof.
  unfold create_interfaces, read_counts.
  destruct (stacking row) as [is_stacking|]; cbn [bind]; [|done].
  destruct (model_upper row) as [model_name|]; cbn [bind]; [|done].
  repeat (match goal with
          | |- context [int_field row ?k] =>
              destruct (int_field row k); cbn [bind]; [|done]
          end).
  destruct (oob_test row) as [has_oob|]; cbn [bind]; [|done].
  repeat (rewrite for_range_append_1g;
          cbn [interfaces int_index_1g int_index_10g]).
  repeat (rewrite for_range_append_10g;
          cbn [interfaces int_index_1g int_index_10g]).
  unfold layout, copper_segment, other_segments.
  cbn [num_gi_copper num_gi_sfp num_gi_combo num_two_gi num_ten_gi_copper
       num_ten_gi_sfp num_ten_gi_combo app].
  f_equal. destruct has_oob; rewrite <- ?app_assoc; reflexivity.
Qed.

(** What [create_interfaces] returns, from what it read of the row. *)
Lemma create_interfaces_ok (row : Row) (l : list Interface) :
  create_interfaces row = Ok l ->
  exists is_stacking model_name c has_oob,
    stacking row = Ok is_stacking /\ model_upper row = Ok model_name /\
    read_counts row = Ok c /\ oob_test row = Ok has_oob /\
    l = layout is_stacking (poe_detect model_name) c has_oob.
Proof.
  rewrite create_interfaces_eq.
  destruct (stacking row) as [a|]; simpl; [|done].
  destruct (model_upper row) as [b|]; simpl; [|done].
  destruct (read_counts row) as [c|]; simpl; [|done].
  destruct (oob_test row) as [d|]; simpl; [|done].
  intros [= <-]. by exists a, b, c, d.
Qed.

Lemma layout_snoc is_stacking is_poe c has_oob :
  exists pre, layout is_stacking is_poe c has_oob = pre ++ [iface_vlan1].
Proof.
  unfold layout, other_segments. rewrite !app_assoc. eauto.
Qed.

(** C9: whenever [create_interfaces] succeeds, the list it returns is
    non-empty and ends with the interface named Vlan1, of type virtual,
    enabled and not management-only, whatever the counts, the OOB field
    and the Stacking flag are. *)
Theorem vlan1_is_last (row : Row) (l : list Interface) :
  create_interfaces row = Ok l ->
  l <> [] /\
  exists v, last l = Some v /\ name v = lit "Vlan1" /\ type v = lit "virtual"
            /\ enabled v = true /\ mgmt_only v = Some false.
Proof.
  intros (a & b & c & d & _ & _ & _ & _ & ->)%create_interfaces_ok.
  destruct (layout_snoc a (poe_detect b) c d) as [pre ->]. split.
  - by destruct pre.
  - exists iface_vlan1. by rewrite last_snoc.
Qed.
Lemma keeps_name_copper p : keeps_name (iface_gi_copper p).
Proof. done. Qed.
Lemma keeps_name_plain ty : keeps_name (iface_plain ty).
Proof. done. Qed.
Lemma keeps_name_combo ty d : keeps_name (iface_combo ty d).
Proof. done. Qed.

Lemma segment_no_oob mk base first n c :
  keeps_name mk -> head base = Some c -> c <> 79 ->
  filter (fun i => name i = lit "OOB") (segment mk base first n) = [].
Proof.
  intros Hmk Hb Hc. unfold segment.
  induction (seqZ first n) as [|k ks IH]; [done|].
  rewrite fmap_cons, filter_cons_False; [done|].
  rewrite Hmk. destruct base as [|b base]; [done|].
  simpl in Hb. injection Hb as ->. intros Heq. apply Hc.
  change (lit "OOB") with [79; 79; 66] in Heq. by injection Heq.
Qed.

Lemma base_1g_head b :
  head (if b : bool then lit "GigabitEthernet1/0/" else lit "GigabitEthernet")
  = Some 71.
Proof. by destruct b. Qed.

Lemma base_10g_head b :
  head (if b : bool then lit "TenGigabitEthernet1/0/"
        else lit "TenGigabitEthernet") = Some 84.
Proof. by destruct b. Qed.

Lemma layout_filter_oob is_stacking is_poe c has_oob :
  filter (fun i => name i = lit "OOB") (layout is_stacking is_poe c has_oob)
  = if has_oob then [iface_oob] else [].
Proof.
  unfold layout, copper_segment, other_segments. cbv zeta.
  rewrite !filter_app.
  rewrite !(segment_no_oob _ _ _ _ 71)
    by (done || apply base_1g_head).
  rewrite !(segment_no_oob _ _ _ _ 84)
    by (done || apply base_10g_head).
  by destruct has_oob.
Qed.

Lemma limit_small (d : N) :
  d <= 640 -> negb (int_max_str_digits =? 0) && (int_max_str_digits <? d) = false.
Proof.
  intros Hd. destruct int_max_str_digits_min as [-> | Hmin]; [done|].
  apply andb_false_iff. right. apply N.ltb_ge. lia.
Qed.

Lemma int_of_str_0 : int_of_str (lit "0") = Some 0%Z.
Proof.
  unfold int_of_str, to_ascii_decimal, long_from_string. simpl.
  by rewrite limit_small.
Qed.

Lemma int_of_str_2 : int_of_str (lit "2") = Some 2%Z.
Proof.
  unfold int_of_str, to_ascii_decimal, long_from_string. simpl.
  by rewrite limit_small.
Qed.

Lemma isdigit_ascii_char c :
  is_ascii_digit c = true -> isdigit [c] = true.
Proof.
  intros Hc. unfold isdigit. simpl. rewrite unicode_isdigit_ascii, Hc; [done|].
  revert Hc. unfold is_ascii_digit, is_ascii. intros Hc. char_cases.
Qed.

Lemma oob_test_digit (row : Row) c v :
  getitem row (lit "OOB") = Ok (Some [c]) -> is_ascii_digit c = true ->
  int_of_str [c] = Some v -> oob_test row = Ok (0 <? v)%Z.
Proof.
  intros Hrow Hc Hv. unfold oob_test. rewrite Hrow.
  cbn [bind]. rewrite isdigit_ascii_char by done.
  unfold int. rewrite Hv. done.
Qed.

(** When the OOB test of [create_interfaces] holds. *)
Lemma oob_test_true (row : Row) :
  oob_test row = Ok true <->
  exists (s : str) n, getitem row (lit "OOB") = Ok (Some s) /\ s <> [] /\
              forallb unicode_isdigit s = true /\
              int_of_str s = Some n /\ (0 < n)%Z.
Proof.
  unfold oob_test. split.
  - destruct (getitem row (lit "OOB")) as [[s|]|]; simpl; try done.
    destruct s as [|c s]; [done|]. unfold isdigit.
    destruct (forallb unicode_isdigit (c :: s)) eqn:Hd; [|done].
    destruct (int_of_str (c :: s)) as [n|] eqn:Hn; simpl; [|done].
    intros [= Hpos%Z.ltb_lt]. exists (c :: s), n. done.
  - intros (s & n & -> & Hs & Hd & Hn & Hpos). simpl.
    destruct s as [|c s]; [done|]. unfold isdigit. rewrite Hd.
    simpl. rewrite Hn. simpl. f_equal. by apply Z.ltb_lt.
Qed.

(** C4: on a row [create_interfaces] accepts, the list has an interface
    named OOB exactly when the OOB field is a non-empty string of digits
    whose integer value is greater than 0; such an interface has type
    1000base-t and is management-only; the value 0 gives none and the
    value 2 gives exactly one. *)
Theorem oob_interface_iff (row : Row) (l : list Interface) :
  create_interfaces row = Ok l ->
  let oobs := filter (fun i => name i = lit "OOB") l in
  ((exists i, i ∈ l /\ name i = lit "OOB") <->
   (exists (s : str) n, getitem row (lit "OOB") = Ok (Some s) /\ s <> [] /\
                forallb unicode_isdigit s = true /\
                int_of_str s = Some n /\ (0 < n)%Z))
  /\ (forall i, i ∈ l -> name i = lit "OOB" ->
        type i = lit "1000base-t" /\ mgmt_only i = Some true)
  /\ (getitem row (lit "OOB") = Ok (Some (lit "0")) -> oobs = [])
  /\ (getitem row (lit "OOB") = Ok (Some (lit "2")) -> oobs = [iface_oob]).
Proof.
  intros (a & b & c & d & _ & _ & _ & Hoob & ->)%create_interfaces_ok oobs.
  pose proof (layout_filter_oob a (poe_detect b) c d) as Hf. fold oobs in Hf.
  assert (forall i, i ∈ layout a (poe_detect b) c d -> name i = lit "OOB" ->
                    d = true /\ i = iface_oob) as Hin.
  { intros i Hi Hn. assert (i ∈ oobs) as Hi'.
    { apply list_elem_of_filter. done. }
    rewrite Hf in Hi'. destruct d; [|by apply not_elem_of_nil in Hi'].
    apply list_elem_of_singleton in Hi'. done. }
  split; [|split; [|split]].
  - rewrite <- oob_test_true, Hoob. split.
    + intros (i & Hi & Hn). destruct (Hin i Hi Hn) as [-> _]. done.
    + intros [= ->]. exists iface_oob. split; [|done].
      assert (iface_oob ∈ oobs) as Hi by (rewrite Hf; apply list_elem_of_singleton; done).
      by apply list_elem_of_filter in Hi as [_ Hi].
  - intros i Hi Hn. destruct (Hin i Hi Hn) as [_ ->]. done.
  - intros H0. rewrite Hf.
    rewrite (oob_test_digit row 48 0 H0 eq_refl int_of_str_0) in Hoob.
    by injection Hoob as <-.
  - intros H2. rewrite Hf.
    rewrite (oob_test_digit row 50 2 H2 eq_refl int_of_str_2) in Hoob.
    by injection Hoob as <-.
Qed.

Lemma read_counts_copper (row : Row) c :
  read_counts row = Ok c ->
  int_field row (lit "GigabitEthernet Copper") = Ok (num_gi_copper c).
Proof.
  unfold read_counts.
  repeat (match goal with
          | |- context [int_field row ?k] =>
              destruct (int_field row k); simpl; [|done]
          end).
  by intros [= <-].
Qed.

Lemma segment_Forall (P : Interface -> Prop) mk base first n :
  (forall nm, P (mk nm)) -> Forall P (segment mk base first n).
Proof.
  intros H. unfold segment. apply Forall_fmap, Forall_forall. intros; apply H.
Qed.

Lemma other_segments_no_poe is_stacking c has_oob :
  Forall no_poe (other_segments is_stacking c has_oob).
Proof.
  unfold other_segments. cbv zeta.
  repeat (apply Forall_app; split); try (by apply segment_Forall).
  - destruct has_oob; [|done]. by apply Forall_singleton.
  - by apply Forall_singleton.
Qed.

Lemma startswith_FP_P c s :
  startswith (lit "FP-") (c :: s) = true -> startswith (lit "P-") s = true.
Proof.
  change (lit "FP-") with [70; 80; 45]. change (lit "P-") with [80; 45].
  simpl. by intros [_ H]%andb_true_iff.
Qed.

Lemma contains_startswith sub s :
  startswith sub s = true -> contains sub s = true.
Proof. intros H. destruct s; cbn [contains]; rewrite H; reflexivity. Qed.

Lemma contains_FP_P s :
  contains (lit "FP-") s = true -> contains (lit "P-") s = true.
Proof.
  induction s as [|c s IH]; [done|].
  cbn [contains]. intros [H|H]%orb_true_iff.
  - apply startswith_FP_P, contains_startswith in H.
    apply orb_true_iff. by right.
  - apply orb_true_iff. right. auto.
Qed.

Lemma model_upper_inv (row : Row) (model_name : str) :
  model_upper row = Ok model_name ->
  exists m : str, row !! lit "Model" = Some (Some m) /\ model_name = str_upper m.
Proof.
  unfold model_upper, getitem.
  destruct (row !! lit "Model") as [[m|]|];
    cbn [bind of_option receiver]; [|done..].
  intros [= <-]. by exists m.
Qed.

Lemma ascii_upper_P (c : N) :
  (80 =? ascii_upper c)%N = ((80 =? c) || (112 =? c))%N.
Proof. unfold ascii_upper. char_cases. Qed.

Lemma ascii_upper_dash (c : N) : (45 =? ascii_upper c)%N = (45 =? c)%N.
Proof. unfold ascii_upper. char_cases. Qed.

(** Upper-casing ASCII text turns the search for [P-] into a search that
    ignores the case of the letter. *)
Lemma contains_P_upper (m : str) :
  contains (lit "P-") (List.map ascii_upper m)
  = contains (lit "P-") m || contains (lit "p-") m.
Proof.
  change (lit "P-") with [80; 45]%N. change (lit "p-") with [112; 45]%N.
  induction m as [|c s IH]; [done|].
  cbn [List.map contains]. rewrite IH.
  assert (startswith [80; 45]%N (ascii_upper c :: List.map ascii_upper s)
          = startswith [80; 45]%N (c :: s) || startswith [112; 45]%N (c :: s))
    as ->.
  { destruct s as [|d s]; cbn [List.map startswith].
    - by rewrite !andb_false_r.
    - rewrite ascii_upper_P, ascii_upper_dash.
      destruct (80 =? c)%N, (112 =? c)%N, (45 =? d)%N; reflexivity. }
  destruct (startswith [80; 45]%N (c :: s)),
    (startswith [112; 45]%N (c :: s)),
    (contains [80; 45]%N s), (contains [112; 45]%N s); reflexivity.
Qed.

(** C5: the list [create_interfaces] returns starts with the interfaces
    of the Gigabit-copper category, as many as the count of that column;
    these carry [poe_mode: pse] and [poe_type: type2-ieee802.3at] exactly
    when the upper-cased text of the Model cell contains [P-] or [FP-],
    and no PoE attribute otherwise; the interfaces of every other category
    never carry a PoE attribute.  For a Model cell in ASCII the test is
    that the cell contains [P-] or [p-]. *)
Theorem poe_only_on_gigabit_copper (row : Row) (l : list Interface) :
  create_interfaces row = Ok l ->
  exists is_stacking (m : str) n rest,
    stacking row = Ok is_stacking /\
    row !! lit "Model" = Some (Some m) /\
    model_upper row = Ok (str_upper m) /\
    int_field row (lit "GigabitEthernet Copper") = Ok n /\
    let is_poe :=
      contains (lit "P-") (str_upper m) || contains (lit "FP-") (str_upper m) in
    let copper := copper_segment is_stacking is_poe n in
    l = copper ++ rest /\
    length copper = Z.to_nat n /\
    Forall (fun i =>
              type i = lit "1000base-t" /\
              (poe_mode i = Some (lit "pse") /\
               poe_type i = Some (lit "type2-ieee802.3at") <-> is_poe = true) /\
              (is_poe = false -> poe_mode i = None /\ poe_type i = None))
           copper /\
    Forall (fun i => poe_mode i = None /\ poe_type i = None) rest /\
    (forallb is_ascii m = true ->
     is_poe = contains (lit "P-") m || contains (lit "p-") m).
Proof.
  intros (a & b & c & d & Ha & Hb & Hc & _ & ->)%create_interfaces_ok.
  destruct (model_upper_inv row b Hb) as (m & Hm & ->).
  exists a, m, (num_gi_copper c), (other_segments a c d).
  split; [done|]. split; [done|]. split; [done|].
  split; [by apply read_counts_copper|].
  cbv zeta. fold (poe_detect (str_upper m)). split; [done|].
  split; [|split; [|split]].
  - unfold copper_segment, segment. by rewrite length_fmap, length_seqZ.
  - apply segment_Forall. intros nm. simpl.
    destruct (poe_detect (str_upper m)); intuition congruence.
  - apply other_segments_no_poe.
  - intros Hascii. unfold poe_detect.
    rewrite (str_upper_ascii m Hascii), <- contains_P_upper.
    destruct (contains (lit "FP-") (List.map ascii_upper m)) eqn:HFP;
      [|apply orb_false_r].
    by rewrite (contains_FP_P _ HFP).
Qed.

(** C10: in the PoE detection the test for [FP-] is redundant: the
    condition is equivalent to the test for [P-] alone, since a string
    that contains [FP-] contains [P-]. *)
Theorem poe_detect_fp_redundant (m : str) :
  (contains (lit "P-") (str_upper m) || contains (lit "FP-") (str_upper m))
  = contains (lit "P-") (str_upper m)
  /\ (forall s, contains (lit "FP-") s = true -> contains (lit "P-") s = true)
  /\ poe_detect (str_upper m) = contains (lit "P-") (str_upper m).
Proof.
  assert (forall s, poe_detect s = contains (lit "P-") s) as H.
  { intros s. unfold poe_detect.
    destruct (contains (lit "P-") s) eqn:HP; [done|].
    destruct (contains (lit "FP-") s) eqn:HF; [|done].
    apply contains_FP_P in HF. congruence. }
  split; [apply H|]. split; [apply contains_FP_P|apply H].
Qed.

(** C2: a row whose counts read 2 (Gigabit copper), 1 (Gigabit SFP), 0, 0,
    1 (Ten-gig copper), 0, 0 and whose OOB field gives no interface yields
    exactly five interfaces; their names are GigabitEthernet1/0/1 to
    GigabitEthernet1/0/3, TenGigabitEthernet1/0/1 and Vlan1 when the row
    is stacking, and GigabitEthernet1 to GigabitEthernet3,
    TenGigabitEthernet1 and Vlan1 when it is not: the 10G numbering starts
    again at 1. *)
Theorem interface_names_example (row : Row) (model_name : str)
  (is_stacking : bool) :
  stacking row = Ok is_stacking ->
  model_upper row = Ok model_name ->
  int_field row (lit "GigabitEthernet Copper") = Ok 2%Z ->
  int_field row (lit "GigabitEthernet SFP") = Ok 1%Z ->
  int_field row (lit "GigabitEthernet Combo") = Ok 0%Z ->
  int_field row (lit "TwoGigabitEthernet") = Ok 0%Z ->
  int_field row (lit "TenGigabitEthernet Copper") = Ok 1%Z ->
  int_field row (lit "TenGigabitEthernet SFP+") = Ok 0%Z ->
  int_field row (lit "TenGigabitEthernet Combo") = Ok 0%Z ->
  oob_test row = Ok false ->
  exists l,
    create_interfaces row = Ok l /\ length l = 5%nat /\
    name <$> l =
      if is_stacking
      then [lit "GigabitEthernet1/0/1"; lit "GigabitEthernet1/0/2";
            lit "GigabitEthernet1/0/3"; lit "TenGigabitEthernet1/0/1";
            lit "Vlan1"]
      else [lit "GigabitEthernet1"; lit "GigabitEthernet2";
            lit "GigabitEthernet3"; lit "TenGigabitEthernet1"; lit "Vlan1"].
Proof.
  intros Hs Hm H1 H2 H3 H4 H5 H6 H7 Hoob.
  rewrite create_interfaces_eq, Hs, Hm. unfold read_counts.
  rewrite H1, H2, H3, H4, H5, H6, H7, Hoob. cbn [bind].
  eexists. split; [reflexivity|].
  destruct is_stacking; split; vm_compute; reflexivity.
Qed.

Lemma space_literal c : Py_ISSPACE c = true -> literal_char c = true.
Proof. unfold literal_char. intros ->. by rewrite orb_true_r. Qed.

Lemma forallb_space_literal s :
  forallb Py_ISSPACE s = true -> forallb literal_char s = true.
Proof.
  rewrite !forallb_forall. intros H c Hc. by apply space_literal, H.
Qed.

Lemma scan_digits_chars acc n b s v d rest :
  scan_digits acc n b s = Some (v, d, rest) ->
  exists pre, s = pre ++ rest /\ forallb literal_char pre = true.
Proof.
  revert acc n b. induction s as [|c s IH]; intros acc n b; cbn [scan_digits].
  - destruct b; [done|]. intros [= <- <- <-]. by exists [].
  - destruct (is_ascii_digit c) eqn:Hd.
    + intros (pre & -> & Hpre)%IH. exists (c :: pre). split; [done|].
      simpl. unfold literal_char at 1. by rewrite Hd, Hpre.
    + destruct (c =? 95) eqn:Hu.
      * destruct b; [done|]. intros (pre & -> & Hpre)%IH.
        exists (c :: pre). split; [done|].
        simpl. unfold literal_char at 1. rewrite Hu, Hpre.
        by rewrite !orb_true_r.
      * destruct b; [done|]. intros [= <- <- <-]. by exists [].
Qed.

Lemma lstrip_nil_forallb p s : lstrip p s = [] -> forallb p s = true.
Proof.
  intros H. destruct (lstrip_suffix p s) as [t [Ht Hp]].
  rewrite H, app_nil_r in Ht. by subst.
Qed.

Lemma long_digits_chars neg s v :
  long_digits neg s = Some v -> forallb literal_char s = true.
Proof.
  unfold long_digits. destruct s as [|c s]; [done|].
  destruct (is_ascii_digit c); [|done].
  destruct (scan_digits 0 0 false (c :: s)) as [[[v0 d] rest]|] eqn:Hscan;
    [|done].
  destruct (_ && _); [done|].
  destruct (lstrip Py_ISSPACE rest) eqn:Hrest; [|done]. intros _.
  apply scan_digits_chars in Hscan as (pre & -> & Hpre).
  rewrite forallb_app, Hpre. simpl.
  by apply forallb_space_literal, lstrip_nil_forallb.
Qed.

Lemma long_from_string_chars buf v :
  long_from_string buf = Some v -> forallb literal_char buf = true.
Proof.
  unfold long_from_string.
  destruct (lstrip_suffix Py_ISSPACE buf) as [t [Ht Hp]].
  rewrite Ht at 2. rewrite forallb_app, (forallb_space_literal _ Hp).
  cbn [andb]. destruct (lstrip Py_ISSPACE buf) as [|c s]; [done|].
  destruct (c =? 43) eqn:H43; [|destruct (c =? 45) eqn:H45].
  - intros H%long_digits_chars. simpl. unfold literal_char at 1.
    rewrite H43, H. by rewrite !orb_true_r.
  - intros H%long_digits_chars. simpl. unfold literal_char at 1.
    rewrite H45, H. by rewrite !orb_true_r.
  - apply long_digits_chars.
Qed.

Lemma literal_numeric c : literal_char c = true -> numeric_char c = true.
Proof. unfold numeric_char. by intros ->. Qed.

Lemma transform_chars s :
  forallb literal_char (transform_decimal_and_space s) = true ->
  forallb numeric_char s = true.
Proof.
  induction s as [|c s IH]; [done|]. cbn [transform_decimal_and_space].
  destruct (c <? 127) eqn:Hc.
  - simpl. intros [H1 H2]%andb_true_iff. by rewrite (literal_numeric _ H1), IH.
  - apply N.ltb_ge in Hc. apply N.leb_le in Hc.
    destruct (is_space c) eqn:Hsp.
    + cbn [forallb]. intros [_ H2]%andb_true_iff. rewrite IH by done.
      unfold numeric_char. rewrite Hc, Hsp. by rewrite orb_true_r.
    + destruct (unicode_todecimal c) as [d|] eqn:Hd.
      * cbn [forallb]. intros [_ H2]%andb_true_iff. rewrite IH by done.
        unfold numeric_char. rewrite Hc, Hd.
        rewrite bool_decide_true by done. by rewrite !orb_true_r.
      * done.
Qed.

(** A string [int()] accepts is made of digits, signs, underscores and
    white space. *)
Lemma int_of_str_chars (s : str) v :
  int_of_str s = Some v -> forallb numeric_char s = true.
Proof.
  unfold int_of_str, to_ascii_decimal. intros H%long_from_string_chars.
  destruct (forallb is_ascii s).
  - rewrite forallb_forall in *. intros c Hc. by apply literal_numeric, H.
  - by apply transform_chars.
Qed.

Lemma read_counts_raises (row : Row) (key : str) :
  key ∈ count_columns -> raises (int_field row key) ->
  raises (read_counts row).
Proof.
  intros Hkey [e He]. unfold read_counts.
  unfold count_columns in Hkey.
  repeat (apply elem_of_cons in Hkey as [->|Hkey];
    [repeat (first
       [ rewrite He; by eexists
       | match goal with
         | |- raises (bind (int_field row ?k) _) =>
             destruct (int_field row k); cbn [bind]; [|by eexists]
         end ])|]).
  by apply not_elem_of_nil in Hkey.
Qed.

Lemma read_counts_ok (row : Row) c (key : str) :
  read_counts row = Ok c -> key ∈ count_columns ->
  exists n, int_field row key = Ok n.
Proof.
  intros Hc Hkey. destruct (int_field row key) as [n|e] eqn:He; [by exists n|].
  destruct (read_counts_raises row key Hkey) as [e' He']; [by exists e|].
  congruence.
Qed.

Lemma int_field_ok (row : Row) (key : str) n :
  int_field row key = Ok n <->
  exists s : str, row !! key = Some (Some s) /\ int_of_str s = Some n.
Proof.
  unfold int_field, getitem, int. split.
  - destruct (row !! key) as [[s|]|]; simpl; [|done..].
    destruct (int_of_str s) eqn:Hs; simpl; [|done]. intros [= ->]. by exists s.
  - intros (s & -> & Hs). simpl. by rewrite Hs.
Qed.

Lemma bad_count_int_field (row : Row) (key : str) :
  (row !! key = None
   \/ row !! key = Some None
   \/ exists s : str, row !! key = Some (Some s) /\
        (int_of_str s = None \/ exists c, c ∈ s /\ numeric_char c = false)) ->
  raises (int_field row key).
Proof.
  intros Hbad. unfold int_field, getitem, int.
  destruct Hbad as [-> | [-> | (s & -> & Hs)]]; [by eexists..|].
  simpl. destruct (int_of_str s) as [v|] eqn:Hv; [|by eexists].
  destruct Hs as [|(c & Hc & Hnum)]; [done|].
  apply int_of_str_chars in Hv. rewrite forallb_forall in Hv.
  apply list_elem_of_In in Hc. rewrite (Hv c Hc) in Hnum. done.
Qed.

Lemma create_interfaces_raises (row : Row) (key : str) :
  key ∈ count_columns -> raises (int_field row key) ->
  raises (create_interfaces row).
Proof.
  intros Hkey Hraise. rewrite create_interfaces_eq.
  destruct (stacking row); cbn [bind]; [|by eexists].
  destruct (model_upper row); cbn [bind]; [|by eexists].
  destruct (read_counts_raises row key Hkey Hraise) as [e ->]. by eexists.
Qed.

(** An exception of [create_interfaces] leaves the loop body of [main]. *)
Lemma device_of_row_raises (isfile : str -> bool) (row : Row) :
  raises (create_interfaces row) -> raises (device_of_row isfile row).
Proof.
  intros [e He]. unfold device_of_row. rewrite He.
  repeat (match goal with
          | |- raises (bind ?r _) => destruct r; cbn [bind]; [|by eexists]
          end).
  by eexists.
Qed.

(** C8, amended: a row in which one of the seven port-count columns is
    absent, holds no cell, or holds a string [int()] does not read (any
    string with a character that is no digit, sign, underscore or white
    space is one) makes [create_interfaces] raise: no interface list is
    returned for it, and the exception leaves the loop body of [main]
    uncaught.  A row that gives a list has in every count column a string
    [int()] reads; the integer may be negative. *)
Theorem bad_count_raises (row : Row) (key : str) :
  key ∈ count_columns ->
  ((row !! key = None
    \/ row !! key = Some None
    \/ exists s : str, row !! key = Some (Some s) /\
         (int_of_str s = None \/ exists c, c ∈ s /\ numeric_char c = false)) ->
   raises (create_interfaces row)
   /\ (forall l, create_interfaces row <> Ok l)
   /\ (forall isfile, raises (device_of_row isfile row)))
  /\ (forall l, create_interfaces row = Ok l ->
       exists (s : str) n,
         row !! key = Some (Some s) /\ int_of_str s = Some n).
Proof.
  intros Hkey. split.
  - intros Hbad%bad_count_int_field.
    pose proof (create_interfaces_raises row key Hkey Hbad) as Hraise.
    split; [done|]. split.
    + destruct Hraise as [e He]. congruence.
    + intros isfile. by apply device_of_row_raises.
  - intros l (_ & _ & c & _ & _ & _ & Hc & _)%create_interfaces_ok.
    destruct (read_counts_ok row c key Hc Hkey) as [n Hn].
    apply int_field_ok in Hn as (s & Hs & Hint). by exists s, n.
Qed.

(** ** The device record *)

Lemma device_of_row_ok (isfile : str -> bool) (row : Row) fn d :
  device_of_row isfile row = Ok (fn, d) ->
  exists m : str,
    row !! lit "Model" = Some (Some m) /\
    slug d = lit "cisco-" ++ slugify m /\
    model d = replace (lit "C1300") (lit "Catalyst 1300") m.
Proof.
  unfold device_of_row, getitem at 1.
  destruct (row !! lit "Model") as [[m|]|]; cbn [bind of_option receiver]; [|done..].
  repeat (match goal with
          | |- bind ?r _ = _ -> _ => destruct r; cbn [bind]; [|done]
          end).
  intros [= <- <-]. by exists m.
Qed.

(** C6, amended: the slug of the device record is [cisco-] followed by
    [slugify] of the model string as read from the row, and the model
    display field is the model string with every occurrence of [C1300]
    (left to right, not overlapping) replaced by [Catalyst 1300]; when
    [C1300] occurs at most once this is the replacement of the first
    occurrence only. *)
Theorem device_slug_and_model (isfile : str -> bool) (row : Row) fn d :
  device_of_row isfile row = Ok (fn, d) ->
  exists m : str,
    row !! lit "Model" = Some (Some m) /\
    slug d = lit "cisco-" ++ slugify m /\
    model d = replace (lit "C1300") (lit "Catalyst 1300") m /\
    ((occurrences (lit "C1300") m <= 1)%nat ->
     model d = replace_first (lit "C1300") (lit "Catalyst 1300") m).
Proof.
  intros (m & Hm & Hs & Hd)%device_of_row_ok. exists m.
  repeat split; try done. intros Hocc. rewrite Hd.
  by apply replace_at_most_once.
Qed.
End Interfaces.

End GenerateFacts.

(** * Further properties of [generate.py] *)

Module GenerateMore.
Import Py Generate GenerateSpec GenerateSpec2 GenerateFacts.

Section Names.
Local Open Scope Z_scope.

Lemma segment_names mk base first n :
  keeps_name mk ->
  name <$> segment mk base first n =
  (fun i => base ++ str_of_int i) <$> seqZ first n.
Proof.
  intros Hmk. unfold segment. rewrite <- list_fmap_compose.
  apply list_fmap_ext. intros _ i _. simpl. apply Hmk.
Qed.

Lemma runs_nonneg n : 0 <= runs n.
Proof. unfold runs. lia. Qed.

Lemma seqZ_runs a n : seqZ a n = seqZ a (runs n).
Proof.
  unfold runs. destruct (Z.le_gt_cases n 0).
  - by rewrite !seqZ_nil by lia.
  - f_equal. lia.
Qed.

Lemma seqZ_app_runs (f : Z -> str) a k m :
  0 <= k ->
  (f <$> seqZ a k) ++ (f <$> seqZ (a + k) m) = f <$> seqZ a (k + runs m).
Proof.
  intros Hk. rewrite (seqZ_runs (a + k) m), <- fmap_app. f_equal.
  symmetry. apply seqZ_app; [done|apply runs_nonneg].
Qed.

Lemma layout_names is_stacking is_poe c has_oob :
  name <$> layout is_stacking is_poe c has_oob =
  numbered (base_name_1g is_stacking) (total_1g c)
  ++ numbered (base_name_10g is_stacking) (total_10g c)
  ++ (if has_oob then [lit "OOB"] else [])
  ++ [lit "Vlan1"].
Proof.
  unfold layout, copper_segment, other_segments. cbv zeta.
  fold (base_name_1g is_stacking). fold (base_name_10g is_stacking).
  rewrite !fmap_app. rewrite !segment_names by done.
  set (f1 := fun i => base_name_1g is_stacking ++ str_of_int i).
  set (f10 := fun i => base_name_10g is_stacking ++ str_of_int i).
  fold (runs (num_gi_copper c)) (runs (num_gi_sfp c)) (runs (num_gi_combo c))
       (runs (num_ten_gi_copper c)) (runs (num_ten_gi_sfp c)).
  pose proof (runs_nonneg (num_gi_copper c)).
  pose proof (runs_nonneg (num_gi_sfp c)).
  pose proof (runs_nonneg (num_gi_combo c)).
  pose proof (runs_nonneg (num_ten_gi_copper c)).
  pose proof (runs_nonneg (num_ten_gi_sfp c)).
  rewrite (seqZ_runs 1 (num_gi_copper c)), (seqZ_runs 1 (num_ten_gi_copper c)).
  rewrite !app_assoc.
  rewrite (seqZ_app_runs f1 1) by done.
  replace (1 + runs (num_gi_copper c) + runs (num_gi_sfp c))
    with (1 + (runs (num_gi_copper c) + runs (num_gi_sfp c))) by lia.
  rewrite (seqZ_app_runs f1 1) by lia.
  replace (1 + (runs (num_gi_copper c) + runs (num_gi_sfp c))
           + runs (num_gi_combo c))
    with (1 + (runs (num_gi_copper c) + runs (num_gi_sfp c)
               + runs (num_gi_combo c))) by lia.
  rewrite (seqZ_app_runs f1 1) by lia.
  rewrite <- !app_assoc.
  rewrite (app_assoc (f10 <$> _)), (seqZ_app_runs f10 1) by done.
  replace (1 + runs (num_ten_gi_copper c) + runs (num_ten_gi_sfp c))
    with (1 + (runs (num_ten_gi_copper c) + runs (num_ten_gi_sfp c))) by lia.
  rewrite (app_assoc (f10 <$> _)), (seqZ_app_runs f10 1) by lia.
  by destruct has_oob.
Qed.

Section WithRuntime.
Context `{RT : Runtime}.

(** X1: The names of the interfaces [create_interfaces] returns are, in
    this order: the GigabitEthernet names numbered 1 to the sum of the four
    gigabit counts, the TenGigabitEthernet names numbered 1 to the sum of
    the three ten-gigabit counts, [OOB] when the OOB test holds, and
    [Vlan1]; a negative count adds nothing.  With stacking the base names
    end in [1/0/]. *)
Theorem interface_names (row : Row) (l : list Interface) :
  create_interfaces row = Ok l ->
  exists is_stacking c has_oob,
    stacking row = Ok is_stacking /\ read_counts row = Ok c /\
    oob_test row = Ok has_oob /\
    name <$> l =
      numbered (base_name_1g is_stacking) (total_1g c)
      ++ numbered (base_name_10g is_stacking) (total_10g c)
      ++ (if has_oob then [lit "OOB"] else [])
      ++ [lit "Vlan1"] /\
    Z.of_nat (length l) =
      total_1g c + total_10g c + (if has_oob then 1 else 0) + 1.
Proof.
  intros (a & b & c & d & Ha & _ & Hc & Hd & ->)%create_interfaces_ok.
  exists a, c, d. repeat (split; [done|]).
  pose proof (layout_names a (poe_detect b) c d) as Hn.
  split; [done|].
  rewrite <- (length_fmap name), Hn. unfold numbered.
  rewrite !length_app, !length_fmap, !length_seqZ.
  assert (0 <= total_1g c) by (unfold total_1g, runs; lia).
  assert (0 <= total_10g c) by (unfold total_10g, runs; lia).
  destruct d; simpl; lia.
Qed.

Lemma uint_str_inj d d' : uint_str d = uint_str d' -> d = d'.
Proof.
  revert d'. induction d; intros d'; destruct d'; simpl; try discriminate;
    intros H; try injection H as H; f_equal; auto.
Qed.

Lemma uint_str_no_minus d : head (uint_str d) <> Some 45%N.
Proof. destruct d; simpl; congruence. Qed.

Lemma str_of_int_inj a b : str_of_int a = str_of_int b -> a = b.
Proof.
  unfold str_of_int. intros H.
  rewrite <- (DecimalZ.of_to a), <- (DecimalZ.of_to b). f_equal.
  destruct (Z.to_int a) as [d|d], (Z.to_int b) as [d'|d'].
  - f_equal. by apply uint_str_inj.
  - exfalso. apply (uint_str_no_minus d). by rewrite H.
  - exfalso. apply (uint_str_no_minus d'). by rewrite <- H.
  - f_equal. injection H as H. by apply uint_str_inj.
Qed.

Lemma numbered_NoDup base n : NoDup (numbered base n).
Proof.
  unfold numbered. apply NoDup_fmap_2; [|apply NoDup_seqZ].
  intros a b H. apply app_inv_head in H. by apply str_of_int_inj.
Qed.

Lemma numbered_head base n x c :
  head base = Some c -> x ∈ numbered base n -> head x = Some c.
Proof.
  intros Hb (i & -> & _)%list_elem_of_fmap. by destruct base.
Qed.

(** X2: No two interfaces of a device share a name. *)
Theorem interface_names_distinct (row : Row) (l : list Interface) :
  create_interfaces row = Ok l -> NoDup (name <$> l).
Proof.
  intros (a & b & c & d & _ & _ & _ & _ & ->)%create_interfaces_ok.
  rewrite layout_names.
  assert (head (base_name_1g a) = Some 71%N) as H1 by (by destruct a).
  assert (head (base_name_10g a) = Some 84%N) as H10 by (by destruct a).
  apply NoDup_app. split; [apply numbered_NoDup|]. split.
  - intros x Hx%(numbered_head _ _ _ _ H1).
    rewrite !elem_of_app. intros [Hy%(numbered_head _ _ _ _ H10)|[Hy|Hy]].
    + congruence.
    + destruct d; [|by apply not_elem_of_nil in Hy].
      apply list_elem_of_singleton in Hy as ->. done.
    + apply list_elem_of_singleton in Hy as ->. done.
  - apply NoDup_app. split; [apply numbered_NoDup|]. split.
    + intros x Hx%(numbered_head _ _ _ _ H10).
      rewrite !elem_of_app. intros [Hy|Hy].
      * destruct d; [|by apply not_elem_of_nil in Hy].
        apply list_elem_of_singleton in Hy as ->. done.
      * apply list_elem_of_singleton in Hy as ->. done.
    + destruct d; [|apply NoDup_singleton].
      apply NoDup_cons. split; [|apply NoDup_singleton].
      intros Hy%list_elem_of_singleton. done.
Qed.
End WithRuntime.

End Names.

Section Shapes.
Local Open Scope Z_scope.

Lemma segment_Forall_named (P : Interface -> Prop) mk base first n :
  (forall i, P (mk (base ++ str_of_int i))) ->
  Forall P (segment mk base first n).
Proof.
  intros H. unfold segment. apply Forall_fmap, Forall_forall. intros; apply H.
Qed.

Lemma startswith_app pre s : startswith pre (pre ++ s) = true.
Proof.
  induction pre as [|c pre IH]; [by destruct s|].
  simpl. by rewrite N.eqb_refl, IH.
Qed.

Lemma startswith_head pre s c :
  startswith pre s = true -> head pre = Some c -> head s = Some c.
Proof.
  destruct pre as [|a pre]; [done|]. destruct s as [|b s]; [done|].
  simpl. intros [->%N.eqb_eq _]%andb_true_iff. done.
Qed.

Lemma layout_Forall (P : Interface -> Prop) is_stacking is_poe c has_oob :
  (forall mk i, mk ∈ [iface_gi_copper is_poe;
                      iface_plain (lit "1000base-x-sfp");
                      iface_combo (lit "1000base-x-sfp") (lit "SFP/RJ45 Combo");
                      iface_plain (lit "2.5gbase-t")] ->
     P (mk (base_name_1g is_stacking ++ str_of_int i))) ->
  (forall mk i, mk ∈ [iface_plain (lit "10gbase-t");
                      iface_plain (lit "10gbase-x-sfpp");
                      iface_combo (lit "10gbase-x-sfpp")
                        (lit "SFP+/RJ45 Combo")] ->
     P (mk (base_name_10g is_stacking ++ str_of_int i))) ->
  P iface_oob -> P iface_vlan1 ->
  Forall P (layout is_stacking is_poe c has_oob).
Proof.
  intros H1 H10 Hoob Hvlan.
  unfold layout, copper_segment, other_segments. cbv zeta.
  fold (base_name_1g is_stacking). fold (base_name_10g is_stacking).
  repeat (apply Forall_app; split);
    try (apply segment_Forall_named; intros i;
         first [apply H1 | apply H10]; set_solver).
  - destruct has_oob; [by apply Forall_singleton|done].
  - by apply Forall_singleton.
Qed.

Section WithRuntime.
Context `{RT : Runtime}.

(** X3: Every interface is enabled; [mgmt_only] is [True] on the
    interface named [OOB] only, [False] on [Vlan1] only, and absent on every
    other interface. *)
Theorem interface_flags (row : Row) (l : list Interface) :
  create_interfaces row = Ok l ->
  Forall (fun i =>
            enabled i = true /\
            (mgmt_only i = Some true <-> name i = lit "OOB") /\
            (mgmt_only i = Some false <-> name i = lit "Vlan1") /\
            (mgmt_only i = None <->
             name i <> lit "OOB" /\ name i <> lit "Vlan1")) l.
Proof.
  intros (a & b & c & d & _ & _ & _ & _ & ->)%create_interfaces_ok.
  assert (forall s, lit "OOB" <> base_name_1g a ++ s /\
                    lit "Vlan1" <> base_name_1g a ++ s /\
                    lit "OOB" <> base_name_10g a ++ s /\
                    lit "Vlan1" <> base_name_10g a ++ s) as Hne.
  { intros s. by destruct a. }
  apply layout_Forall.
  - intros mk i Hmk. specialize (Hne (str_of_int i)).
    repeat (apply elem_of_cons in Hmk as [->|Hmk]);
      [..|by apply not_elem_of_nil in Hmk];
      unfold iface_gi_copper, iface_plain, iface_combo;
      cbn [enabled mgmt_only name]; intuition congruence.
  - intros mk i Hmk. specialize (Hne (str_of_int i)).
    repeat (apply elem_of_cons in Hmk as [->|Hmk]);
      [..|by apply not_elem_of_nil in Hmk];
      unfold iface_gi_copper, iface_plain, iface_combo;
      cbn [enabled mgmt_only name]; intuition congruence.
  - unfold iface_oob. cbn [enabled mgmt_only name].
    assert (lit "OOB" <> lit "Vlan1") by done. intuition congruence.
  - unfold iface_vlan1. cbn [enabled mgmt_only name].
    assert (lit "OOB" <> lit "Vlan1") by done. intuition congruence.
Qed.


(** X4: An interface named GigabitEthernet... has one of the three
    gigabit types, one named TenGigabitEthernet... one of the two
    ten-gigabit types, and the others are the OOB and the Vlan1 entries;
    a description is only given to the two combo types. *)
Theorem interface_types (row : Row) (l : list Interface) :
  create_interfaces row = Ok l ->
  Forall (fun i =>
    ((startswith (lit "GigabitEthernet") (name i) = true /\
      type i ∈ [lit "1000base-t"; lit "1000base-x-sfp"; lit "2.5gbase-t"])
     \/ (startswith (lit "TenGigabitEthernet") (name i) = true /\
         type i ∈ [lit "10gbase-t"; lit "10gbase-x-sfpp"])
     \/ i = iface_oob \/ i = iface_vlan1)
    /\ (description i = None
        \/ (type i = lit "1000base-x-sfp" /\
            description i = Some (lit "SFP/RJ45 Combo"))
        \/ (type i = lit "10gbase-x-sfpp" /\
            description i = Some (lit "SFP+/RJ45 Combo")))) l.
Proof.
  intros (a & b & c & d & _ & _ & _ & _ & ->)%create_interfaces_ok.
  apply layout_Forall.
  - intros mk i Hmk.
    assert (startswith (lit "GigabitEthernet")
              (base_name_1g a ++ str_of_int i) = true) as Hs
      by (by destruct a).
    repeat (apply elem_of_cons in Hmk as [->|Hmk]);
      [..|by apply not_elem_of_nil in Hmk];
      unfold iface_gi_copper, iface_plain, iface_combo;
      cbn [name type description]; (split; [left; split; [done|set_solver]|]);
      auto.
  - intros mk i Hmk.
    assert (startswith (lit "TenGigabitEthernet")
              (base_name_10g a ++ str_of_int i) = true) as Hs
      by (by destruct a).
    repeat (apply elem_of_cons in Hmk as [->|Hmk]);
      [..|by apply not_elem_of_nil in Hmk];
      unfold iface_plain, iface_combo;
      cbn [name type description];
      (split; [right; left; split; [done|set_solver]|]); auto.
  - split; [auto|]. by left.
  - split; [auto|]. by left.
Qed.

End WithRuntime.

End Shapes.

Section Accepted.
Local Open Scope Z_scope.


Section WithRuntime.
Context `{RT : Runtime}.

Lemma stacking_succeeds (row : Row) :
  succeeds (stacking row) <-> row !! lit "Stacking" <> Some None.
Proof.
  unfold succeeds, stacking, get, receiver.
  destruct (row !! lit "Stacking") as [[s|]|]; simpl.
  - split; [done|]. intros _. eauto.
  - split; [intros [? ?]; done|]. intros H. by destruct H.
  - split; [done|]. intros _. eauto.
Qed.

Lemma model_upper_succeeds (row : Row) :
  succeeds (model_upper row) <->
  exists m : str, row !! lit "Model" = Some (Some m).
Proof.
  unfold succeeds, model_upper, getitem, receiver.
  destruct (row !! lit "Model") as [[s|]|]; simpl.
  - split; eauto.
  - split; intros [? ?]; done.
  - split; intros [? ?]; done.
Qed.

Lemma read_counts_succeeds (row : Row) :
  succeeds (read_counts row) <->
  forall key, key ∈ count_columns ->
    exists (s : str) n, row !! key = Some (Some s) /\ int_of_str s = Some n.
Proof.
  split.
  - intros [c Hc] key Hkey.
    destruct (read_counts_ok row c key Hc Hkey) as [n Hn].
    apply int_field_ok in Hn as (s & ? & ?). by exists s, n.
  - intros H. unfold read_counts.
    assert (forall key, key ∈ count_columns ->
              exists n, int_field row key = Ok n) as H'.
    { intros key (s & n & ? & ?)%H. exists n. apply int_field_ok. eauto. }
    unfold count_columns in H'.
    repeat (match goal with
            | |- succeeds (bind (int_field row ?k) _) =>
                let n := fresh "n" in
                destruct (H' k) as [n ->];
                  [apply list_elem_of_In; simpl; tauto|]; cbn [bind]
            end).
    by eexists.
Qed.

Lemma oob_test_succeeds (row : Row) :
  succeeds (oob_test row) <->
  exists cell : option str,
    row !! lit "OOB" = Some cell /\
    forall s : str, cell = Some s -> isdigit s = true ->
                    is_Some (int_of_str s).
Proof.
  unfold succeeds, oob_test, getitem.
  destruct (row !! lit "OOB") as [cell|]; simpl.
  - split.
    + intros [b Hb]. exists cell. split; [done|]. intros s -> Hd.
      destruct s as [|c s]; [done|]. rewrite Hd in Hb. unfold int in Hb.
      destruct (int_of_str (c :: s)); [done|]. done.
    + intros (cell' & [= <-] & H). destruct cell as [s|]; [|eauto].
      destruct s as [|c s]; [eauto|].
      destruct (isdigit (c :: s)) eqn:Hd; [|eauto].
      destruct (H _ eq_refl Hd) as [n Hn]. unfold int. rewrite Hn.
      simpl. eauto.
  - split; [intros [? ?]; done|]. intros (cell & ? & _). done.
Qed.

(** X5: [create_interfaces] returns a list exactly on the rows where
    the Stacking cell is not [None], the Model cell is a string, each of
    the seven count cells is a string [int] accepts, and the OOB column is
    present and [int] reads its cell whenever [isdigit] accepts it. *)
Theorem create_interfaces_accepts (row : Row) :
  (exists l, create_interfaces row = Ok l) <->
  row !! lit "Stacking" <> Some None
  /\ (exists m : str, row !! lit "Model" = Some (Some m))
  /\ (forall key, key ∈ count_columns ->
        exists (s : str) n,
          row !! key = Some (Some s) /\ int_of_str s = Some n)
  /\ (exists cell : option str,
        row !! lit "OOB" = Some cell /\
        forall s : str, cell = Some s -> isdigit s = true ->
                        is_Some (int_of_str s)).
Proof.
  rewrite <- stacking_succeeds, <- model_upper_succeeds,
    <- read_counts_succeeds, <- oob_test_succeeds.
  rewrite create_interfaces_eq. unfold succeeds.
  split.
  - intros [l Hl]. revert Hl.
    destruct (stacking row); cbn [bind]; [|done].
    destruct (model_upper row); cbn [bind]; [|done].
    destruct (read_counts row); cbn [bind]; [|done].
    destruct (oob_test row); cbn [bind]; [|done]. eauto 10.
  - intros ([a ->] & [b ->] & [c ->] & [d ->]). cbn [bind]. eauto.
Qed.

End WithRuntime.

End Accepted.

Section MissingColumns.
Local Open Scope Z_scope.

Section WithRuntime.
Context `{RT : Runtime}.

Lemma int_field_insert_ne (row : Row) (k key : str) v :
  k <> key -> int_field (<[k := v]> row) key = int_field row key.
Proof.
  intros Hne. unfold int_field, getitem. by rewrite lookup_insert_ne.
Qed.

(** X6: A row without a Stacking column is not stacking, and gives
    what the row with [false] in that column gives. *)
Theorem stacking_default (row : Row) :
  row !! lit "Stacking" = None ->
  stacking row = Ok false /\
  create_interfaces row =
  create_interfaces (<[lit "Stacking" := Some (lit "false")]> row).
Proof.
  intros Hnone.
  assert (stacking row = Ok false) as Hs.
  { unfold stacking, get. rewrite Hnone. cbn [receiver of_option bind].
    rewrite str_lower_ascii by done. done. }
  assert (stacking (<[lit "Stacking" := Some (lit "false")]> row) = Ok false)
    as Hs'.
  { unfold stacking, get. rewrite lookup_insert_eq.
    cbn [receiver of_option bind]. rewrite str_lower_ascii by done. done. }
  split; [done|].
  rewrite !create_interfaces_eq, Hs, Hs'. cbn [bind].
  unfold model_upper, read_counts, oob_test, getitem.
  rewrite !int_field_insert_ne by done.
  rewrite !lookup_insert_ne by done. done.
Qed.

(** X7: A row without an OOB column never gives interfaces: once the
    counts are read, the lookup of [row["OOB"]] raises [KeyError]. *)
Theorem missing_oob_column (row : Row) :
  row !! lit "OOB" = None ->
  (forall l, create_interfaces row <> Ok l) /\
  (forall is_stacking model_name c,
     stacking row = Ok is_stacking -> model_upper row = Ok model_name ->
     read_counts row = Ok c -> create_interfaces row = Raise KeyError).
Proof.
  intros Hnone.
  assert (oob_test row = Raise KeyError) as Hoob.
  { unfold oob_test, getitem. by rewrite Hnone. }
  split.
  - intros l (a & b & c & d & _ & _ & _ & Hd & _)%create_interfaces_ok.
    congruence.
  - intros a b c Ha Hb Hc. rewrite create_interfaces_eq, Ha, Hb, Hc, Hoob. done.
Qed.

End WithRuntime.

End MissingColumns.

Section ConsolePorts.
Local Open Scope Z_scope.

Lemma strip_ws_head s c : head (strip_ws s) = Some c -> is_space c = false.
Proof. unfold strip_ws. intros H%rstrip_head%lstrip_head. done. Qed.

Lemma strip_ws_last s c : last (strip_ws s) = Some c -> is_space c = false.
Proof. unfold strip_ws. apply rstrip_last. Qed.

Lemma console_loop_ok (row : Row) keys acc :
  (forall k, k ∈ keys -> row !! k <> Some None) ->
  console_loop row keys acc = Ok (acc ++ flat_map (console_port_of row) keys).
Proof.
  revert acc. induction keys as [|k keys IH]; intros acc Hk.
  - simpl. by rewrite app_nil_r.
  - cbn [console_loop flat_map]. unfold get, console_port_of, cell_text.
    assert (row !! k <> Some None) as Hne by (apply Hk; left).
    destruct (row !! k) as [[s|]|]; [|done|]; cbn [receiver of_option bind].
    + rewrite IH by (intros; apply Hk; by right).
      destruct (strip_ws s); [done|]. by rewrite <- app_assoc.
    + rewrite IH by (intros; apply Hk; by right). done.
Qed.

Lemma console_loop_raise (row : Row) keys acc k :
  k ∈ keys -> row !! k = Some None ->
  console_loop row keys acc = Raise AttributeError.
Proof.
  revert acc. induction keys as [|k' keys IH]; intros acc Hk Hnone.
  - by apply not_elem_of_nil in Hk.
  - cbn [console_loop]. unfold get.
    destruct (decide (k' = k)) as [->|Hne].
    + by rewrite Hnone.
    + apply elem_of_cons in Hk as [->|Hk]; [done|].
      destruct (row !! k') as [[s|]|]; cbn [receiver of_option bind];
        [by apply IH|done|by apply IH].
Qed.

Lemma console_names_sublist (row : Row) keys :
  sublist (console_name <$> flat_map (console_port_of row) keys) keys.
Proof.
  induction keys as [|k keys IH]; [done|]. cbn [flat_map].
  rewrite fmap_app. unfold console_port_of at 1.
  destruct (strip_ws (cell_text row k)); simpl.
  - by apply sublist_cons.
  - by apply sublist_skip.
Qed.

Lemma console_port_elem (row : Row) keys p :
  p ∈ flat_map (console_port_of row) keys <->
  console_name p ∈ keys /\ console_type p = strip_ws (cell_text row (console_name p))
  /\ console_type p <> [].
Proof.
  rewrite list_elem_of_In, in_flat_map. split.
  - intros (k & Hk%list_elem_of_In & Hp). unfold console_port_of in Hp.
    destruct (strip_ws (cell_text row k)) eqn:E; [done|].
    destruct Hp as [<-|[]]. simpl. by rewrite E.
  - intros (Hk & Ht & Hne). exists (console_name p).
    split; [by apply list_elem_of_In|].
    unfold console_port_of. rewrite <- Ht.
    destruct p as [nm ty]. simpl in *. destruct ty; [done|]. by left.
Qed.

(** X8: [create_console_ports] raises [AttributeError] when one of
    [con0], [con1], [con2] holds [None]; otherwise it returns, in the order
    of the columns, one port for each column whose text is not blank, with
    the text stripped as its type. *)
Theorem console_ports_spec (row : Row) :
  ((exists k, k ∈ console_columns /\ row !! k = Some None) ->
   create_console_ports row = Raise AttributeError)
  /\ ((forall k, k ∈ console_columns -> row !! k <> Some None) ->
      exists l,
        create_console_ports row = Ok l /\
        sublist (console_name <$> l) console_columns /\
        (forall p, p ∈ l <->
           console_name p ∈ console_columns /\
           console_type p = strip_ws (cell_text row (console_name p)) /\
           console_type p <> []) /\
        Forall (fun p => forall c,
                  (head (console_type p) = Some c -> is_space c = false) /\
                  (last (console_type p) = Some c -> is_space c = false)) l).
Proof.
  unfold create_console_ports. fold console_columns. split.
  - intros (k & Hk & Hnone). by apply (console_loop_raise row _ _ k).
  - intros Hok. rewrite console_loop_ok by done. eexists. split; [done|].
    rewrite app_nil_l. split; [apply console_names_sublist|].
    split; [apply console_port_elem|].
    apply Forall_forall. intros p (_ & -> & _)%console_port_elem c.
    split; [apply strip_ws_head|apply strip_ws_last].
Qed.

End ConsolePorts.

Section Slugs.
Local Open Scope N_scope.

Lemma startswith_dashes c s :
  startswith (lit "--") (c :: s) =
  is_dash c && match s with d :: _ => is_dash d | [] => false end.
Proof.
  change (lit "--") with [45; 45]. unfold is_dash.
  destruct s as [|d s]; cbn [startswith]; rewrite (N.eqb_sym 45 c); [done|].
  by rewrite (N.eqb_sym 45 d), andb_true_r.
Qed.

Lemma no_run_iff b y :
  no_run b y = true <->
  forallb slug_char y = true /\ contains (lit "--") y = false /\
  (b = true -> head y <> Some 45).
Proof.
  revert b. induction y as [|c s IH]; intros b.
  - simpl. split; [|done]. intros _. split; [done|]. split; [done|]. done.
  - cbn [no_run forallb contains head]. rewrite startswith_dashes.
    unfold slug_char at 1. destruct (is_dash c) eqn:Hd.
    + assert (c = 45) as -> by (by apply N.eqb_eq).
      rewrite orb_true_r, andb_true_iff, negb_true_iff, (IH true).
      cbn [andb]. rewrite orb_false_iff. split.
      * intros (-> & Hs & Hc & Hh). split; [done|]. split; [|done].
        split; [|done]. destruct s as [|d s]; [done|].
        apply N.eqb_neq. intros ->. by apply Hh.
      * intros (Hs & [Hh Hc] & Hb). split.
        { destruct b; [|done]. by destruct Hb. }
        split; [done|]. split; [done|]. intros _.
        destruct s as [|d s]; [done|]. simpl. intros [= ->].
        discriminate Hh.
    + rewrite orb_false_r, andb_true_iff, (IH false). cbn [andb orb].
      apply N.eqb_neq in Hd. split.
      * intros (Ha & Hs & Hc & _). rewrite Ha. split; [done|].
        split; [done|]. intros _ [= ->]. done.
      * intros ([Ha Hs]%andb_true_iff & Hc & _). done.
Qed.

Lemma filter_alnum_sub_nonalnum b s :
  List.filter is_slug_alnum
    (re_sub_runs (fun c => negb (is_slug_alnum c)) (lit "-") b s)
  = List.filter is_slug_alnum s.
Proof.
  revert b. induction s as [|c s IH]; intros b; [done|].
  cbn [re_sub_runs List.filter]. destruct (is_slug_alnum c) eqn:Hc; simpl.
  - by rewrite Hc, IH.
  - rewrite List.filter_app, IH. by destruct b.
Qed.

Lemma filter_alnum_sub_dash b s :
  List.filter is_slug_alnum (re_sub_runs (N.eqb 45) (lit "-") b s)
  = List.filter is_slug_alnum s.
Proof.
  revert b. induction s as [|c s IH]; intros b; [done|].
  cbn [re_sub_runs List.filter]. destruct (45 =? c) eqn:Hc.
  - apply N.eqb_eq in Hc as <-. rewrite List.filter_app, IH.
    by destruct b.
  - cbn [List.filter]. by rewrite IH.
Qed.

Lemma filter_alnum_dashes t :
  forallb is_dash_strip t = true -> List.filter is_slug_alnum t = [].
Proof.
  induction t as [|c t IH]; [done|]. cbn [forallb List.filter].
  intros [Hc Ht]%andb_true_iff. rewrite is_dash_strip_eq in Hc.
  apply N.eqb_eq in Hc as ->. by apply IH.
Qed.

Lemma filter_alnum_strip s :
  List.filter is_slug_alnum (strip_chars (lit "-") s)
  = List.filter is_slug_alnum s.
Proof.
  unfold strip_chars. fold is_dash_strip.
  destruct (lstrip_suffix is_dash_strip s) as [t1 [H1 Hp1]].
  destruct (rstrip_prefix is_dash_strip (lstrip is_dash_strip s))
    as [t2 [H2 Hp2]].
  rewrite H1 at 2. rewrite H2 at 2.
  rewrite !List.filter_app, (filter_alnum_dashes _ Hp1),
    (filter_alnum_dashes _ Hp2). by rewrite app_nil_r.
Qed.

Section WithRuntime.
Context `{RT : Runtime}.

Lemma slugify_clean (y : str) :
  no_run false y = true -> head y <> Some 45 -> last y <> Some 45 ->
  slugify y = y.
Proof.
  intros Hrun Hhd Hlast.
  pose proof (no_run_slug_char _ _ Hrun) as Hch.
  destruct (slug_char_ascii_lower _ Hch) as [Hascii Hlow].
  unfold slugify, strip_chars, re_sub_plus.
  rewrite (str_lower_ascii y Hascii), Hlow.
  rewrite (sub_nonalnum_fixed _ _ Hrun), (sub_dash_fixed _ _ Hrun).
  fold is_dash_strip. rewrite (lstrip_id is_dash_strip y).
  - apply rstrip_id. intros c Hc. rewrite is_dash_strip_eq.
    unfold is_dash. apply N.eqb_neq. congruence.
  - intros c Hc. rewrite is_dash_strip_eq.
    unfold is_dash. apply N.eqb_neq. congruence.
Qed.

Lemma slugify_fixed_iff (y : str) :
  slugify y = y <->
  forallb slug_char y = true /\ contains (lit "--") y = false /\
  head y <> Some 45 /\ last y <> Some 45.
Proof.
  split.
  - intros <-. pose proof (slugify_no_run y) as (? & ? & _)%no_run_iff.
    repeat split; try done; [apply slugify_head|apply slugify_last].
  - intros (Hch & Hc & Hh & Hl). apply slugify_clean; try done.
    apply no_run_iff. done.
Qed.

Lemma slugify_filter_alnum (x : str) :
  List.filter is_slug_alnum (slugify x)
  = List.filter is_slug_alnum (str_lower x).
Proof.
  unfold slugify, re_sub_plus.
  by rewrite filter_alnum_strip, filter_alnum_sub_dash,
    filter_alnum_sub_nonalnum.
Qed.

(** X9: [slugify] leaves a string as it is exactly when the string
    has only lower-case letters, digits and dashes, no two dashes in a row
    and no dash at either end; a slug never has two dashes in a row. *)
Theorem slugify_fixed_points (y : str) :
  (slugify y = y <->
   forallb slug_char y = true /\ contains (lit "--") y = false /\
   head y <> Some 45 /\ last y <> Some 45)
  /\ forall x, contains (lit "--") (slugify x) = false.
Proof.
  split; [apply slugify_fixed_iff|].
  intros x. by pose proof (slugify_no_run x) as (_ & ? & _)%no_run_iff.
Qed.

(** X10: [slugify] keeps the letters and digits of the lower-cased
    text, in order, and adds none; the slug is empty exactly when the text
    has none. *)
Theorem slugify_keeps_alnum (x : str) :
  List.filter is_slug_alnum (slugify x)
  = List.filter is_slug_alnum (str_lower x)
  /\ (slugify x = [] <-> List.filter is_slug_alnum (str_lower x) = []).
Proof.
  split; [apply slugify_filter_alnum|].
  rewrite <- slugify_filter_alnum. split; [by intros ->|].
  pose proof (slugify_no_run x) as Hrun. pose proof (slugify_head x) as Hh.
  destruct (slugify x) as [|c s]; [done|]. cbn [no_run List.filter] in *.
  destruct (is_dash c) eqn:Hd.
  - apply N.eqb_eq in Hd as ->. by destruct Hh.
  - apply andb_true_iff in Hrun as [-> _]. done.
Qed.

End WithRuntime.

End Slugs.

Section ModelName.
Local Open Scope nat_scope.

Lemma startswith_length old s :
  startswith old s = true -> length old <= length s.
Proof.
  revert s. induction old as [|a old IH]; intros s; simpl; [lia|].
  destruct s as [|b s]; [done|]. intros [_ H]%andb_true_iff.
  apply IH in H. simpl. lia.
Qed.

Lemma replace_from_length old new k s :
  old <> [] ->
  length (replace_from old new k s) + occurrences_from old k s * length old
  = length s - k + occurrences_from old k s * length new.
Proof.
  intros Hold. revert k. induction s as [|c s IH]; intros k.
  - simpl. lia.
  - cbn [replace_from occurrences_from]. destruct k as [|k].
    + destruct (startswith old (c :: s)) eqn:Hs.
      * apply startswith_length in Hs. simpl in Hs.
        rewrite length_app. specialize (IH (Nat.pred (length old))).
        destruct old as [|o old]; [done|]. simpl in *. lia.
      * specialize (IH 0). simpl. lia.
    + specialize (IH k). simpl. lia.
Qed.

Lemma occurrences_none old k s :
  contains old s = false -> occurrences_from old k s = 0.
Proof.
  revert k. induction s as [|c s IH]; intros k; [done|].
  cbn [contains occurrences_from].
  intros [Hs Hc]%orb_false_iff. destruct k; [rewrite Hs|]; by apply IH.
Qed.

Lemma occurrences_some old s :
  old <> [] -> contains old s = true -> 0 < occurrences_from old 0 s.
Proof.
  intros Hold. induction s as [|c s IH].
  - by destruct old.
  - cbn [contains occurrences_from].
    destruct (startswith old (c :: s)); [lia|]. simpl. apply IH.
Qed.

Section WithRuntime.
Context `{RT : Runtime}.

(** X11: The displayed model is 8 characters longer than the Model
    cell for each occurrence of [C1300] in it, and equal to the cell exactly
    when there is none. *)
Theorem model_display_length (isfile : str -> bool) (row : Row) fn d :
  device_of_row isfile row = Ok (fn, d) ->
  exists m : str,
    row !! lit "Model" = Some (Some m) /\
    length (model d) = length m + 8 * occurrences (lit "C1300") m /\
    (model d = m <-> contains (lit "C1300") m = false).
Proof.
  intros (m & Hm & _ & Hd)%device_of_row_ok. exists m. split; [done|].
  assert (length (model d) = length m + 8 * occurrences (lit "C1300") m) as Hl.
  { rewrite Hd. unfold replace, occurrences.
    change (lit "C1300") with [67; 49; 51; 48; 48]%N.
    pose proof (replace_from_length [67; 49; 51; 48; 48]%N
                  (lit "Catalyst 1300") 0 m ltac:(done)) as H.
    change (length (lit "Catalyst 1300")) with 13 in H.
    change (length [67; 49; 51; 48; 48]%N) with 5 in H. lia. }
  split; [done|]. split.
  - intros Heq. rewrite Heq in Hl.
    destruct (contains (lit "C1300") m) eqn:Hc; [|done].
    apply occurrences_some in Hc; [|done]. unfold occurrences in Hl. lia.
  - intros Hc. rewrite Hd. unfold replace.
    change (lit "C1300") with [67; 49; 51; 48; 48]%N in *.
    by rewrite replace_from_none by (by apply occurrences_none).
Qed.
End WithRuntime.

End ModelName.

Section DeviceRecord.
Local Open Scope N_scope.

Section WithRuntime.
Context `{RT : Runtime}.

(** What [device_of_row] has computed when it returns. *)
Lemma device_of_row_inv (isfile : str -> bool) (row : Row) fn d :
  device_of_row isfile row = Ok (fn, d) ->
  exists (m : str) l cs,
    row !! lit "Model" = Some (Some m) /\
    create_interfaces row = Ok l /\ create_console_ports row = Ok cs /\
    fn = lit "Cisco/" ++ str_upper m ++ lit ".yaml" /\
    slug d = lit "cisco-" ++ slugify m /\
    part_number d = m /\
    device_interfaces d = l /\ console_ports d = cs /\
    front_image d =
      isfile (lit "elevation-images/" ++ str_lower (slug d)
              ++ lit ".front.png") /\
    rear_image d =
      isfile (lit "elevation-images/" ++ str_lower (slug d)
              ++ lit ".rear.png").
Proof.
  unfold device_of_row, getitem at 1.
  destruct (row !! lit "Model") as [[m|]|]; cbn [bind of_option receiver];
    [|done..].
  destruct (getitem row (lit "Weight (pounds)")); cbn [bind]; [|done].
  destruct (float _); cbn [bind]; [|done].
  destruct (getitem row (lit "Draw")); cbn [bind]; [|done].
  destruct (float _); cbn [bind]; [|done].
  destruct (round_float _); cbn [bind]; [|done].
  destruct (create_interfaces row) as [l|]; cbn [bind]; [|done].
  destruct (create_console_ports row) as [cs|]; cbn [bind]; [|done].
  destruct (getitem row (lit "psu0")); cbn [bind]; [|done].
  intros [= <- <-]. exists m, l, cs. done.
Qed.

Lemma slug_no_run (m : str) :
  no_run false (lit "cisco-" ++ slugify m) = true.
Proof.
  change (no_run true (slugify m) = true). apply no_run_iff.
  pose proof (slugify_no_run m) as (? & ? & _)%no_run_iff.
  repeat split; try done. intros _. apply slugify_head.
Qed.

Lemma slugify_nil_iff (m : str) :
  slugify m = [] <-> List.filter is_slug_alnum (str_lower m) = [].
Proof.
  rewrite <- slugify_filter_alnum. split; [by intros ->|].
  pose proof (slugify_no_run m) as Hrun. pose proof (slugify_head m) as Hh.
  destruct (slugify m) as [|c s]; [done|]. cbn [no_run List.filter] in *.
  destruct (is_dash c) eqn:Hd.
  - apply N.eqb_eq in Hd as ->. by destruct Hh.
  - apply andb_true_iff in Hrun as [-> _]. done.
Qed.

(** X12: The slug of a device starts with [cisco-], has only slug
    characters and no two dashes in a row; it is a fixed point of [slugify]
    exactly when the model has a letter or a digit. *)
Theorem device_slug_shape (isfile : str -> bool) (row : Row) fn d :
  device_of_row isfile row = Ok (fn, d) ->
  exists m : str,
    row !! lit "Model" = Some (Some m) /\
    startswith (lit "cisco-") (slug d) = true /\
    forallb slug_char (slug d) = true /\
    contains (lit "--") (slug d) = false /\
    (slugify (slug d) = slug d <->
     List.filter is_slug_alnum (str_lower m) <> []).
Proof.
  intros (m & _ & _ & Hm & _ & _ & _ & Hs & _)%device_of_row_inv.
  exists m. split; [done|]. rewrite Hs.
  pose proof (slug_no_run m) as Hrun.
  pose proof Hrun as (Hch & Hc & _)%no_run_iff.
  split; [apply startswith_app|]. split; [done|]. split; [done|].
  rewrite <- slugify_nil_iff.
  rewrite slugify_fixed_iff. split.
  - intros (_ & _ & _ & Hl) Hnil. rewrite Hnil in Hl. by apply Hl.
  - intros Hne. repeat split; try done.
    rewrite last_app. pose proof (slugify_last m) as Hl.
    destruct (last (slugify m)) eqn:E; [done|].
    apply last_None in E. done.
Qed.

(** X13: The document of a row is named after the upper-cased Model
    cell, the part number is the cell itself, the slug is already lower
    case, and the two image flags are what [os.path.isfile] says of
    [elevation-images/<slug>.front.png] and [.rear.png]. *)
Theorem device_image_probes (isfile : str -> bool) (row : Row) fn d :
  device_of_row isfile row = Ok (fn, d) ->
  exists m : str,
    row !! lit "Model" = Some (Some m) /\
    fn = lit "Cisco/" ++ str_upper m ++ lit ".yaml" /\
    part_number d = m /\
    str_lower (slug d) = slug d /\
    front_image d =
      isfile (lit "elevation-images/" ++ slug d ++ lit ".front.png") /\
    rear_image d =
      isfile (lit "elevation-images/" ++ slug d ++ lit ".rear.png").
Proof.
  intros (m & l & cs & Hm & _ & _ & Hfn & Hs & Hp & _ & _ & Hf & Hr)
    %device_of_row_inv.
  exists m. repeat (split; [done|]).
  assert (str_lower (slug d) = slug d) as Hlow.
  { rewrite Hs. pose proof (slug_no_run m) as Hch%no_run_slug_char.
    destruct (slug_char_ascii_lower _ Hch) as [Hascii Hlow].
    by rewrite str_lower_ascii. }
  rewrite Hlow in Hf, Hr. done.
Qed.

End WithRuntime.

End DeviceRecord.

Section MainLoop.

Section WithRuntime.
Context `{RT : Runtime}.
Variables isfile writable : str -> bool.
Variable realpath : str -> str.

Lemma main_app (rows1 rows2 : list Row) (files : gmap str Device) :
  main isfile writable realpath (rows1 ++ rows2) files =
  match main isfile writable realpath rows1 files with
  | (files1, None) => main isfile writable realpath rows2 files1
  | (files1, Some f) => (files1, Some f)
  end.
Proof.
  revert files. induction rows1 as [|row rows1 IH]; intros files; [done|].
  cbn [main app]. destruct (device_of_row isfile row) as [[fn d]|e]; [|done].
  destruct (writable fn); [apply IH|done].
Qed.

Lemma main_untouched (rows : list Row) (files : gmap str Device) (p : str) :
  (forall row fn d, row ∈ rows -> device_of_row isfile row = Ok (fn, d) ->
     realpath fn <> p) ->
  (main isfile writable realpath rows files).1 !! p = files !! p.
Proof.
  revert files. induction rows as [|row rows IH]; intros files Hp; [done|].
  cbn [main]. destruct (device_of_row isfile row) as [[fn d]|e] eqn:Hrow;
    [|done].
  destruct (writable fn); [|done].
  rewrite IH by (intros ? ? ? ?; apply Hp; by right).
  apply lookup_insert_ne. apply (Hp row fn d); [left|done].
Qed.

Lemma main_keeps (rows : list Row) (files : gmap str Device) (p : str) :
  is_Some (files !! p) ->
  is_Some ((main isfile writable realpath rows files).1 !! p).
Proof.
  revert files. induction rows as [|row rows IH]; intros files Hp; [done|].
  cbn [main]. destruct (device_of_row isfile row) as [[fn d]|e]; [|done].
  destruct (writable fn); [|done]. apply IH.
  destruct (decide (realpath fn = p)) as [->|Hne].
  - rewrite lookup_insert_eq. eauto.
  - by rewrite lookup_insert_ne.
Qed.

Lemma main_success (rows : list Row) (files : gmap str Device) row :
  (main isfile writable realpath rows files).2 = None -> row ∈ rows ->
  exists fn d, device_of_row isfile row = Ok (fn, d) /\ writable fn = true.
Proof.
  revert files. induction rows as [|r rows IH]; intros files Hnone Hrow.
  - by apply not_elem_of_nil in Hrow.
  - cbn [main] in Hnone.
    destruct (device_of_row isfile r) as [[fn d]|e] eqn:Hr; [|done].
    destruct (writable fn) eqn:Hw; [|done].
    apply elem_of_cons in Hrow as [->|Hrow]; [eauto|].
    by apply (IH _ Hnone).
Qed.

(** X14: When a row makes [main] raise, the documents of the rows
    before it are on disk and no later row is looked at. *)
Theorem main_stops_at_first_error (rows1 rows2 : list Row) (row : Row)
  (files : gmap str Device) (e : exn) :
  (main isfile writable realpath rows1 files).2 = None ->
  device_of_row isfile row = Raise e ->
  main isfile writable realpath (rows1 ++ row :: rows2) files =
  ((main isfile writable realpath rows1 files).1, Some (PyError e)).
Proof.
  intros Hnone Hrow. rewrite main_app.
  destruct (main isfile writable realpath rows1 files) as [files1 [f|]];
    [done|].
  cbn [main]. by rewrite Hrow.
Qed.

Lemma main_changed (rows : list Row) (files : gmap str Device) (p : str) :
  (main isfile writable realpath rows files).1 !! p <> files !! p ->
  exists row fn d,
    row ∈ rows /\ device_of_row isfile row = Ok (fn, d) /\ realpath fn = p.
Proof.
  revert files. induction rows as [|row rows IH]; intros files; [done|].
  cbn [main]. destruct (device_of_row isfile row) as [[fn d]|e] eqn:Hrow;
    [|done].
  destruct (writable fn); [|done].
  destruct (decide (realpath fn = p)) as [Heq|Hne].
  - intros _. exists row, fn, d. split; [left|done].
  - intros H.
    destruct (IH (<[realpath fn := d]> files)) as (row' & fn' & d' & ? & ?).
    + by rewrite lookup_insert_ne.
    + exists row', fn', d'. split; [by right|done].
Qed.

(** X15: [main] deletes no file, and a file whose content it changes is
    the one [Cisco/<MODEL>.yaml] names, for the Model cell of one of the
    rows; it may go by other paths as well. *)
Theorem main_writes_only_documents (rows : list Row)
  (files : gmap str Device) (p : str) :
  let files' := (main isfile writable realpath rows files).1 in
  (is_Some (files !! p) -> is_Some (files' !! p)) /\
  (files' !! p <> files !! p ->
   exists row (m : str),
     row ∈ rows /\ row !! lit "Model" = Some (Some m) /\
     p = realpath (lit "Cisco/" ++ str_upper m ++ lit ".yaml")).
Proof.
  intros files'. split; [apply main_keeps|].
  intros (row & fn & d & Hrow & Hd & <-)%main_changed.
  apply device_of_row_inv in Hd as (m & _ & _ & Hm & _ & _ & Hp & _).
  exists row, m. by rewrite Hp.
Qed.

(** X16: When [main] finishes, every row gave a device and a writable
    path; the file the path names is on disk, and it holds the device of
    the row unless the path of a later row names the same file. *)
Theorem main_completes (rows1 rows2 : list Row) (row : Row)
  (files : gmap str Device) :
  (main isfile writable realpath (rows1 ++ row :: rows2) files).2 = None ->
  exists fn d,
    device_of_row isfile row = Ok (fn, d) /\ writable fn = true /\
    let files' :=
      (main isfile writable realpath (rows1 ++ row :: rows2) files).1 in
    is_Some (files' !! realpath fn) /\
    ((forall row' fn' d', row' ∈ rows2 ->
        device_of_row isfile row' = Ok (fn', d') ->
        realpath fn' <> realpath fn)
     -> files' !! realpath fn = Some d).
Proof.
  intros Hnone.
  destruct (main_success _ files row Hnone) as (fn & d & Hrow & Hw).
  { apply elem_of_app. right. left. }
  exists fn, d. split; [done|]. split; [done|]. cbv zeta.
  rewrite main_app in *.
  destruct (main isfile writable realpath rows1 files) as [files1 [f|]];
    [done|].
  cbn [main] in *. rewrite Hrow, Hw in *. split.
  - apply main_keeps. rewrite lookup_insert_eq. eauto.
  - intros Hlast. rewrite main_untouched by done. apply lookup_insert_eq.
Qed.

End WithRuntime.

End MainLoop.

End GenerateMore.

(** * [generate.py] on the example rows, with the reference runtime *)

Module GenerateExamples.
Import Py Generate GenerateSpec GenerateFacts Examples MoreExamples.
#[local] Existing Instance AsciiRuntime.runtime.

Lemma interface_names_example_witness :
  (exists l,
    create_interfaces row_stacking = Ok l /\ length l = 5%nat /\
    name <$> l =
      [lit "GigabitEthernet1/0/1"; lit "GigabitEthernet1/0/2";
       lit "GigabitEthernet1/0/3"; lit "TenGigabitEthernet1/0/1";
       lit "Vlan1"])
  /\ (exists l,
    create_interfaces row_flat = Ok l /\ length l = 5%nat /\
    name <$> l =
      [lit "GigabitEthernet1"; lit "GigabitEthernet2";
       lit "GigabitEthernet3"; lit "TenGigabitEthernet1"; lit "Vlan1"]).
Proof.
  split.
  - apply (interface_names_example row_stacking (lit "C1300-8FP-2G") true);
      vm_compute; reflexivity.
  - apply (interface_names_example row_flat (lit "C1300-8T-E-2G") false);
      vm_compute; reflexivity.
Defined.

Lemma oob_interface_iff_witness :
  create_interfaces row_oob = Ok ifaces_oob /\
  filter (fun i => name i = lit "OOB") ifaces_oob = [iface_oob].
Proof.
  assert (create_interfaces row_oob = Ok ifaces_oob) as H
    by (vm_compute; reflexivity).
  split; [exact H|].
  apply (oob_interface_iff row_oob ifaces_oob H). vm_compute; reflexivity.
Defined.

Lemma poe_only_on_gigabit_copper_witness :
  create_interfaces row_lower_poe = Ok ifaces_lower_poe /\
  exists is_stacking (m : str) n rest,
    stacking row_lower_poe = Ok is_stacking /\
    row_lower_poe !! lit "Model" = Some (Some m) /\
    model_upper row_lower_poe = Ok (str_upper m) /\
    int_field row_lower_poe (lit "GigabitEthernet Copper") = Ok n /\
    let is_poe :=
      contains (lit "P-") (str_upper m) || contains (lit "FP-") (str_upper m) in
    let copper := copper_segment is_stacking is_poe n in
    ifaces_lower_poe = copper ++ rest /\
    length copper = Z.to_nat n /\
    Forall (fun i =>
              type i = lit "1000base-t" /\
              (poe_mode i = Some (lit "pse") /\
               poe_type i = Some (lit "type2-ieee802.3at") <-> is_poe = true) /\
              (is_poe = false -> poe_mode i = None /\ poe_type i = None))
           copper /\
    Forall (fun i => poe_mode i = None /\ poe_type i = None) rest /\
    (forallb is_ascii m = true ->
     is_poe = contains (lit "P-") m || contains (lit "p-") m).
Proof.
  assert (create_interfaces row_lower_poe = Ok ifaces_lower_poe) as H
    by (vm_compute; reflexivity).
  split; [exact H|].
  exact (poe_only_on_gigabit_copper row_lower_poe ifaces_lower_poe H).
Defined.

(** On that row the model is written in lower case and the two copper
    ports carry the PoE attributes all the same. *)
Remark lower_case_model_is_poe :
  row_lower_poe !! lit "Model" = Some (Some (lit "c1300-8fp-2g")) /\
  poe_mode <$> ifaces_lower_poe
  = [Some (lit "pse"); Some (lit "pse"); None; None; None].
Proof. split; vm_compute; reflexivity. Qed.

Lemma bad_count_raises_witness :
  lit "GigabitEthernet SFP" ∈ count_columns /\
  row_bad_count !! lit "GigabitEthernet SFP" = Some (Some (lit "n/a")) /\
  int_of_str (lit "n/a") = None /\
  raises (create_interfaces row_bad_count) /\
  (forall l, create_interfaces row_bad_count <> Ok l) /\
  (forall isfile, raises (device_of_row isfile row_bad_count)).
Proof.
  assert (lit "GigabitEthernet SFP" ∈ count_columns) as Hkey
    by (apply list_elem_of_In; simpl; tauto).
  assert (row_bad_count !! lit "GigabitEthernet SFP" = Some (Some (lit "n/a")))
    as Hcell by (vm_compute; reflexivity).
  assert (int_of_str (lit "n/a") = None) as Hint by (vm_compute; reflexivity).
  split; [exact Hkey|]. split; [exact Hcell|]. split; [exact Hint|].
  apply (bad_count_raises row_bad_count (lit "GigabitEthernet SFP") Hkey).
  right. right. exists (lit "n/a"). split; [exact Hcell|]. left. exact Hint.
Defined.

(** C8 as stated fails: a count need not be non-negative.  The row with
    [-1] in the GigabitEthernet SFP column gives its interface list. *)
Lemma negative_count_is_read :
  ~ (forall (RT : Runtime) (row : Row) (key : str) (l : list Interface),
       key ∈ count_columns -> create_interfaces row = Ok l ->
       exists (s : str) (n : Z),
         row !! key = Some (Some s) /\ int_of_str s = Some n /\ (0 <= n)%Z).
Proof.
  intros Hall.
  assert (exists l, create_interfaces row_negative_count = Ok l) as [l Hl]
    by (eexists; vm_compute; reflexivity).
  destruct (Hall _ row_negative_count (lit "GigabitEthernet SFP") l)
    as (s & n & Hs & Hn & Hpos); [|exact Hl|].
  { apply list_elem_of_In. simpl. tauto. }
  vm_compute in Hs. injection Hs as <-.
  vm_compute in Hn. injection Hn as <-. lia.
Qed.

Lemma vlan1_is_last_witness :
  create_interfaces row_flat = Ok ifaces_flat /\
  ifaces_flat <> [] /\
  exists v, last ifaces_flat = Some v /\ name v = lit "Vlan1" /\
            type v = lit "virtual" /\ enabled v = true /\
            mgmt_only v = Some false.
Proof.
  assert (create_interfaces row_flat = Ok ifaces_flat) as H
    by (vm_compute; reflexivity).
  split; [exact H|]. exact (vlan1_is_last row_flat ifaces_flat H).
Defined.

Lemma device_slug_and_model_witness :
  exists fn d,
    device_of_row no_images row_flat = Ok (fn, d) /\
    slug d = lit "cisco-c1300-8t-e-2g" /\
    model d = lit "Catalyst 1300-8T-E-2G".
Proof.
  assert (device_of_row no_images row_flat = device_flat) as H
    by (vm_compute; reflexivity).
  unfold device_flat in H.
  match type of H with
  | _ = Ok (?fn, ?d) =>
      exists fn, d; split; [exact H|];
      destruct (device_slug_and_model no_images row_flat fn d H)
        as (m & Hm & Hslug & Hmodel & _)
  end.
  vm_compute in Hm. injection Hm as <-.
  split; [rewrite Hslug | rewrite Hmodel]; vm_compute; reflexivity.
Defined.

(** C6 as stated fails: on a row whose model cell names two models, both
    occurrences of [C1300] are rewritten, not one. *)
Lemma single_substitution_fails :
  ~ (forall (RT : Runtime) (isfile : str -> bool) (row : Row) fn d,
       device_of_row isfile row = Ok (fn, d) ->
       exists m : str,
         row !! lit "Model" = Some (Some m) /\
         slug d = lit "cisco-" ++ slugify m /\
         model d = replace_first (lit "C1300") (lit "Catalyst 1300") m).
Proof.
  intros Hall.
  assert (device_of_row no_images row_two_models = device_two_models) as H
    by (vm_compute; reflexivity).
  unfold device_two_models in H.
  match type of H with
  | _ = Ok (?fn, ?d) =>
      destruct (Hall _ no_images row_two_models fn d H)
        as (m & Hm & _ & Hmodel)
  end.
  vm_compute in Hm. injection Hm as <-.
  vm_compute in Hmodel. discriminate Hmodel.
Qed.

(** A negative count is read like any other integer: [range] of it is
    empty, so the category gives no interface and nothing is raised. *)
Remark negative_count_accepted :
  exists l, create_interfaces row_negative_count = Ok l /\
            name <$> l = [lit "GigabitEthernet1"; lit "GigabitEthernet2";
                          lit "TenGigabitEthernet1"; lit "Vlan1"].
Proof. eexists. split; vm_compute; reflexivity. Qed.

End GenerateExamples.

(** * Further properties of [generate.py] on the example rows *)

Module GenerateMoreExamples.
Import Py Generate GenerateSpec GenerateSpec2 GenerateFacts GenerateMore.
Import Examples MoreExamples.
#[local] Existing Instance AsciiRuntime.runtime.
Local Open Scope Z_scope.

Lemma interface_names_witness :
  create_interfaces row_oob = Ok ifaces_oob /\
  exists is_stacking c has_oob,
    stacking row_oob = Ok is_stacking /\ read_counts row_oob = Ok c /\
    oob_test row_oob = Ok has_oob /\
    name <$> ifaces_oob =
      numbered (base_name_1g is_stacking) (total_1g c)
      ++ numbered (base_name_10g is_stacking) (total_10g c)
      ++ (if has_oob then [lit "OOB"] else [])
      ++ [lit "Vlan1"] /\
    Z.of_nat (length ifaces_oob) =
      total_1g c + total_10g c + (if has_oob then 1 else 0) + 1.
Proof.
  assert (create_interfaces row_oob = Ok ifaces_oob) as H
    by (vm_compute; reflexivity).
  split; [exact H|]. exact (interface_names row_oob ifaces_oob H).
Defined.

Lemma interface_names_distinct_witness :
  create_interfaces row_stacking = Ok ifaces_stacking /\
  NoDup (name <$> ifaces_stacking).
Proof.
  assert (create_interfaces row_stacking = Ok ifaces_stacking) as H
    by (vm_compute; reflexivity).
  split; [exact H|].
  exact (interface_names_distinct row_stacking ifaces_stacking H).
Defined.

Lemma interface_flags_witness :
  create_interfaces row_oob = Ok ifaces_oob /\
  Forall (fun i =>
            enabled i = true /\
            (mgmt_only i = Some true <-> name i = lit "OOB") /\
            (mgmt_only i = Some false <-> name i = lit "Vlan1") /\
            (mgmt_only i = None <->
             name i <> lit "OOB" /\ name i <> lit "Vlan1")) ifaces_oob.
Proof.
  assert (create_interfaces row_oob = Ok ifaces_oob) as H
    by (vm_compute; reflexivity).
  split; [exact H|]. exact (interface_flags row_oob ifaces_oob H).
Defined.

Lemma interface_types_witness :
  create_interfaces row_stacking = Ok ifaces_stacking /\
  Forall (fun i =>
    ((startswith (lit "GigabitEthernet") (name i) = true /\
      type i ∈ [lit "1000base-t"; lit "1000base-x-sfp"; lit "2.5gbase-t"])
     \/ (startswith (lit "TenGigabitEthernet") (name i) = true /\
         type i ∈ [lit "10gbase-t"; lit "10gbase-x-sfpp"])
     \/ i = iface_oob \/ i = iface_vlan1)
    /\ (description i = None
        \/ (type i = lit "1000base-x-sfp" /\
            description i = Some (lit "SFP/RJ45 Combo"))
        \/ (type i = lit "10gbase-x-sfpp" /\
            description i = Some (lit "SFP+/RJ45 Combo")))) ifaces_stacking.
Proof.
  assert (create_interfaces row_stacking = Ok ifaces_stacking) as H
    by (vm_compute; reflexivity).
  split; [exact H|]. exact (interface_types row_stacking ifaces_stacking H).
Defined.

Lemma stacking_default_witness :
  row_no_stacking !! lit "Stacking" = None /\
  stacking row_no_stacking = Ok false /\
  create_interfaces row_no_stacking =
  create_interfaces (<[lit "Stacking" := Some (lit "false")]> row_no_stacking).
Proof.
  assert (row_no_stacking !! lit "Stacking" = None) as H
    by (vm_compute; reflexivity).
  split; [exact H|]. exact (stacking_default row_no_stacking H).
Defined.

Lemma missing_oob_column_witness :
  row_no_oob !! lit "OOB" = None /\
  (forall l, create_interfaces row_no_oob <> Ok l) /\
  create_interfaces row_no_oob = Raise KeyError.
Proof.
  assert (row_no_oob !! lit "OOB" = None) as H by (vm_compute; reflexivity).
  split; [exact H|].
  destruct (missing_oob_column row_no_oob H) as [Hnever Hkey].
  split; [exact Hnever|].
  eapply Hkey; vm_compute; reflexivity.
Defined.

Lemma model_display_length_witness :
  exists fn d (m : str),
    device_of_row no_images row_two_models = Ok (fn, d) /\
    row_two_models !! lit "Model" = Some (Some m) /\
    (length (model d) = length m + 8 * occurrences (lit "C1300") m)%nat /\
    (model d = m <-> contains (lit "C1300") m = false).
Proof.
  assert (device_of_row no_images row_two_models = device_two_models) as H
    by (vm_compute; reflexivity).
  unfold device_two_models in H.
  match type of H with
  | _ = Ok (?fn, ?d) =>
      destruct (model_display_length no_images row_two_models fn d H)
        as (m & Hm); exists fn, d, m; split; [exact H|exact Hm]
  end.
Defined.

Lemma device_slug_shape_witness :
  exists fn d (m : str),
    device_of_row no_images row_flat = Ok (fn, d) /\
    row_flat !! lit "Model" = Some (Some m) /\
    startswith (lit "cisco-") (slug d) = true /\
    forallb slug_char (slug d) = true /\
    contains (lit "--") (slug d) = false /\
    (slugify (slug d) = slug d <->
     List.filter is_slug_alnum (str_lower m) <> []).
Proof.
  assert (device_of_row no_images row_flat = device_flat) as H
    by (vm_compute; reflexivity).
  unfold device_flat in H.
  match type of H with
  | _ = Ok (?fn, ?d) =>
      destruct (device_slug_shape no_images row_flat fn d H)
        as (m & Hm); exists fn, d, m; split; [exact H|exact Hm]
  end.
Defined.

Lemma device_image_probes_witness :
  exists fn d (m : str),
    device_of_row front_only row_flat = Ok (fn, d) /\
    row_flat !! lit "Model" = Some (Some m) /\
    fn = lit "Cisco/" ++ str_upper m ++ lit ".yaml" /\
    part_number d = m /\
    str_lower (slug d) = slug d /\
    front_image d =
      front_only (lit "elevation-images/" ++ slug d ++ lit ".front.png") /\
    rear_image d =
      front_only (lit "elevation-images/" ++ slug d ++ lit ".rear.png").
Proof.
  assert (device_of_row front_only row_flat = device_flat_front) as H
    by (vm_compute; reflexivity).
  unfold device_flat_front in H.
  match type of H with
  | _ = Ok (?fn, ?d) =>
      destruct (device_image_probes front_only row_flat fn d H)
        as (m & Hm); exists fn, d, m; split; [exact H|exact Hm]
  end.
Defined.

Lemma main_stops_at_first_error_witness :
  (main no_images always realpath_w [row_flat] ∅).2 = None /\
  device_of_row no_images row_bad_count = Raise ValueError /\
  main no_images always realpath_w
    ([row_flat] ++ row_bad_count :: [row_stacking]) ∅ =
  ((main no_images always realpath_w [row_flat] ∅).1,
   Some (PyError ValueError)).
Proof.
  assert ((main no_images always realpath_w [row_flat] ∅).2 = None) as H1
    by (vm_compute; reflexivity).
  assert (device_of_row no_images row_bad_count = Raise ValueError) as H2
    by (vm_compute; reflexivity).
  split; [exact H1|]. split; [exact H2|].
  exact (main_stops_at_first_error no_images always realpath_w [row_flat]
           [row_stacking] row_bad_count ∅ ValueError H1 H2).
Defined.

Lemma main_completes_witness :
  (main no_images always realpath_w ([] ++ row_a :: [row_dot_a]) ∅).2 = None /\
  exists fn d,
    device_of_row no_images row_a = Ok (fn, d) /\ always fn = true /\
    let files' :=
      (main no_images always realpath_w ([] ++ row_a :: [row_dot_a]) ∅).1 in
    is_Some (files' !! realpath_w fn) /\
    ((forall row' fn' d', row' ∈ [row_dot_a] ->
        device_of_row no_images row' = Ok (fn', d') ->
        realpath_w fn' <> realpath_w fn)
     -> files' !! realpath_w fn = Some d).
Proof.
  assert ((main no_images always realpath_w ([] ++ row_a :: [row_dot_a]) ∅).2
          = None) as H by (vm_compute; reflexivity).
  split; [exact H|].
  exact (main_completes no_images always realpath_w [] [row_dot_a] row_a ∅ H).
Defined.

(** The rows with the models [a] and [./a] are written to the paths
    [Cisco/A.yaml] and [Cisco/./A.yaml], which name one file: after the
    run it holds the device of the second row. *)
Remark aliased_rows_share_a_file :
  exists fn1 d1 fn2 d2,
    device_of_row no_images row_a = Ok (fn1, d1) /\
    device_of_row no_images row_dot_a = Ok (fn2, d2) /\
    fn1 = lit "Cisco/A.yaml" /\ fn2 = lit "Cisco/./A.yaml" /\
    realpath_w fn1 = realpath_w fn2 /\
    part_number d1 <> part_number d2 /\
    (main no_images always realpath_w [row_a; row_dot_a] ∅).1
      !! realpath_w fn1 = Some d2.
Proof.
  do 4 eexists. split; [vm_compute; reflexivity|].
  split; [vm_compute; reflexivity|].
  split; [reflexivity|]. split; [reflexivity|].
  split; [vm_compute; reflexivity|]. split; [discriminate|].
  vm_compute; reflexivity.
Qed.

End GenerateMoreExamples.

(** * Properties of [crop.py] *)

Module CropFacts.
Import Py PyFacts Crop.
Local Open Scope Z_scope.

(** ** The bounding box *)

Lemma filter_seqZ_elem (P : Z -> bool) m n x :
  x ∈ List.filter P (seqZ m n) <-> P x = true /\ m <= x < m + n.
Proof.
  rewrite list_elem_of_In, filter_In, <- list_elem_of_In, elem_of_seqZ. tauto.
Qed.

Lemma filter_seqZ_head (P : Z -> bool) m n x :
  head (List.filter P (seqZ m n)) = Some x ->
  forall y, P y = true -> m <= y < m + n -> x <= y.
Proof.
  revert m. induction n as [|n Hn IH|] using (Z.succ_pred_induction 0); intros m.
  - by rewrite seqZ_nil.
  - rewrite seqZ_cons by lia. rewrite Z.pred_succ. cbn [List.filter].
    destruct (P m) eqn:Pm.
    + intros [= <-] y _ ?. lia.
    + intros Hx y Py Hy. destruct (decide (y = m)) as [->|]; [congruence|].
      apply (IH _ Hx y Py). lia.
  - by rewrite seqZ_nil by lia.
Qed.

Lemma filter_seqZ_last (P : Z -> bool) m n x :
  last (List.filter P (seqZ m n)) = Some x ->
  forall y, P y = true -> m <= y < m + n -> y <= x.
Proof.
  induction n as [|n Hn IH|] using (Z.succ_pred_induction 0).
  - by rewrite seqZ_nil.
  - replace (Z.succ n) with (n + 1) by lia. rewrite seqZ_app by lia.
    rewrite List.filter_app. rewrite (seqZ_cons (m + n) 1) by lia.
    rewrite (seqZ_nil (Z.succ (m + n))) by lia. cbn [List.filter].
    destruct (P (m + n)) eqn:Pm.
    + rewrite last_snoc. intros [= <-] y _ ?. lia.
    + rewrite app_nil_r. intros Hx y Py Hy.
      destruct (decide (y = m + n)) as [->|]; [congruence|].
      apply (IH Hx y Py). lia.
  - by rewrite seqZ_nil by lia.
Qed.

Lemma head_elem {A} (l : list A) x : head l = Some x -> x ∈ l.
Proof. destruct l; [done|]. intros [= ->]. apply list_elem_of_here. Qed.

Lemma last_elem {A} (l : list A) x : last l = Some x -> x ∈ l.
Proof.
  induction l as [|a l IH] using rev_ind; [done|].
  rewrite last_snoc. intros [= ->]. apply elem_of_app. right.
  apply list_elem_of_here.
Qed.

Lemma existsb_seqZ (P : Z -> bool) m n :
  existsb P (seqZ m n) = true <-> exists y, m <= y < m + n /\ P y = true.
Proof.
  rewrite existsb_exists. split; intros (y & H1 & H2); exists y.
  - apply list_elem_of_In, elem_of_seqZ in H1. done.
  - split; [|done]. by apply list_elem_of_In, elem_of_seqZ.
Qed.

Lemma inside_iff img x y :
  inside img (x, y) = true <->
  0 <= x < (size img).1 /\ 0 <= y < (size img).2.
Proof.
  unfold inside. cbn [fst snd].
  rewrite !andb_true_iff, !Z.leb_le, !Z.ltb_lt. tauto.
Qed.

Lemma getbbox_none (img : Image) :
  getbbox img = None -> forall xy, ~ lit_pixel img xy.
Proof.
  unfold getbbox.
  set (cols := List.filter _ (seqZ 0 (size img).1)).
  set (rows := List.filter _ (seqZ 0 (size img).2)).
  intros Hnone [x y] [Hin Hnz]. apply inside_iff in Hin as [Hx Hy].
  assert (x ∈ cols) as Hc.
  { apply filter_seqZ_elem. split; [|lia]. apply existsb_seqZ. exists y.
    split; [lia|done]. }
  assert (y ∈ rows) as Hr.
  { apply filter_seqZ_elem. split; [|lia]. apply existsb_seqZ. exists x.
    split; [lia|done]. }
  destruct cols as [|c cols] using rev_ind; [by apply not_elem_of_nil in Hc|].
  destruct rows as [|r rows] using rev_ind; [by apply not_elem_of_nil in Hr|].
  rewrite !last_snoc in Hnone.
  destruct (head (cols ++ [c])) eqn:E1; [|by destruct cols].
  destruct (head (rows ++ [r])) eqn:E2; [|by destruct rows]. done.
Qed.

Lemma getbbox_some (img : Image) x0 y0 x1 y1 :
  getbbox img = Some (x0, y0, x1, y1) ->
  (forall x y, lit_pixel img (x, y) -> x0 <= x < x1 /\ y0 <= y < y1) /\
  (exists y, lit_pixel img (x0, y)) /\ (exists y, lit_pixel img (x1 - 1, y)) /\
  (exists x, lit_pixel img (x, y0)) /\ (exists x, lit_pixel img (x, y1 - 1)).
Proof.
  unfold getbbox.
  set (cols := List.filter _ (seqZ 0 (size img).1)).
  set (rows := List.filter _ (seqZ 0 (size img).2)).
  destruct (head cols) as [a|] eqn:Ha; [|done].
  destruct (head rows) as [b|] eqn:Hb; [|done].
  destruct (last cols) as [c|] eqn:Hc; [|done].
  destruct (last rows) as [d|] eqn:Hd; [|done].
  intros [= <- <- <- <-].
  assert (forall x, x ∈ cols -> exists y, lit_pixel img (x, y)) as Hcol.
  { intros x [Hx ?]%filter_seqZ_elem. apply existsb_seqZ in Hx as (y & ? & ?).
    exists y. split; [apply inside_iff; simpl; lia | done]. }
  assert (forall y, y ∈ rows -> exists x, lit_pixel img (x, y)) as Hrow.
  { intros y [Hy ?]%filter_seqZ_elem. apply existsb_seqZ in Hy as (x & ? & ?).
    exists x. split; [apply inside_iff; simpl; lia | done]. }
  split; [|repeat split].
  - intros x y [Hin Hnz]. apply inside_iff in Hin as [Hx Hy].
    assert (existsb (fun y => nonzero (getpixel img (x, y)))
              (seqZ 0 (size img).2) = true) as Px
      by (apply existsb_seqZ; exists y; split; [lia|done]).
    assert (existsb (fun x => nonzero (getpixel img (x, y)))
              (seqZ 0 (size img).1) = true) as Py
      by (apply existsb_seqZ; exists x; split; [lia|done]).
    pose proof (filter_seqZ_head _ _ _ _ Ha x Px).
    pose proof (filter_seqZ_last _ _ _ _ Hc x Px).
    pose proof (filter_seqZ_head _ _ _ _ Hb y Py).
    pose proof (filter_seqZ_last _ _ _ _ Hd y Py). lia.
  - by apply Hcol, head_elem.
  - replace (c + 1 - 1) with c by lia. by apply Hcol, last_elem.
  - by apply Hrow, head_elem.
  - replace (d + 1 - 1) with d by lia. by apply Hrow, last_elem.
Qed.

Lemma opaque_lit_alpha (img : Image) xy :
  opaque img xy <-> lit_pixel (getchannel_A img) xy.
Proof.
  unfold opaque, lit_pixel, inside, nonzero. simpl.
  rewrite orb_false_r, negb_true_iff, Z.eqb_neq. tauto.
Qed.

Lemma mode_eqb_RGBA m : mode_eqb m RGBA = true -> m = RGBA.
Proof. by destruct m. Qed.

(** [float_9_8] is the double nearest to 9.8: a mantissa of 53 bits within
    half a unit in the last place of [9.8 * 2^49]. *)
Remark float_9_8_nearest :
  2 ^ 52 <= 5516909543528858 < 2 ^ 53 /\
  2 * Z.abs (5 * 5516909543528858 - 49 * 2 ^ 49) <= 5.
Proof. split; [split|]; vm_compute; congruence. Qed.

(** [int(9.8 * h)] is the integer part of [9.8 * h] for every height a
    Pillow image can have. *)
Lemma target_width_exact (h : Z) :
  0 <= h < 2 ^ 31 -> target_width_of h = Ok (49 * h / 5).
Proof.
  intros [H0 H1]. destruct h as [|p|p]; [reflexivity| |lia].
  destruct (float_of_int_small p H1) as (mz & s & Hf & Hs & Hmz & Hb).
  unfold target_width_of. rewrite Hf. cbn [bind].
  unfold float_mul, float_9_8. cbn [SFmul xorb].
  set (P' := (5516909543528858 * mz)%positive).
  assert (Zpos P' = 5516909543528858 * (Zpos p * 2 ^ s)) as HP
    by (unfold P'; rewrite Pos2Z.inj_mul; lia).
  pose proof (digits2_pos_bounds P') as [HDlo HDhi].
  set (D := Zpos (digits2_pos P')) in *.
  assert (2 ^ 104 <= Zpos P' < 2 ^ 106) as [HPlo HPhi].
  { unfold P'. rewrite Pos2Z.inj_mul.
    change (2 ^ 104) with (2 ^ 52 * 2 ^ 52).
    change (2 ^ 106) with (2 ^ 53 * 2 ^ 53).
    change (2 ^ 52) with 4503599627370496 in *.
    change (2 ^ 53) with 9007199254740992 in *. nia. }
  assert (105 <= D <= 106) as HD.
  { split.
    - destruct (Z.le_gt_cases 105 D) as [|Hlt]; [done|].
      assert (2 ^ D <= 2 ^ 104) by (apply Z.pow_le_mono_r; lia). lia.
    - destruct (Z.le_gt_cases D 106) as [|Hgt]; [done|].
      assert (2 ^ 106 <= 2 ^ (D - 1)) by (apply Z.pow_le_mono_r; lia). lia. }
  destruct (binary_round_aux_round P' (-49 + - s))
    as (m' & e' & q' & -> & He' & Hq' & Hm');
    fold D; unfold prec, emax in *; try lia.
  fold D in He', Hq', Hm'. set (n := D - 53) in *.
  cbn [int_of_float]. destruct e' as [|k|k]; try lia. f_equal.
  rewrite HP in Hq'.
  replace (Zpos k) with (49 + s - n - (Z.neg k - (-49 + - s + n))) by lia.
  apply (width_arith (Zpos p) s n q' (Zpos m')); try lia.
Qed.

Lemma getbbox_bounds (img : Image) x0 y0 x1 y1 :
  getbbox (getchannel_A img) = Some (x0, y0, x1, y1) ->
  0 <= x0 < x1 /\ x1 <= (size img).1 /\ 0 <= y0 < y1 /\ y1 <= (size img).2.
Proof.
  intros (Hall & [ya Ha] & [yb Hb] & [xc Hc] & [xd Hd])%getbbox_some.
  pose proof (Hall _ _ Ha). pose proof (Hall _ _ Hc).
  destruct Ha as [Ha _], Hb as [Hb _], Hc as [Hc _], Hd as [Hd _].
  apply inside_iff in Ha, Hb, Hc, Hd. simpl in *. lia.
Qed.

Lemma crop_inside (img : Image) x0 y0 x1 y1 x y :
  0 <= x0 <= x1 -> x1 <= (size img).1 -> 0 <= y0 <= y1 ->
  y1 <= (size img).2 ->
  inside (crop img (x0, y0, x1, y1)) (x, y) = true ->
  inside img (x + x0, y + y0) = true /\
  getpixel (crop img (x0, y0, x1, y1)) (x, y) = getpixel img (x + x0, y + y0).
Proof.
  intros Hx Hx1 Hy Hy1 Hin. apply inside_iff in Hin. simpl in Hin.
  assert (inside img (x + x0, y + y0) = true) as Hin'
    by (apply inside_iff; simpl; lia).
  split; [done|]. cbn [crop getpixel fst snd]. by rewrite Hin'.
Qed.

Section WithPillow.
Context `{PIL : Pillow}.

Lemma as_rgba_mode (img : Image) : mode (as_rgba img) = RGBA.
Proof.
  unfold as_rgba. destruct (mode_eqb (mode img) RGBA) eqn:E.
  - by apply mode_eqb_RGBA.
  - apply convert_mode.
Qed.

Lemma as_rgba_size (img : Image) : size (as_rgba img) = size img.
Proof.
  unfold as_rgba. destruct (mode_eqb (mode img) RGBA); [done|].
  apply convert_size.
Qed.

Lemma as_rgba_id (img : Image) : mode img = RGBA -> as_rgba img = img.
Proof. unfold as_rgba. by intros ->. Qed.

Lemma getbbox_minimal (img : Image) box :
  getbbox (getchannel_A img) = Some box -> minimal_bounding_box img box.
Proof.
  destruct box as [[[x0 y0] x1] y1].
  intros (Hall & [ya Ha] & [yb Hb] & [xc Hc] & [xd Hd])%getbbox_some.
  apply opaque_lit_alpha in Ha, Hb, Hc, Hd. split.
  - intros [x y] Hop%opaque_lit_alpha. by apply Hall.
  - intros [[[x0' y0'] x1'] y1'] Henc.
    apply Henc in Ha, Hb, Hc, Hd. unfold encloses in *. simpl in *. lia.
Qed.

(** C7: on an image all of whose pixels have zero alpha,
    [crop_transparent_png] raises nothing and returns the image as it is
    (as converted to RGBA when it was not RGBA already), of the same
    size; on an image with a pixel of non-zero alpha it returns the image
    cropped to the least rectangle [(x0, y0, x1, y1)] that holds all
    pixels of non-zero alpha: an RGBA image of size [(x1 - x0, y1 - y0)]
    whose pixel at [(x, y)] is the pixel of the image at
    [(x + x0, y + y0)]. *)
Theorem crop_transparent_png_bbox (Image_open : str -> result Image)
  (input_path : str) (img : Image) :
  Image_open input_path = Ok img ->
  let rgba := as_rgba img in
  ((forall xy, ~ opaque rgba xy) ->
     crop_transparent_png Image_open input_path = Ok rgba /\
     (mode img = RGBA -> rgba = img) /\
     size rgba = size img)
  /\ ((exists xy, opaque rgba xy) ->
     exists x0 y0 x1 y1 out,
       crop_transparent_png Image_open input_path = Ok out /\
       out = crop rgba (x0, y0, x1, y1) /\
       minimal_bounding_box rgba (x0, y0, x1, y1) /\
       mode out = RGBA /\
       size out = (x1 - x0, y1 - y0) /\
       (forall x y, 0 <= x < x1 - x0 -> 0 <= y < y1 - y0 ->
          getpixel out (x, y) = getpixel rgba (x + x0, y + y0))).
Proof.
  intros Hopen rgba. unfold crop_transparent_png. rewrite Hopen. cbn [bind].
  fold (as_rgba img). fold rgba.
  destruct (getbbox (getchannel_A rgba)) as [box|] eqn:Hbox.
  - pose proof (getbbox_minimal _ _ Hbox) as Hmin. split.
    + intros Hnone. exfalso.
      destruct box as [[[x0 y0] x1] y1].
      apply getbbox_some in Hbox as (_ & [y Hy] & _).
      by apply opaque_lit_alpha, Hnone in Hy.
    + intros _. destruct box as [[[x0 y0] x1] y1].
      pose proof (getbbox_bounds _ _ _ _ _ Hbox) as Hb.
      exists x0, y0, x1, y1, (crop rgba (x0, y0, x1, y1)).
      split; [done|]. split; [done|]. split; [done|].
      split; [apply as_rgba_mode|]. split.
      * cbn [crop size]. f_equal; lia.
      * intros x y Hx Hy.
        apply (crop_inside rgba x0 y0 x1 y1 x y); try lia.
        apply inside_iff. cbn [crop size fst snd]. lia.
  - split.
    + intros _. split; [done|]. split; [apply as_rgba_id|apply as_rgba_size].
    + intros [xy Hxy]. exfalso.
      by apply opaque_lit_alpha, (getbbox_none _ Hbox) in Hxy.
Qed.

(** C1: for every image (both dimensions within the range of a C [int],
    as Pillow keeps them), [enforce_10_to_1_aspect] returns an image whose
    height is the height [H] of its input and whose width is the integer
    part of [9.8 * H], whichever of the three cases applies. *)
Theorem enforce_aspect_size (img : Image) :
  valid_size img ->
  exists out,
    enforce_10_to_1_aspect img = Ok out /\
    size out = (49 * (size img).2 / 5, (size img).2).
Proof.
  intros [_ HH]. unfold enforce_10_to_1_aspect. fold (as_rgba img).
  pose proof (as_rgba_size img) as Hsize.
  destruct (size (as_rgba img)) as [width height] eqn:Hwh.
  rewrite <- Hsize. cbn [fst snd].
  rewrite <- Hsize in HH. cbn [snd] in HH.
  rewrite (target_width_exact height HH). cbn [bind].
  destruct (width =? 49 * height / 5) eqn:Heq.
  - apply Z.eqb_eq in Heq. eexists. split; [reflexivity|]. simpl. congruence.
  - destruct (width <? 49 * height / 5); eexists; split; reflexivity.
Qed.


End WithPillow.

End CropFacts.

(** * Further properties of [crop.py] *)

Module CropMore.
Import Py PyFacts Crop CropFacts.
Local Open Scope Z_scope.

Lemma crop_bbox_opaque (img : Image) x0 y0 x1 y1 x y :
  getbbox (getchannel_A img) = Some (x0, y0, x1, y1) ->
  opaque img (x, y) <-> opaque (crop img (x0, y0, x1, y1)) (x - x0, y - y0).
Proof.
  intros Hbox. pose proof (getbbox_bounds _ _ _ _ _ Hbox) as Hb. split.
  - intros Hop. pose proof Hop as [Hin Ha].
    apply getbbox_some in Hbox as (Hall & _).
    pose proof (Hall _ _ (proj1 (opaque_lit_alpha _ _) Hop)) as Hxy.
    assert (inside (crop img (x0, y0, x1, y1)) (x - x0, y - y0) = true)
      as Hin' by (apply inside_iff; simpl; lia).
    split; [done|].
    destruct (crop_inside img x0 y0 x1 y1 (x - x0) (y - y0))
      as [_ ->]; try done; try lia.
    by replace (x - x0 + x0, y - y0 + y0) with (x, y) by (f_equal; lia).
  - intros [Hin Ha].
    destruct (crop_inside img x0 y0 x1 y1 (x - x0) (y - y0))
      as [Hin' Hpx]; try done; try lia.
    rewrite Hpx in Ha.
    replace (x - x0 + x0, y - y0 + y0) with (x, y) in *
      by (f_equal; lia).
    done.
Qed.

Lemma same_image_refl (a : Image) : same_image a a.
Proof. done. Qed.

(** The alpha band of an image cropped to its bounding box has the whole
    image as bounding box. *)
Lemma getbbox_crop_bbox (img : Image) x0 y0 x1 y1 :
  getbbox (getchannel_A img) = Some (x0, y0, x1, y1) ->
  getbbox (getchannel_A (crop img (x0, y0, x1, y1)))
  = Some (0, 0, x1 - x0, y1 - y0).
Proof.
  intros Hbox. pose proof (getbbox_bounds _ _ _ _ _ Hbox) as Hb.
  pose proof Hbox as (Hall & [ya Ha] & [yb Hb'] & [xc Hc] & [xd Hd])
    %getbbox_some.
  apply opaque_lit_alpha, (crop_bbox_opaque _ _ _ _ _ _ _ Hbox) in Ha, Hb',
    Hc, Hd.
  set (out := crop img (x0, y0, x1, y1)) in *.
  destruct (getbbox (getchannel_A out)) as [[[[a b] c] d]|] eqn:Hout.
  - pose proof (getbbox_bounds _ _ _ _ _ Hout) as Hbo.
    apply getbbox_some in Hout as (Hall' & _).
    apply opaque_lit_alpha, Hall' in Ha, Hb', Hc, Hd.
    unfold out in Hbo. cbn [crop size fst snd] in Hbo.
    do 3 f_equal; [f_equal|..]; lia.
  - exfalso. by apply opaque_lit_alpha, (getbbox_none _ Hout) in Ha.
Qed.

Section WithPillow.
Context `{PIL : Pillow}.
Variable Image_open : str -> result Image.

Lemma crop_transparent_png_inv (input_path : str) (img out : Image) :
  Image_open input_path = Ok img ->
  crop_transparent_png Image_open input_path = Ok out ->
  (getbbox (getchannel_A (as_rgba img)) = None /\ out = as_rgba img)
  \/ exists box, getbbox (getchannel_A (as_rgba img)) = Some box /\
                 out = crop (as_rgba img) box.
Proof.
  intros Hopen. unfold crop_transparent_png. rewrite Hopen. cbn [bind].
  fold (as_rgba img).
  destruct (getbbox (getchannel_A (as_rgba img))) as [box|];
    intros [= <-]; eauto.
Qed.

(** X17: [crop_transparent_png] returns an RGBA image for every image
    it can open, never larger than the input in either dimension, at least
    1 by 1 when a pixel has non-zero alpha, and of the input's size when
    none has. *)
Theorem crop_never_grows (input_path : str) (img : Image) :
  Image_open input_path = Ok img ->
  exists out,
    crop_transparent_png Image_open input_path = Ok out /\
    mode out = RGBA /\
    (size out).1 <= (size img).1 /\ (size out).2 <= (size img).2 /\
    ((exists xy, opaque (as_rgba img) xy) ->
     1 <= (size out).1 /\ 1 <= (size out).2) /\
    ((forall xy, ~ opaque (as_rgba img) xy) -> size out = size img).
Proof.
  intros Hopen.
  destruct (crop_transparent_png Image_open input_path) as [out|e] eqn:Hc.
  2:{ unfold crop_transparent_png in Hc. rewrite Hopen in Hc.
      cbn [bind] in Hc. by destruct (getbbox _). }
  exists out. split; [done|].
  pose proof (as_rgba_size img) as Hsz. pose proof (as_rgba_mode img) as Hm.
  destruct (crop_transparent_png_inv _ _ _ Hopen Hc)
    as [[Hnone ->]|([[[x0 y0] x1] y1] & Hbox & ->)].
  - rewrite Hsz. split; [done|]. split; [lia|]. split; [lia|].
    split; [|done]. intros [xy Hxy]. exfalso.
    by apply opaque_lit_alpha, (getbbox_none _ Hnone) in Hxy.
  - pose proof (getbbox_bounds _ _ _ _ _ Hbox) as Hb. rewrite Hsz in Hb.
    cbn [crop mode size fst snd]. split; [done|].
    split; [lia|]. split; [lia|]. split; [lia|].
    intros Hnone. exfalso.
    apply getbbox_some in Hbox as (_ & [y Hy] & _).
    by apply opaque_lit_alpha, Hnone in Hy.
Qed.

(** X18: The image [crop_transparent_png] returns is a window of the
    RGBA input: its pixels are the input's, shifted, and every pixel of
    non-zero alpha of the input is in it. *)
Theorem crop_keeps_opaque_pixels (input_path : str) (img out : Image) :
  Image_open input_path = Ok img ->
  crop_transparent_png Image_open input_path = Ok out ->
  exists dx dy,
    0 <= dx /\ 0 <= dy /\
    (forall x y, inside out (x, y) = true ->
       inside (as_rgba img) (x + dx, y + dy) = true /\
       getpixel out (x, y) = getpixel (as_rgba img) (x + dx, y + dy)) /\
    (forall x y, opaque (as_rgba img) (x, y) <-> opaque out (x - dx, y - dy)).
Proof.
  intros Hopen Hc.
  destruct (crop_transparent_png_inv _ _ _ Hopen Hc)
    as [[Hnone ->]|([[[x0 y0] x1] y1] & Hbox & ->)].
  - exists 0, 0. split; [done|]. split; [done|]. split.
    + intros x y Hin. by rewrite !Z.add_0_r.
    + intros x y. by rewrite !Z.sub_0_r.
  - pose proof (getbbox_bounds _ _ _ _ _ Hbox) as Hb.
    exists x0, y0. split; [lia|]. split; [lia|]. split.
    + intros x y Hin. apply crop_inside; try done; lia.
    + intros x y. by apply crop_bbox_opaque.
Qed.

(** X19: Cropping what [crop_transparent_png] returned changes
    nothing: same mode, same size, same pixels. *)
Theorem crop_idempotent (input_path : str) (img out : Image)
  (Image_open' : str -> result Image) (path' : str) :
  Image_open input_path = Ok img ->
  crop_transparent_png Image_open input_path = Ok out ->
  Image_open' path' = Ok out ->
  exists out',
    crop_transparent_png Image_open' path' = Ok out' /\ same_image out' out.
Proof.
  intros Hopen Hc Hopen'.
  assert (mode out = RGBA) as Hmode.
  { destruct (crop_transparent_png_inv _ _ _ Hopen Hc)
      as [[_ ->]|([[[x0 y0] x1] y1] & _ & ->)]; apply as_rgba_mode. }
  unfold crop_transparent_png at 1. rewrite Hopen'. cbn [bind].
  fold (as_rgba out). rewrite (as_rgba_id out Hmode).
  destruct (crop_transparent_png_inv _ _ _ Hopen Hc)
    as [[Hnone ->]|([[[x0 y0] x1] y1] & Hbox & ->)].
  - rewrite Hnone. eexists. split; [done|apply same_image_refl].
  - rewrite (getbbox_crop_bbox _ _ _ _ _ Hbox).
    pose proof (getbbox_bounds _ _ _ _ _ Hbox) as Hb.
    eexists. split; [done|]. split; [done|]. split.
    + cbn [crop size]. f_equal; lia.
    + intros [x y] Hin.
      set (out := crop (as_rgba img) (x0, y0, x1, y1)) in *.
      assert (inside out (x, y) = true) as Hin'.
      { apply inside_iff in Hin. apply inside_iff.
        unfold out in *. cbn [crop size fst snd] in *. lia. }
      destruct (crop_inside out 0 0 (x1 - x0) (y1 - y0) x y) as [_ ->];
        try (unfold out; cbn [crop size fst snd]; lia); [done|].
      by replace (x + 0, y + 0) with (x, y) by (f_equal; lia).
Qed.

End WithPillow.
Section Passes.
Context `{PIL : Pillow}.

Lemma paste_white_pixel (w h : Z) (src : Image) (xy : Z * Z) :
  getpixel (paste (new RGB (w, h) white) src) xy =
  if inside src xy then over_white (getpixel src xy) else white.
Proof. done. Qed.

Lemma enforce_size (img : Image) :
  0 <= (size img).2 < 2 ^ 31 ->
  exists out,
    enforce_10_to_1_aspect img = Ok out /\
    size out = (49 * (size img).2 / 5, (size img).2).
Proof.
  intros HH. unfold enforce_10_to_1_aspect. fold (as_rgba img).
  pose proof (as_rgba_size img) as Hsize.
  destruct (size (as_rgba img)) as [width height] eqn:Hwh.
  rewrite <- Hsize in *. cbn [fst snd] in *.
  rewrite (target_width_exact height HH). cbn [bind].
  destruct (width =? 49 * height / 5) eqn:Heq.
  - apply Z.eqb_eq in Heq. eexists. split; [reflexivity|]. simpl. congruence.
  - destruct (width <? 49 * height / 5); eexists; split; reflexivity.
Qed.

Lemma enforce_pixels (img out : Image) :
  enforce_10_to_1_aspect img = Ok out ->
  mode out = RGB /\ (size out).2 = (size img).2 /\
  forall x y, inside out (x, y) = true ->
    getpixel out (x, y) =
    if x <? (size img).1 then over_white (getpixel (as_rgba img) (x, y))
    else white.
Proof.
  unfold enforce_10_to_1_aspect. fold (as_rgba img).
  pose proof (as_rgba_size img) as Hsize.
  destruct (size (as_rgba img)) as [width height] eqn:Hwh.
  rewrite <- Hsize. cbn [fst snd].
  destruct (target_width_of height) as [tw|e]; [|done]. cbn [bind].
  destruct (width =? tw) eqn:Heq; [|destruct (width <? tw) eqn:Hlt];
    intros [= <-]; (split; [done|]); (split; [done|]); intros x y Hin;
    rewrite paste_white_pixel; apply inside_iff in Hin;
    cbn [paste new size fst snd] in Hin.
  - apply Z.eqb_eq in Heq.
    replace (inside (as_rgba img) (x, y)) with true
      by (symmetry; apply inside_iff; rewrite Hwh; simpl; lia).
    by replace (x <? width) with true by lia.
  - destruct (x <? width) eqn:Hx.
    + by replace (inside (as_rgba img) (x, y)) with true
        by (symmetry; apply inside_iff; rewrite Hwh; simpl; lia).
    + replace (inside (as_rgba img) (x, y)) with false; [done|].
      symmetry. apply not_true_is_false. rewrite inside_iff, Hwh. simpl. lia.
  - replace (x <? width) with true by lia.
    replace (inside (crop (as_rgba img) (0, 0, tw, height)) (x, y)) with true
      by (symmetry; apply inside_iff; simpl; lia).
    cbn [crop getpixel fst snd]. rewrite !Z.add_0_r.
    by replace (inside (as_rgba img) (x, y)) with true
      by (symmetry; apply inside_iff; rewrite Hwh; simpl; lia).
Qed.

(** X20: The image [enforce_10_to_1_aspect] returns is RGB, as high as
    the input, and left-aligned: left of the input's width a pixel is the
    input's pixel over white, right of it the pixel is white. *)
Theorem enforce_layout (img out : Image) :
  enforce_10_to_1_aspect img = Ok out ->
  mode out = RGB /\ (size out).2 = (size img).2 /\
  forall x y, inside out (x, y) = true ->
    getpixel out (x, y) =
    if x <? (size img).1 then over_white (getpixel (as_rgba img) (x, y))
    else white.
Proof. apply enforce_pixels. Qed.

Variable Image_open : str -> result Image.

(** X21: [process_image] saves an image for every readable image of a
    valid size: RGB, of size [(49 * h / 5, h)] where [h] is the height of
    the bounding box of the pixels of non-zero alpha, or the input's height
    when there is none. *)
Theorem process_image_result (input_path : str) (img : Image) :
  Image_open input_path = Ok img ->
  valid_size img ->
  exists out h,
    process_image Image_open input_path = Ok out /\
    mode out = RGB /\ size out = (49 * h / 5, h) /\
    ((forall xy, ~ opaque (as_rgba img) xy) /\ h = (size img).2
     \/ exists x0 y0 x1 y1,
          minimal_bounding_box (as_rgba img) (x0, y0, x1, y1) /\
          h = y1 - y0 /\ 1 <= h <= (size img).2).
Proof.
  intros Hopen [HW HH]. unfold process_image.
  destruct (crop_transparent_png Image_open input_path) as [c|e] eqn:Hc.
  2:{ unfold crop_transparent_png in Hc. rewrite Hopen in Hc.
      cbn [bind] in Hc. by destruct (getbbox _). }
  cbn [bind]. pose proof (as_rgba_size img) as Hsz.
  assert (0 <= (size c).2 < 2 ^ 31 -> exists out,
    enforce_10_to_1_aspect c = Ok out /\ mode out = RGB /\
    size out = (49 * (size c).2 / 5, (size c).2)) as Henf.
  { intros Hv. destruct (enforce_size c Hv) as (out & Hout & Hs).
    exists out. split; [done|]. split; [|done].
    by destruct (enforce_pixels _ _ Hout). }
  destruct (crop_transparent_png_inv _ _ _ _ Hopen Hc)
    as [[Hnone ->]|([[[x0 y0] x1] y1] & Hbox & ->)].
  - destruct Henf as (out & Hout & Hm & Hs).
    { by rewrite Hsz. }
    exists out, (size img).2. rewrite Hsz in Hs. split; [done|].
    split; [done|]. split; [done|]. left. split; [|done].
    intros xy Hxy. by apply opaque_lit_alpha, (getbbox_none _ Hnone) in Hxy.
  - pose proof (getbbox_bounds _ _ _ _ _ Hbox) as Hb. rewrite Hsz in Hb.
    destruct Henf as (out & Hout & Hm & Hs).
    { cbn [crop size fst snd]. lia. }
    cbn [crop size fst snd] in Hs.
    replace (Z.max 0 (y1 - y0)) with (y1 - y0) in Hs by lia.
    exists out, (y1 - y0). split; [done|]. split; [done|]. split; [done|].
    right. exists x0, y0, x1, y1. split; [by apply getbbox_minimal|].
    split; [done|lia].
Qed.

End Passes.

Lemma getbbox_full (img : Image) :
  1 <= (size img).1 -> 1 <= (size img).2 ->
  (forall xy, inside img xy = true -> nth 3 (getpixel img xy) 0 <> 0) ->
  getbbox (getchannel_A img) = Some (0, 0, (size img).1, (size img).2).
Proof.
  intros Hw Hh Hop.
  assert (opaque img (0, 0)) as H0.
  { assert (inside img (0, 0) = true) by (apply inside_iff; lia).
    split; auto. }
  assert (opaque img ((size img).1 - 1, (size img).2 - 1)) as H1.
  { assert (inside img ((size img).1 - 1, (size img).2 - 1) = true)
      by (apply inside_iff; lia).
    split; auto. }
  destruct (getbbox (getchannel_A img)) as [[[[a b] c] d]|] eqn:Hbox.
  - pose proof (getbbox_bounds _ _ _ _ _ Hbox) as Hb.
    apply getbbox_some in Hbox as (Hall & _).
    apply opaque_lit_alpha, Hall in H0, H1.
    do 3 f_equal; [f_equal|..]; lia.
  - exfalso. by apply opaque_lit_alpha, (getbbox_none _ Hbox) in H0.
Qed.

Section Rerun.
Context `{OP : OpaquePillow}.
Variable Image_open : str -> result Image.

(** X22: An 8-bit RGB image of size [(49 * h / 5, h)] is saved as it
    is: processing a processed file again changes nothing. *)
Theorem process_image_fixed_point (input_path : str) (img : Image) (h : Z) :
  Image_open input_path = Ok img ->
  rgb8 img -> 1 <= h < 2 ^ 31 -> size img = (49 * h / 5, h) ->
  exists out,
    process_image Image_open input_path = Ok out /\ same_image out img.
Proof.
  intros Hopen [Hmode Hpx] Hh Hsize.
  assert (1 <= 49 * h / 5) as Hw by (apply Z.div_le_lower_bound; lia).
  assert (as_rgba img = convert img RGBA) as Hrgba
    by (unfold as_rgba; by rewrite Hmode).
  pose proof (as_rgba_size img) as Hsz. rewrite Hsize in Hsz.
  assert (forall xy, inside img xy = true ->
            exists r g b, getpixel img xy = [r; g; b] /\
              getpixel (as_rgba img) xy = [r; g; b; 255] /\
              0 <= r <= 255 /\ 0 <= g <= 255 /\ 0 <= b <= 255) as Hpx'.
  { intros xy (r & g & b & Heq & ?)%Hpx. exists r, g, b.
    rewrite Hrgba, (convert_rgb img xy r g b Hmode Heq). done. }
  assert (forall xy, inside (as_rgba img) xy = inside img xy) as Hin.
  { intros xy. unfold inside. by rewrite Hsz, Hsize. }
  assert (getbbox (getchannel_A (as_rgba img))
          = Some (0, 0, 49 * h / 5, h)) as Hbox.
  { rewrite (getbbox_full (as_rgba img)).
    - by rewrite Hsz.
    - rewrite Hsz. simpl. lia.
    - rewrite Hsz. simpl. lia.
    - intros xy Hxy. rewrite Hin in Hxy.
      destruct (Hpx' xy Hxy) as (r & g & b & _ & -> & _). done. }
  unfold process_image, crop_transparent_png. rewrite Hopen. cbn [bind].
  fold (as_rgba img). rewrite Hbox. cbn [bind].
  set (c := crop (as_rgba img) (0, 0, 49 * h / 5, h)).
  assert (size c = (49 * h / 5, h)) as Hc
    by (unfold c; cbn [crop size]; f_equal; lia).
  unfold enforce_10_to_1_aspect. fold (as_rgba c).
  rewrite (as_rgba_id c) by apply as_rgba_mode. rewrite Hc.
  rewrite (target_width_exact h) by lia. cbn [bind]. rewrite Z.eqb_refl.
  eexists. split; [done|]. split; [by rewrite Hmode|].
  split; [by rewrite Hsize|].
  intros [x y] Hxy. rewrite paste_white_pixel.
  assert (inside img (x, y) = true) as Hxy'.
  { apply inside_iff in Hxy. apply inside_iff. rewrite Hsize.
    cbn [paste new size fst snd] in *. lia. }
  replace (inside c (x, y)) with true
    by (symmetry; rewrite inside_iff, Hc; apply inside_iff in Hxy';
        rewrite Hsize in Hxy'; done).
  unfold c. cbn [crop getpixel fst snd]. rewrite !Z.add_0_r, Hin, Hxy'.
  destruct (Hpx' _ Hxy') as (r & g & b & -> & -> & Hr & Hg & Hb).
  unfold over_white, white. cbn [zip_with nth].
  by rewrite !blend_opaque.
Qed.

End Rerun.

Lemma endswith_iff (suffix s : str) :
  endswith suffix s = true <-> exists stem, s = stem ++ suffix.
Proof.
  unfold endswith. rewrite bool_decide_eq_true. split.
  - intros H. exists (take (length s - length suffix) s).
    transitivity (take (length s - length suffix) s
                  ++ drop (length s - length suffix) s);
      [by rewrite take_drop|by rewrite H].
  - intros [stem ->]. rewrite length_app.
    replace (length stem + length suffix - length suffix)%nat
      with (length stem) by lia.
    by rewrite drop_app_length.
Qed.

Section Directory.
Context `{RT : Runtime} `{PIL : Pillow} `{OS : OsPath}.
Variable can_save : str -> Image -> bool.
Variable listdir : str -> option (list str).

Lemma process_image_mode (Image_open : str -> result Image) (p : str)
  (out : Image) :
  process_image Image_open p = Ok out -> mode out = RGB.
Proof.
  unfold process_image.
  destruct (crop_transparent_png Image_open p) as [c|e]; [|done].
  cbn [bind]. intros Hout. by destruct (enforce_pixels _ _ Hout).
Qed.

Lemma process_image_at_inv (files : Files) (input output : str)
  (files' : Files) (r : option Failure) :
  process_image_at can_save files input output = (files', r) ->
  (r = None /\ exists img out,
     files !! input = Some img /\
     process_image (fun _ => Ok img) input = Ok out /\
     can_save output out = true /\ files' = <[output := out]> files)
  \/ (files' = files /\ exists f, r = Some f).
Proof.
  unfold process_image_at. destruct (files !! input) as [img|];
    [|intros [= <- <-]; right; eauto].
  destruct (process_image _ input) as [out|e] eqn:Hout;
    [|intros [= <- <-]; right; eauto].
  destruct (can_save output out) eqn:Hs; intros [= <- <-].
  - left. split; [done|]. by exists img, out.
  - right. eauto.
Qed.

Lemma output_final (d filename : str) :
  output_file_of false d filename = join d (lit "final_" ++ filename).
Proof.
  unfold output_file_of. pose proof (splitext_concat filename) as H.
  destruct (splitext filename) as [name_part ext]. simpl in H.
  by rewrite H.
Qed.

Lemma process_listing_app (ow : bool) (d : str) (l1 l2 : list str) (files : Files) :
  process_listing can_save ow d (l1 ++ l2) files =
  match process_listing can_save ow d l1 files with
  | (files1, None) => process_listing can_save ow d l2 files1
  | (files1, Some f) => (files1, Some f)
  end.
Proof.
  revert files. induction l1 as [|g l1 IH]; intros files; [done|].
  cbn [process_listing app]. destruct (is_png g); [|apply IH].
  destruct (process_image_at _ _ _ _) as [files1 [f|]]; [done|apply IH].
Qed.

Lemma process_listing_lookup (ow : bool) (d : str) (listing : list str)
  (files : Files) (p : str) :
  (process_listing can_save ow d listing files).1 !! p = files !! p
  \/ (p ∈ outputs ow d listing /\
      exists out,
        (process_listing can_save ow d listing files).1 !! p = Some out /\
        mode out = RGB).
Proof.
  revert files. induction listing as [|g listing IH]; intros files;
    [by left|].
  cbn [process_listing]. unfold outputs, png_names. cbn [List.filter].
  destruct (is_png g) eqn:Hg; [|apply IH].
  destruct (process_image_at _ _ _ _) as [files1 r] eqn:Hat.
  apply process_image_at_inv in Hat
    as [(-> & img & out & Hin & Hout & Hs & ->)|(-> & f & ->)]; [|by left].
  rewrite fmap_cons.
  destruct (IH (<[output_file_of ow d g := out]> files)) as [Heq|[Hel Hp]].
  - rewrite Heq. destruct (decide (output_file_of ow d g = p)) as [<-|Hp].
    + right. split; [left|]. exists out. rewrite lookup_insert_eq.
      eauto using process_image_mode.
    + left. by apply lookup_insert_ne.
  - right. split; [by right|done].
Qed.

Lemma process_listing_changed (ow : bool) (d : str) (listing : list str)
  (files : Files) (p : str) :
  (process_listing can_save ow d listing files).1 !! p <> files !! p ->
  (exists out, (process_listing can_save ow d listing files).1 !! p = Some out
               /\ mode out = RGB) /\
  p ∈ outputs ow d listing.
Proof.
  intros Hne. by destruct (process_listing_lookup ow d listing files p)
    as [?|[? ?]].
Qed.

Lemma process_listing_keeps (ow : bool) (d : str) (listing : list str)
  (files : Files) (p : str) :
  is_Some (files !! p) ->
  is_Some ((process_listing can_save ow d listing files).1 !! p).
Proof.
  revert files. induction listing as [|g listing IH]; intros files Hp;
    [done|].
  cbn [process_listing]. destruct (is_png g); [|by apply IH].
  destruct (process_image_at _ _ _ _) as [files1 r] eqn:Hat.
  apply process_image_at_inv in Hat
    as [(-> & img & out & Hin & Hout & Hs & ->)|(-> & f & ->)]; [|done].
  apply IH. destruct (decide (output_file_of ow d g = p)) as [->|Hne].
  - rewrite lookup_insert_eq. eauto.
  - by rewrite lookup_insert_ne.
Qed.

Lemma outputs_elem (ow : bool) (d : str) (listing : list str) (p : str) :
  p ∈ outputs ow d listing <->
  exists filename, filename ∈ listing /\ is_png filename = true /\
                   p = output_file_of ow d filename.
Proof.
  unfold outputs, png_names. rewrite list_elem_of_fmap. split.
  - intros (f & -> & Hf). apply list_elem_of_In, filter_In in Hf as [Hf ?].
    apply list_elem_of_In in Hf. eauto.
  - intros (f & Hf & Hpng & ->). exists f. split; [done|].
    apply list_elem_of_In, filter_In. by rewrite <- list_elem_of_In.
Qed.

(** X23: [process_directory] deletes no file, and a path whose content
    it changes holds an RGB image and is the output path of a listed name
    that ends in [.png] once lower-cased. *)
Theorem walk_changes_only_outputs (directory_path : str) (overwrite : bool)
  (files : Files) (p : str) :
  let files' :=
    (process_directory can_save listdir directory_path overwrite files).1 in
  (is_Some (files !! p) -> is_Some (files' !! p)) /\
  (files' !! p <> files !! p ->
   (exists out, files' !! p = Some out /\ mode out = RGB) /\
   exists listing filename stem,
     listdir (abspath directory_path) = Some listing /\
     filename ∈ listing /\ str_lower filename = stem ++ lit ".png" /\
     p = output_file_of overwrite (abspath directory_path) filename).
Proof.
  unfold process_directory.
  destruct (listdir (abspath directory_path)) as [listing|]; [|done].
  cbv zeta. split; [apply process_listing_keeps|].
  intros [Hout (f & Hf & Hpng & ->)%outputs_elem]%process_listing_changed.
  split; [done|]. apply endswith_iff in Hpng as [stem Hstem]. eauto 10.
Qed.

(** X24: With [overwrite] the output path is the input path; without
    it the output name is [final_] followed by the whole input name,
    whatever [os.path.splitext] takes for the extension. *)
Theorem walk_output_names (directory_path filename : str) :
  output_file_of true directory_path filename = join directory_path filename
  /\ output_file_of false directory_path filename
     = join directory_path (lit "final_" ++ filename).
Proof. split; [done|apply output_final]. Qed.

(** X25: With [overwrite] the directory walk creates no file: the
    paths with an image are the same before and after, failure or not. *)
Theorem walk_overwrite_same_files (directory_path : str) (files : Files)
  (p : str) :
  let files' :=
    (process_directory can_save listdir directory_path true files).1 in
  is_Some (files' !! p) <-> is_Some (files !! p).
Proof.
  unfold process_directory.
  destruct (listdir (abspath directory_path)) as [listing|]; [|done].
  cbv zeta. split; [|apply process_listing_keeps].
  generalize (abspath directory_path) as d. intros d.
  revert files. induction listing as [|g listing IH]; intros files; [done|].
  cbn [process_listing]. destruct (is_png g); [|by apply IH].
  destruct (process_image_at _ _ _ _) as [files1 r] eqn:Hat.
  apply process_image_at_inv in Hat
    as [(-> & img & out & Hin & Hout & Hs & ->)|(-> & f & ->)]; [|done].
  intros Hp%IH. cbn [output_file_of] in Hp.
  destruct (decide (join d g = p)) as [<-|Hne].
  - by rewrite Hin.
  - by rewrite lookup_insert_ne in Hp.
Qed.

(** X26: When a listed PNG name cannot be processed, the walk stops
    there: the files before it stay processed, the failing step writes
    nothing, and no later name is looked at. *)
Theorem walk_stops_at_first_failure (directory_path : str) (overwrite : bool)
  (l1 l2 : list str) (filename : str) (files files1 files2 : Files)
  (f : Failure) :
  listdir (abspath directory_path) = Some (l1 ++ filename :: l2) ->
  process_listing can_save overwrite (abspath directory_path) l1 files
  = (files1, None) ->
  is_png filename = true ->
  process_image_at can_save files1 (join (abspath directory_path) filename)
    (output_file_of overwrite (abspath directory_path) filename)
  = (files2, Some f) ->
  process_directory can_save listdir directory_path overwrite files
  = (files1, Some f) /\ files2 = files1.
Proof.
  intros Hls H1 Hpng Hat. unfold process_directory. rewrite Hls.
  rewrite process_listing_app, H1. cbn [process_listing]. rewrite Hpng, Hat.
  by apply process_image_at_inv in Hat as [(? & _)|(-> & _)].
Qed.

Lemma process_listing_results (ow : bool) (d : str) (listing : list str)
  (files files' : Files) :
  process_listing can_save ow d listing files = (files', None) ->
  NoDup (outputs ow d listing) ->
  (forall f g, f ∈ png_names listing -> g ∈ png_names listing -> f <> g ->
     output_file_of ow d f <> join d g) ->
  forall f, f ∈ png_names listing ->
    exists img out,
      files !! join d f = Some img /\
      process_image (fun _ => Ok img) (join d f) = Ok out /\
      files' !! output_file_of ow d f = Some out.
Proof.
  revert files. induction listing as [|g listing IH]; intros files.
  { intros _ _ _ f Hf. by apply not_elem_of_nil in Hf. }
  cbn [process_listing]. unfold outputs, png_names. cbn [List.filter].
  destruct (is_png g) eqn:Hg; [|apply IH].
  destruct (process_image_at _ _ _ _) as [files1 r] eqn:Hat.
  apply process_image_at_inv in Hat
    as [(-> & img & out & Hin & Hout & Hs & ->)|(-> & f & ->)]; [|done].
  rewrite fmap_cons. intros Hrun [Hnew Hnd]%NoDup_cons Hclobber f Hf.
  assert (g ∉ png_names listing) as Hg'.
  { intros Hel. apply Hnew, list_elem_of_fmap. eauto. }
  apply elem_of_cons in Hf as [->|Hf].
  - exists img, out. split; [done|]. split; [done|].
    replace files' with (process_listing can_save ow d listing
      (<[output_file_of ow d g := out]> files)).1 by by rewrite Hrun.
    destruct (process_listing_lookup ow d listing
      (<[output_file_of ow d g := out]> files) (output_file_of ow d g))
      as [->|[? _]]; [apply lookup_insert_eq|done].
  - destruct (IH _ Hrun Hnd) with (f := f) as (img' & out' & Hin' & ? & ?);
      [|done|].
    { intros f' g' Hf' Hg''. apply Hclobber; by right. }
    exists img', out'. split; [|done].
    rewrite lookup_insert_ne in Hin'; [done|].
    apply Hclobber; [by left|by right|]. by intros ->.
Qed.

(** X27: When the walk finishes and no output path is written twice
    (nor, without [overwrite], read after it was written), every listed PNG
    name had an image, and its output path holds that image processed. *)
Theorem walk_results (directory_path : str) (overwrite : bool)
  (listing : list str) (files files' : Files) :
  listdir (abspath directory_path) = Some listing ->
  process_directory can_save listdir directory_path overwrite files
  = (files', None) ->
  NoDup (outputs overwrite (abspath directory_path) listing) ->
  (overwrite = false ->
   forall f g, f ∈ png_names listing -> g ∈ png_names listing -> f <> g ->
     join (abspath directory_path) (lit "final_" ++ f)
     <> join (abspath directory_path) g) ->
  forall filename, filename ∈ listing -> is_png filename = true ->
    exists img out,
      files !! join (abspath directory_path) filename = Some img /\
      process_image (fun _ => Ok img) (join (abspath directory_path) filename)
      = Ok out /\
      files' !! output_file_of overwrite (abspath directory_path) filename
      = Some out.
Proof.
  unfold process_directory. generalize (abspath directory_path) as d.
  intros d Hls. rewrite Hls.
  intros Hrun Hnd Hclobber f Hf Hpng.
  apply (process_listing_results _ _ _ _ _ Hrun Hnd).
  - destruct overwrite.
    + intros f' g' Hf' Hg' Hne Heq. cbn [output_file_of] in Heq.
      unfold outputs in Hnd. apply Hne.
      apply list_elem_of_lookup in Hf' as [i Hi], Hg' as [j Hj].
      assert (i = j) as ->; [|congruence].
      apply (NoDup_lookup _ i j (join d f') Hnd);
        rewrite list_lookup_fmap; [by rewrite Hi|]. rewrite Hj. simpl.
      by rewrite Heq.
    + intros f' g' ? ? ?. rewrite output_final. by apply Hclobber.
  - apply list_elem_of_In, filter_In. by rewrite <- list_elem_of_In.
Qed.

End Directory.

End CropMore.

(** * [crop.py] on the example images, with the reference Pillow *)

Module CropExamples.
Import Py Crop CropFacts Examples.
#[local] Existing Instance ReferencePillow.pillow.
Local Open Scope Z_scope.

Lemma valid_size_two_dots (w : Z) : 0 <= w < 2 ^ 31 -> valid_size (two_dots w).
Proof. intros Hw. split; [exact Hw|]. simpl. lia. Defined.

Lemma enforce_aspect_size_witness :
  (valid_size (two_dots 6) /\
   exists out, enforce_10_to_1_aspect (two_dots 6) = Ok out /\
               size out = (39, 4))
  /\ (exists out, enforce_10_to_1_aspect (two_dots 39) = Ok out /\
                  size out = (39, 4))
  /\ (exists out, enforce_10_to_1_aspect (two_dots 50) = Ok out /\
                  size out = (39, 4)).
Proof.
  split; [split|split].
  - apply valid_size_two_dots. lia.
  - apply (enforce_aspect_size (two_dots 6)), valid_size_two_dots. lia.
  - apply (enforce_aspect_size (two_dots 39)), valid_size_two_dots. lia.
  - apply (enforce_aspect_size (two_dots 50)), valid_size_two_dots. lia.
Defined.

Lemma crop_transparent_png_bbox_witness :
  (crop_transparent_png (fun _ => Ok transparent) (lit "a.png")
     = Ok transparent
   /\ size (as_rgba transparent) = size transparent)
  /\ exists x0 y0 x1 y1 out,
       crop_transparent_png (fun _ => Ok (two_dots 6)) (lit "b.png") = Ok out /\
       out = crop (two_dots 6) (x0, y0, x1, y1) /\
       minimal_bounding_box (two_dots 6) (x0, y0, x1, y1) /\
       mode out = RGBA /\
       size out = (x1 - x0, y1 - y0) /\
       (forall x y, 0 <= x < x1 - x0 -> 0 <= y < y1 - y0 ->
          getpixel out (x, y) = getpixel (two_dots 6) (x + x0, y + y0)).
Proof.
  split.
  - destruct (crop_transparent_png_bbox (fun _ => Ok transparent)
                (lit "a.png") transparent eq_refl) as [Hnone _].
    destruct Hnone as (H & _ & Hsize).
    + intros xy [_ Halpha]. apply Halpha. reflexivity.
    + split; [exact H|exact Hsize].
  - apply (crop_transparent_png_bbox (fun _ => Ok (two_dots 6)) (lit "b.png")
             (two_dots 6) eq_refl).
    exists (2, 1). split; [reflexivity|]. discriminate.
Defined.

(** On the image with the two dots the result is 3 by 1: the window from
    the first dot to the second. *)
Remark two_dots_cropped :
  exists out,
    crop_transparent_png (fun _ => Ok (two_dots 6)) (lit "b.png") = Ok out /\
    size out = (3, 1) /\
    getpixel out (0, 0) = [10; 20; 30; 200] /\
    getpixel out (1, 0) = [1; 2; 3; 0] /\
    getpixel out (2, 0) = [10; 20; 30; 200].
Proof. eexists. split; [reflexivity|]. repeat split. Qed.

(** Beyond the sizes of images the product is no longer exact: at this
    height the double [9.8 * h] is the next integer above [9.8 * h]. *)
Remark target_width_beyond_int :
  target_width_of 131711372081861 = Ok 1290771446402238 /\
  49 * 131711372081861 / 5 = 1290771446402237.
Proof. split; vm_compute; reflexivity. Qed.

End CropExamples.

(** * Further properties of [crop.py] on the example images *)

Module CropMoreExamples.
Import Py Crop CropFacts CropMore Examples MoreExamples.
#[local] Existing Instance AsciiRuntime.runtime.
#[local] Existing Instance ReferencePillow.pillow.
#[local] Existing Instance ReferenceOpaque.opaque_pillow.
#[local] Existing Instance os_w.
Local Open Scope Z_scope.

Definition open_two_dots (path : str) : result Image := Ok (two_dots 6).

Lemma crop_never_grows_witness :
  exists out,
    crop_transparent_png open_two_dots (lit "b.png") = Ok out /\
    mode out = RGBA /\
    (size out).1 <= 6 /\ (size out).2 <= 4 /\
    ((exists xy, opaque (as_rgba (two_dots 6)) xy) ->
     1 <= (size out).1 /\ 1 <= (size out).2) /\
    ((forall xy, ~ opaque (as_rgba (two_dots 6)) xy) ->
     size out = size (two_dots 6)).
Proof.
  exact (crop_never_grows open_two_dots (lit "b.png") (two_dots 6) eq_refl).
Defined.

Lemma crop_keeps_opaque_pixels_witness :
  crop_transparent_png open_two_dots (lit "b.png")
    = Ok (crop (two_dots 6) (2, 1, 5, 2)) /\
  exists dx dy,
    0 <= dx /\ 0 <= dy /\
    (forall x y, inside (crop (two_dots 6) (2, 1, 5, 2)) (x, y) = true ->
       inside (as_rgba (two_dots 6)) (x + dx, y + dy) = true /\
       getpixel (crop (two_dots 6) (2, 1, 5, 2)) (x, y)
       = getpixel (as_rgba (two_dots 6)) (x + dx, y + dy)) /\
    (forall x y, opaque (as_rgba (two_dots 6)) (x, y) <->
                 opaque (crop (two_dots 6) (2, 1, 5, 2)) (x - dx, y - dy)).
Proof.
  assert (crop_transparent_png open_two_dots (lit "b.png")
          = Ok (crop (two_dots 6) (2, 1, 5, 2))) as H by reflexivity.
  split; [exact H|].
  exact (crop_keeps_opaque_pixels open_two_dots (lit "b.png") (two_dots 6)
           _ eq_refl H).
Defined.

Lemma crop_idempotent_witness :
  crop_transparent_png open_two_dots (lit "b.png")
    = Ok (crop (two_dots 6) (2, 1, 5, 2)) /\
  exists out',
    crop_transparent_png (fun _ => Ok (crop (two_dots 6) (2, 1, 5, 2)))
      (lit "c.png") = Ok out' /\
    same_image out' (crop (two_dots 6) (2, 1, 5, 2)).
Proof.
  assert (crop_transparent_png open_two_dots (lit "b.png")
          = Ok (crop (two_dots 6) (2, 1, 5, 2))) as H by reflexivity.
  split; [exact H|].
  exact (crop_idempotent open_two_dots (lit "b.png") (two_dots 6) _
           (fun _ => Ok (crop (two_dots 6) (2, 1, 5, 2))) (lit "c.png")
           eq_refl H eq_refl).
Defined.

Lemma enforce_layout_witness :
  enforce_10_to_1_aspect (two_dots 6)
    = Ok (paste (new RGB (39, 4) white) (two_dots 6)) /\
  mode (paste (new RGB (39, 4) white) (two_dots 6)) = RGB /\
  (size (paste (new RGB (39, 4) white) (two_dots 6))).2 = 4 /\
  forall x y,
    inside (paste (new RGB (39, 4) white) (two_dots 6)) (x, y) = true ->
    getpixel (paste (new RGB (39, 4) white) (two_dots 6)) (x, y) =
    if x <? 6 then over_white (getpixel (as_rgba (two_dots 6)) (x, y))
    else white.
Proof.
  assert (enforce_10_to_1_aspect (two_dots 6)
          = Ok (paste (new RGB (39, 4) white) (two_dots 6))) as H
    by (vm_compute; reflexivity).
  split; [exact H|]. exact (enforce_layout (two_dots 6) _ H).
Defined.

Lemma process_image_result_witness :
  valid_size (two_dots 6) /\
  exists out h,
    process_image open_two_dots (lit "b.png") = Ok out /\
    mode out = RGB /\ size out = (49 * h / 5, h) /\
    ((forall xy, ~ opaque (as_rgba (two_dots 6)) xy) /\ h = 4
     \/ exists x0 y0 x1 y1,
          minimal_bounding_box (as_rgba (two_dots 6)) (x0, y0, x1, y1) /\
          h = y1 - y0 /\ 1 <= h <= 4).
Proof.
  assert (valid_size (two_dots 6)) as Hv by (split; simpl; lia).
  split; [exact Hv|].
  exact (process_image_result open_two_dots (lit "b.png") (two_dots 6)
           eq_refl Hv).
Defined.

Lemma process_image_fixed_point_witness :
  rgb8 strip /\
  exists out,
    process_image (fun _ => Ok strip) (lit "s.png") = Ok out /\
    same_image out strip.
Proof.
  assert (rgb8 strip) as Hrgb.
  { split; [reflexivity|]. intros xy _. exists 10, 20, 30.
    split; [reflexivity|lia]. }
  split; [exact Hrgb|].
  apply (process_image_fixed_point (fun _ => Ok strip) (lit "s.png") strip 1
           eq_refl Hrgb); [lia|reflexivity].
Defined.

Lemma walk_stops_at_first_failure_witness :
  process_directory can_save_all listdir_w (lit "front-rear") true files_w
  = ((process_listing can_save_all true (lit "/w/front-rear")
        [lit "a.png"; lit "notes.txt"] files_w).1,
     Some (OSError (lit "/w/front-rear/b.PNG"))).
Proof.
  set (files1 := (process_listing can_save_all true (lit "/w/front-rear")
                    [lit "a.png"; lit "notes.txt"] files_w).1).
  apply (walk_stops_at_first_failure can_save_all listdir_w
           (lit "front-rear") true [lit "a.png"; lit "notes.txt"]
           [lit "c.png"] (lit "b.PNG") files_w files1 files1
           (OSError (lit "/w/front-rear/b.PNG"))).
  - vm_compute; reflexivity.
  - vm_compute; reflexivity.
  - vm_compute; reflexivity.
  - vm_compute; reflexivity.
Defined.

Lemma walk_results_witness :
  exists img out,
    files_w !! lit "/w/front-rear/c.PNG" = Some img /\
    process_image (fun _ => Ok img) (lit "/w/front-rear/c.PNG") = Ok out /\
    (process_directory can_save_all listdir_ok (lit "front-rear") true
       files_w).1 !! lit "/w/front-rear/c.PNG" = Some out.
Proof.
  refine (walk_results can_save_all listdir_ok (lit "front-rear") true
            [lit "a.png"; lit "notes.txt"; lit "c.PNG"] files_w
            (process_directory can_save_all listdir_ok (lit "front-rear") true
               files_w).1 _ _ _ _ (lit "c.PNG") _ _).
  - vm_compute; reflexivity.
  - vm_compute; reflexivity.
  - apply (bool_decide_unpack _). vm_compute. exact I.
  - discriminate.
  - apply list_elem_of_In. simpl. tauto.
  - vm_compute; reflexivity.
Defined.

End CropMoreExamples.
